(** * NutriPlan: the diet-plan generation pipeline of [src/lib/gemini.ts]

    A shallow embedding of the class [GeminiAPI]: the caloric model, the
    model client, the tolerant JSON extraction and repair, the plan
    validator, the template fallback and the orchestration that ties them
    together, followed by the properties the specification states about
    them.

    Modelling conventions.
    - A JavaScript string is a [string]: a sequence of 8-bit units (the
      UTF-8 bytes of the text).  Every character the code looks for is
      ASCII, and the indices it uses are indices it computed on the same
      string, so the byte view and the UTF-16 view agree on what is cut;
      white space is the one-byte part of the JavaScript white space set.
    - A JavaScript number is a [number]: an exact rational, NaN or an
      infinity.  Rounding of doubles and the sign of zero are not modelled.
    - An exception is a value of [exn]; a function that may throw returns a
      [result].  [console] output is left out.
    - [JSON.parse] is a built-in of the language: it is written out here
      over the JSON grammar, as a reader with fuel, and the fuel it is given
      is shown to be enough ([parse_has_fuel]).
    - The network is an input: a [World] says whether a key is configured
      and what the one request of a generation comes back with.

    The file has three parts: the program, the vocabulary of the
    properties, the properties. *)

From Stdlib Require Import String Ascii List ZArith QArith Qround Bool Lia.
From Stdlib Require Import DecimalString.
Import ListNotations.

Open Scope string_scope.
Open Scope Z_scope.

(** ** Exceptions and results *)

Inductive exn : Type :=
  | Error (message : string)
  | TypeError (message : string)
  | SyntaxError (message : string).

Definition message (e : exn) : string :=
  match e with
  | Error m | TypeError m | SyntaxError m => m
  end.

Inductive result (A : Type) : Type :=
  | Ok (a : A)
  | Throw (e : exn).

Arguments Ok {A} a.
Arguments Throw {A} e.

Definition bind {A B : Type} (r : result A) (k : A -> result B) : result B :=
  match r with
  | Ok a => k a
  | Throw e => Throw e
  end.

(** [try_catch r h]: the value of [try { r } catch (e) { h e }]. *)
Definition try_catch {A : Type} (r : result A) (h : exn -> result A) : result A :=
  match r with
  | Ok a => Ok a
  | Throw e => h e
  end.

(** ** Strings *)

Module Str.

Definition dquote : ascii := "034"%char.
Definition backslash : ascii := "092"%char.
Definition lbrace : ascii := "{"%char.
Definition rbrace : ascii := "}"%char.
Definition lbracket : ascii := "["%char.
Definition rbracket : ascii := "]"%char.
Definition comma : ascii := ","%char.
Definition slash : ascii := "/"%char.
Definition star : ascii := "*"%char.

(** A string made of one character. *)
Definition of_char (c : ascii) : string := String c EmptyString.

(** Line terminators: LF and CR. *)
Definition is_line_terminator (c : ascii) : bool :=
  (c =? "010")%char || (c =? "013")%char.

(** The class [\s] of regular expressions, which is also what [trim]
    removes, as far as it is one byte long in UTF-8: TAB, LF, VT, FF, CR
    and SPACE.  A byte 160 is part of a longer character. *)
Definition is_space (c : ascii) : bool :=
  (c =? "009")%char || (c =? "010")%char || (c =? "011")%char ||
  (c =? "012")%char || (c =? "013")%char || (c =? "032")%char.

Definition is_empty (s : string) : bool :=
  match s with
  | EmptyString => true
  | String _ _ => false
  end.

Definition startsWith (s p : string) : bool := String.prefix p s.

Fixpoint last_char (s : string) : option ascii :=
  match s with
  | EmptyString => None
  | String c EmptyString => Some c
  | String _ r => last_char r
  end.

(** [endsWith s c] for a one-character search string. *)
Definition endsWith (s : string) (c : ascii) : bool :=
  match last_char s with
  | Some d => (d =? c)%char
  | None => false
  end.

Fixpoint drop (n : nat) (s : string) : string :=
  match n, s with
  | O, _ => s
  | S _, EmptyString => EmptyString
  | S m, String _ r => drop m r
  end.

Fixpoint take (n : nat) (s : string) : string :=
  match n, s with
  | O, _ => EmptyString
  | S _, EmptyString => EmptyString
  | S m, String c r => String c (take m r)
  end.

Definition len (s : string) : Z := Z.of_nat (String.length s).

Fixpoint index_from (c : ascii) (s : string) (i : Z) : Z :=
  match s with
  | EmptyString => -1
  | String a r => if (a =? c)%char then i else index_from c r (i + 1)
  end.

(** [s.indexOf(c)]: the first index of [c], or -1. *)
Definition indexOf (s : string) (c : ascii) : Z := index_from c s 0.

Fixpoint last_index_from (c : ascii) (s : string) (i found : Z) : Z :=
  match s with
  | EmptyString => found
  | String a r =>
      last_index_from c r (i + 1) (if (a =? c)%char then i else found)
  end.

(** [s.lastIndexOf(c)]: the last index of [c], or -1. *)
Definition lastIndexOf (s : string) (c : ascii) : Z :=
  last_index_from c s 0 (-1).

Definition clamp (s : string) (i : Z) : Z := Z.min (Z.max i 0) (len s).

(** [s.substring(i, j)]: both ends are clamped to the string and swapped
    when they come in the wrong order. *)
Definition substring (s : string) (i j : Z) : string :=
  let a := clamp s i in
  let b := clamp s j in
  let lo := Z.min a b in
  let hi := Z.max a b in
  take (Z.to_nat (hi - lo)) (drop (Z.to_nat lo) s).

(** [s.substring(i)]. *)
Definition substring_from (s : string) (i : Z) : string :=
  substring s i (len s).

(** [s.slice(0, -1)]. *)
Definition drop_last (s : string) : string :=
  take (Nat.pred (String.length s)) s.

Fixpoint trimStart (s : string) : string :=
  match s with
  | EmptyString => EmptyString
  | String c r => if is_space c then trimStart r else s
  end.

Fixpoint trimEnd (s : string) : string :=
  match s with
  | EmptyString => EmptyString
  | String c r =>
      let r' := trimEnd r in
      if is_empty r' && is_space c then EmptyString else String c r'
  end.

Definition trim (s : string) : string := trimStart (trimEnd s).

(** [(s.match(/c/g) || []).length]: the number of occurrences of [c]. *)
Fixpoint count (c : ascii) (s : string) : Z :=
  match s with
  | EmptyString => 0
  | String a r => (if (a =? c)%char then 1 else 0) + count c r
  end.

Fixpoint repeat_nat (c : ascii) (n : nat) : string :=
  match n with
  | O => EmptyString
  | S m => String c (repeat_nat c m)
  end.

(** [c.repeat(n)] for [n >= 0]. *)
Definition repeat (c : ascii) (n : Z) : string := repeat_nat c (Z.to_nat n).

(** [s.includes(p)]. *)
Fixpoint includes (s p : string) : bool :=
  String.prefix p s ||
  match s with
  | EmptyString => false
  | String _ r => includes r p
  end.

(** [s.replace(c, d)] with a one-character pattern: the first occurrence
    only. *)
Fixpoint replace_first (c d : ascii) (s : string) : string :=
  match s with
  | EmptyString => EmptyString
  | String a r =>
      if (a =? c)%char then String d r else String a (replace_first c d r)
  end.

End Str.

(** ** Numbers *)

Inductive number : Type :=
  | Fin (q : Q)
  | NaN
  | Inf (negative : bool).

Module Num.

Definition of_Z (z : Z) : number := Fin (inject_Z z).

Definition is_zero (q : Q) : bool := Qnum q =? 0.
Definition is_neg (q : Q) : bool := Qnum q <? 0.

Definition add (a b : number) : number :=
  match a, b with
  | Fin x, Fin y => Fin (x + y)
  | NaN, _ | _, NaN => NaN
  | Inf s, Fin _ | Fin _, Inf s => Inf s
  | Inf s, Inf t => if Bool.eqb s t then Inf s else NaN
  end.

Definition opp (a : number) : number :=
  match a with
  | Fin x => Fin (- x)
  | NaN => NaN
  | Inf s => Inf (negb s)
  end.

Definition sub (a b : number) : number := add a (opp b).

Definition mul (a b : number) : number :=
  match a, b with
  | Fin x, Fin y => Fin (x * y)
  | NaN, _ | _, NaN => NaN
  | Inf s, Fin y | Fin y, Inf s =>
      if is_zero y then NaN else Inf (xorb s (is_neg y))
  | Inf s, Inf t => Inf (xorb s t)
  end.

Definition div (a b : number) : number :=
  match a, b with
  | Fin x, Fin y =>
      if is_zero y then (if is_zero x then NaN else Inf (is_neg x))
      else Fin (x / y)
  | NaN, _ | _, NaN => NaN
  | Fin _, Inf _ => Fin 0
  | Inf s, Fin y => Inf (xorb s (is_neg y))
  | Inf _, Inf _ => NaN
  end.

(** [Math.round]: the nearest integer, halves going up. *)
Definition round_Q (q : Q) : Z := Qfloor (q + (1 # 2)).

Definition round (a : number) : number :=
  match a with
  | Fin x => of_Z (round_Q x)
  | NaN => NaN
  | Inf s => Inf s
  end.

(** Truthiness of a number: neither zero nor NaN. *)
Definition truthy (a : number) : bool :=
  match a with
  | Fin x => negb (is_zero x)
  | NaN => false
  | Inf _ => true
  end.

(** [a >= 0]. *)
Definition nonneg (a : number) : bool :=
  match a with
  | Fin x => negb (is_neg x)
  | NaN => false
  | Inf s => negb s
  end.

End Num.

(** ** Values

    What [JSON.parse] yields and what the validator inspects.  An object
    keeps its members in source order; a later member with the same key
    hides an earlier one. *)

#[local] Unset Elimination Schemes.

Inductive value : Type :=
  | VNull
  | VBool (b : bool)
  | VNum (n : number)
  | VStr (s : string)
  | VArr (items : list value)
  | VObj (members : list (string * value)).

#[local] Set Elimination Schemes.

Module Js.

Fixpoint lookup {A : Type} (k : string) (kvs : list (string * A)) : option A :=
  match kvs with
  | [] => None
  | (k', v) :: rest =>
      match lookup k rest with
      | Some w => Some w
      | None => if String.eqb k' k then Some v else None
      end
  end.

(** [v.k] for the property names this program reads ([meals], [name],
    [mealType], [calories], [candidates], [content], [parts], [text]):
    none of them is found on a prototype, so the read is a read of an own
    member of an object and [undefined] ([None]) on every other value. *)
Definition get (v : value) (k : string) : option value :=
  match v with
  | VObj kvs => lookup k kvs
  | _ => None
  end.

Definition truthy (v : value) : bool :=
  match v with
  | VNull => false
  | VBool b => b
  | VNum n => Num.truthy n
  | VStr s => negb (Str.is_empty s)
  | VArr _ | VObj _ => true
  end.

(** Truthiness of the outcome of a property read. *)
Definition truthy_opt (o : option value) : bool :=
  match o with
  | Some v => truthy v
  | None => false
  end.

(** [typeof v === 'object']: objects, arrays and null. *)
Definition typeof_object (v : value) : bool :=
  match v with
  | VNull | VArr _ | VObj _ => true
  | _ => false
  end.

Definition typeof_number (o : option value) : bool :=
  match o with
  | Some (VNum _) => true
  | _ => false
  end.

(** [Array.isArray]. *)
Definition isArray (o : option value) : bool :=
  match o with
  | Some (VArr _) => true
  | _ => false
  end.

(** The elements of an array; nothing for any other value. *)
Definition items (o : option value) : list value :=
  match o with
  | Some (VArr l) => l
  | _ => []
  end.

End Js.

(** ** [JSON.parse]

    The built-in parser, written out over the JSON grammar: white space is
    SPACE, TAB, LF and CR; a number is read exactly; a string may hold any
    unit except the quote, the backslash and the control characters below
    32; an escape of a code unit is stored as its UTF-8 bytes.  The text of
    an error message depends on the engine; the model has fixed ones. *)

Module JSON.

Inductive presult (A : Type) : Type :=
  | POk (a : A) (rest : string)
  | PErr (msg : string).

Arguments POk {A} a rest.
Arguments PErr {A} msg.

Definition pmap {A B : Type} (f : A -> B) (r : presult A) : presult B :=
  match r with
  | POk a rest => POk (f a) rest
  | PErr m => PErr m
  end.

Definition is_ws (c : ascii) : bool :=
  (c =? "032")%char || (c =? "009")%char || (c =? "010")%char ||
  (c =? "013")%char.

Fixpoint skip_ws (s : string) : string :=
  match s with
  | EmptyString => EmptyString
  | String c r => if is_ws c then skip_ws r else s
  end.

Definition code (c : ascii) : Z := Z.of_nat (nat_of_ascii c).

Definition digit_of (c : ascii) : option Z :=
  let n := code c in
  if (48 <=? n) && (n <=? 57) then Some (n - 48) else None.

Definition hex_of (c : ascii) : option Z :=
  let n := code c in
  if (48 <=? n) && (n <=? 57) then Some (n - 48)
  else if (65 <=? n) && (n <=? 70) then Some (n - 55)
  else if (97 <=? n) && (n <=? 102) then Some (n - 87)
  else None.

(** The digits at the head of [s]: their value on top of [acc], how many
    they are, and what follows them. *)
Fixpoint take_digits (s : string) (acc : Z) (cnt : nat) : Z * nat * string :=
  match s with
  | EmptyString => (acc, cnt, s)
  | String c r =>
      match digit_of c with
      | Some d => take_digits r (acc * 10 + d) (S cnt)
      | None => (acc, cnt, s)
      end
  end.

Definition byte (z : Z) : ascii := ascii_of_nat (Z.to_nat z).

(** The UTF-8 bytes of a code unit. *)
Definition utf8 (u : Z) : string :=
  if u <? 128 then Str.of_char (byte u)
  else if u <? 2048 then
    String (byte (192 + u / 64)) (Str.of_char (byte (128 + u mod 64)))
  else
    String (byte (224 + u / 4096))
      (String (byte (128 + (u / 64) mod 64))
         (Str.of_char (byte (128 + u mod 64)))).

(** The integer part of a number: a lone zero, or digits that do not
    start with zero. *)
Definition parse_int (s : string) : presult Z :=
  match s with
  | EmptyString => PErr "Unexpected end of JSON input"
  | String c r =>
      match digit_of c with
      | None => PErr "Unexpected token in JSON"
      | Some 0 => POk 0 r
      | Some _ => let '(n, _, rest) := take_digits s 0 0 in POk n rest
      end
  end.

(** An optional fraction: its digits as an integer and their number. *)
Definition parse_frac (s : string) : presult (Z * nat) :=
  match s with
  | EmptyString => POk (0, O) s
  | String c r =>
      if (c =? ".")%char then
        let '(f, cnt, rest) := take_digits r 0 0 in
        match cnt with
        | O => PErr "Unterminated fractional number in JSON"
        | S _ => POk (f, cnt) rest
        end
      else POk (0, O) s
  end.

Definition parse_exp_digits (negative : bool) (s : string) : presult Z :=
  let '(e, cnt, rest) := take_digits s 0 0 in
  match cnt with
  | O => PErr "Exponent part is missing a number in JSON"
  | S _ => POk (if negative then - e else e) rest
  end.

(** An optional exponent. *)
Definition parse_exp (s : string) : presult Z :=
  match s with
  | EmptyString => POk 0 s
  | String c r =>
      if (c =? "e")%char || (c =? "E")%char then
        match r with
        | EmptyString => parse_exp_digits false r
        | String d r' =>
            if (d =? "+")%char then parse_exp_digits false r'
            else if (d =? "-")%char then parse_exp_digits true r'
            else parse_exp_digits false r
        end
      else POk 0 s
  end.

(** The rational [m * 10^e]. *)
Definition scale10 (m e : Z) : Q :=
  if 0 <=? e then Qred (inject_Z (m * 10 ^ e))
  else Qred (m # Z.to_pos (10 ^ (- e))).

Definition parse_number (s : string) : presult Q :=
  let '(negative, s1) :=
    match s with
    | EmptyString => (false, s)
    | String c r => if (c =? "-")%char then (true, r) else (false, s)
    end in
  match parse_int s1 with
  | PErr m => PErr m
  | POk i s2 =>
      match parse_frac s2 with
      | PErr m => PErr m
      | POk (f, cnt) s3 =>
          match parse_exp s3 with
          | PErr m => PErr m
          | POk e s4 =>
              let mant := i * 10 ^ Z.of_nat cnt + f in
              let mant := if negative then - mant else mant in
              POk (scale10 mant (e - Z.of_nat cnt)) s4
          end
      end
  end.

(** The characters of a string literal after its opening quote. *)
Fixpoint parse_chars (s : string) : presult string :=
  match s with
  | EmptyString => PErr "Unterminated string in JSON"
  | String c r =>
      if (c =? Str.dquote)%char then POk EmptyString r
      else if (c =? Str.backslash)%char then
        match r with
        | EmptyString => PErr "Unterminated string in JSON"
        | String e r' =>
            if (e =? Str.dquote)%char then pmap (String Str.dquote) (parse_chars r')
            else if (e =? Str.backslash)%char then
              pmap (String Str.backslash) (parse_chars r')
            else if (e =? "/")%char then pmap (String "/"%char) (parse_chars r')
            else if (e =? "b")%char then pmap (String "008"%char) (parse_chars r')
            else if (e =? "f")%char then pmap (String "012"%char) (parse_chars r')
            else if (e =? "n")%char then pmap (String "010"%char) (parse_chars r')
            else if (e =? "r")%char then pmap (String "013"%char) (parse_chars r')
            else if (e =? "t")%char then pmap (String "009"%char) (parse_chars r')
            else if (e =? "u")%char then
              match r' with
              | String h1 (String h2 (String h3 (String h4 r''))) =>
                  match hex_of h1, hex_of h2, hex_of h3, hex_of h4 with
                  | Some a, Some b, Some c', Some d =>
                      pmap (String.append (utf8 (((a * 16 + b) * 16 + c') * 16 + d)))
                           (parse_chars r'')
                  | _, _, _, _ => PErr "Bad Unicode escape in JSON"
                  end
              | _ => PErr "Bad Unicode escape in JSON"
              end
            else PErr "Bad escaped character in JSON"
        end
      else if code c <? 32 then PErr "Bad control character in string literal in JSON"
      else pmap (String c) (parse_chars r)
  end.

Definition expect (lit : string) (v : value) (s : string) : presult value :=
  if String.prefix lit s then POk v (Str.drop (String.length lit) s)
  else PErr "Unexpected token in JSON".

(** The answer of a reader that has no fuel left. *)
Definition too_deep : string := "Maximum nesting exceeded".

(** A value, the elements of an array after its bracket, and the members
    of an object after its brace.  Every call spends one unit of [fuel];
    a call chain spends at most two units for a character it reads. *)
Fixpoint parse_value (fuel : nat) (s : string) : presult value :=
  match fuel with
  | O => PErr too_deep
  | S fuel' =>
      match skip_ws s with
      | EmptyString => PErr "Unexpected end of JSON input"
      | String c r as s' =>
          if (c =? Str.lbrace)%char then
            match skip_ws r with
            | EmptyString => PErr "Unexpected end of JSON input"
            | String d r' as members =>
                if (d =? Str.rbrace)%char then POk (VObj []) r'
                else pmap VObj (parse_members fuel' members)
            end
          else if (c =? Str.lbracket)%char then
            match skip_ws r with
            | EmptyString => PErr "Unexpected end of JSON input"
            | String d r' as elements =>
                if (d =? Str.rbracket)%char then POk (VArr []) r'
                else pmap VArr (parse_elements fuel' elements)
            end
          else if (c =? Str.dquote)%char then pmap VStr (parse_chars r)
          else if (c =? "t")%char then expect "true" (VBool true) s'
          else if (c =? "f")%char then expect "false" (VBool false) s'
          else if (c =? "n")%char then expect "null" VNull s'
          else pmap (fun q => VNum (Fin q)) (parse_number s')
      end
  end

with parse_elements (fuel : nat) (s : string) : presult (list value) :=
  match fuel with
  | O => PErr too_deep
  | S fuel' =>
      match parse_value fuel' s with
      | PErr m => PErr m
      | POk v rest =>
          match skip_ws rest with
          | EmptyString => PErr "Unexpected end of JSON input"
          | String c r =>
              if (c =? Str.comma)%char then pmap (cons v) (parse_elements fuel' r)
              else if (c =? Str.rbracket)%char then POk [v] r
              else PErr "Unexpected token in JSON"
          end
      end
  end

with parse_members (fuel : nat) (s : string) : presult (list (string * value)) :=
  match fuel with
  | O => PErr too_deep
  | S fuel' =>
      match skip_ws s with
      | EmptyString => PErr "Unexpected end of JSON input"
      | String c r =>
          if (c =? Str.dquote)%char then
            match parse_chars r with
            | PErr m => PErr m
            | POk k rest =>
                match skip_ws rest with
                | EmptyString => PErr "Unexpected end of JSON input"
                | String d r1 =>
                    if (d =? ":")%char then
                      match parse_value fuel' r1 with
                      | PErr m => PErr m
                      | POk v rest1 =>
                          match skip_ws rest1 with
                          | EmptyString => PErr "Unexpected end of JSON input"
                          | String e r2 =>
                              if (e =? Str.comma)%char
                              then pmap (cons (k, v)) (parse_members fuel' r2)
                              else if (e =? Str.rbrace)%char then POk [(k, v)] r2
                              else PErr "Unexpected token in JSON"
                          end
                      end
                    else PErr "Unexpected token in JSON"
                end
            end
          else PErr "Unexpected token in JSON"
      end
  end.

(** [JSON.parse(text)]. *)
Definition parse (text : string) : result value :=
  match parse_value (2 * String.length text + 2) text with
  | PErr m => Throw (SyntaxError m)
  | POk v rest =>
      if Str.is_empty (skip_ws rest) then Ok v
      else Throw (SyntaxError "Unexpected non-whitespace character after JSON")
  end.

End JSON.

(** ** Requests and plans *)

Record UserProfile : Type := {
  age : Q;
  gender : string;
  height : Q;
  weight : Q;
  targetWeight : Q;
  activityLevel : string;
  goal : string;
  medicalConditions : list string;
  allergies : list string;
  timelineWeeks : Z
}.

Record Preferences : Type := {
  dietType : string;
  cuisinePreferences : list string;
  tastePreferences : list string;
  foodRestrictions : list string;
  mealsPerDay : Z;
  preferredMealTimes : list (string * string)
}.

Record DietPlanRequest : Type := {
  userProfile : UserProfile;
  preferences : Preferences
}.

Inductive Ingredient : Type :=
  mkIngredient (name amount unit : string).

Inductive Instruction : Type :=
  mkInstruction (step : Z) (instruction : string).

Record GeneratedMeal : Type := {
  name : string;
  description : string;
  mealType : string;
  mealTime : string;
  calories : number;
  protein : number;
  carbs : number;
  fat : number;
  ingredients : list Ingredient;
  instructions : list Instruction;
  prepTime : Z;
  cookTime : Z;
  difficulty : string;
  tags : list string;
  cuisineType : string
}.

Record DayPlan : Type := {
  dayNumber : Z;
  dayName : string;
  totalDayCalories : number;
  meals : list GeneratedMeal
}.

(** [days] is the member the source calls [meals]: the array of days. *)
Record GeneratedDietPlan : Type := {
  plan_name : string;
  plan_description : string;
  totalCalories : number;
  durationWeeks : Z;
  days : list DayPlan
}.

(** The objects these records are at run time, members in source order. *)
Module ToValue.

Definition ingredient (i : Ingredient) : value :=
  let '(mkIngredient n a u) := i in
  VObj [("name", VStr n); ("amount", VStr a); ("unit", VStr u)].

Definition instruction (i : Instruction) : value :=
  let '(mkInstruction n t) := i in
  VObj [("step", VNum (Num.of_Z n)); ("instruction", VStr t)].

Definition meal (m : GeneratedMeal) : value :=
  VObj [("name", VStr (name m));
        ("description", VStr (description m));
        ("mealType", VStr (mealType m));
        ("mealTime", VStr (mealTime m));
        ("calories", VNum (calories m));
        ("protein", VNum (protein m));
        ("carbs", VNum (carbs m));
        ("fat", VNum (fat m));
        ("ingredients", VArr (map ingredient (ingredients m)));
        ("instructions", VArr (map instruction (instructions m)));
        ("prepTime", VNum (Num.of_Z (prepTime m)));
        ("cookTime", VNum (Num.of_Z (cookTime m)));
        ("difficulty", VStr (difficulty m));
        ("tags", VArr (map VStr (tags m)));
        ("cuisineType", VStr (cuisineType m))].

Definition day (d : DayPlan) : value :=
  VObj [("dayNumber", VNum (Num.of_Z (dayNumber d)));
        ("dayName", VStr (dayName d));
        ("totalDayCalories", VNum (totalDayCalories d));
        ("meals", VArr (map meal (meals d)))].

Definition plan (p : GeneratedDietPlan) : value :=
  VObj [("name", VStr (plan_name p));
        ("description", VStr (plan_description p));
        ("totalCalories", VNum (totalCalories p));
        ("durationWeeks", VNum (Num.of_Z (durationWeeks p)));
        ("meals", VArr (map day (days p)))].

End ToValue.

(** ** The meal templates of the fallback *)

Record MealTemplate : Type := mkTemplate {
  t_name : string;
  t_description : string;
  t_ingredients : list Ingredient;
  t_instructions : list Instruction
}.

Module mealTemplates.

Definition breakfast : list MealTemplate :=
  [
    mkTemplate
      "Nutritious Oatmeal Bowl"
      "Steel-cut oats with fresh seasonal fruits, nuts, and a drizzle of honey"
      [
       mkIngredient "steel-cut oats" "1/2" "cup";
       mkIngredient "almond milk" "1" "cup";
       mkIngredient "fresh banana" "1" "medium";
       mkIngredient "mixed berries" "1/2" "cup";
       mkIngredient "chopped almonds" "2" "tbsp";
       mkIngredient "honey" "1" "tsp" ]
      [
       mkInstruction 1 "Bring almond milk to a gentle boil in a saucepan";
       mkInstruction 2 "Add steel-cut oats and reduce heat to low, simmer for 15-20 minutes";
       mkInstruction 3 "Stir occasionally until oats are creamy and tender";
       mkInstruction 4 "Top with sliced banana, berries, and chopped almonds";
       mkInstruction 5 "Drizzle with honey and serve warm" ];
    mkTemplate
      "Avocado Toast Supreme"
      "Multigrain toast topped with creamy avocado, cherry tomatoes, and microgreens"
      [
       mkIngredient "multigrain bread" "2" "slices";
       mkIngredient "ripe avocado" "1" "large";
       mkIngredient "cherry tomatoes" "6" "pieces";
       mkIngredient "microgreens" "1" "handful";
       mkIngredient "lemon juice" "1" "tbsp";
       mkIngredient "sea salt" "1/4" "tsp";
       mkIngredient "black pepper" "1/4" "tsp" ]
      [
       mkInstruction 1 "Toast bread slices until golden and crispy";
       mkInstruction 2 "Mash avocado with lemon juice, salt, and pepper";
       mkInstruction 3 "Spread avocado mixture generously on toast";
       mkInstruction 4 "Top with halved cherry tomatoes and microgreens";
       mkInstruction 5 "Serve immediately while toast is still warm" ];
    mkTemplate
      "Greek Yogurt Parfait"
      "Protein-rich Greek yogurt layered with homemade granola and fresh fruits"
      [
       mkIngredient "Greek yogurt" "1" "cup";
       mkIngredient "homemade granola" "1/3" "cup";
       mkIngredient "fresh strawberries" "1/2" "cup";
       mkIngredient "blueberries" "1/4" "cup";
       mkIngredient "raw honey" "1" "tbsp";
       mkIngredient "chia seeds" "1" "tsp" ]
      [
       mkInstruction 1 "Layer half the yogurt in a glass or bowl";
       mkInstruction 2 "Add half the granola and berries";
       mkInstruction 3 "Repeat layers with remaining ingredients";
       mkInstruction 4 "Drizzle with honey and sprinkle chia seeds on top";
       mkInstruction 5 "Serve immediately for best texture" ];
    mkTemplate
      "Smoothie Bowl Delight"
      "Thick smoothie bowl topped with fresh fruits, nuts, and seeds"
      [
       mkIngredient "frozen mango" "1" "cup";
       mkIngredient "banana" "1" "medium";
       mkIngredient "coconut milk" "1/2" "cup";
       mkIngredient "spinach" "1" "handful";
       mkIngredient "coconut flakes" "2" "tbsp";
       mkIngredient "pumpkin seeds" "1" "tbsp" ]
      [
       mkInstruction 1 "Blend frozen mango, banana, coconut milk, and spinach until thick";
       mkInstruction 2 "Pour into a bowl";
       mkInstruction 3 "Top with coconut flakes and pumpkin seeds";
       mkInstruction 4 "Serve immediately" ];
    mkTemplate
      "Protein Pancakes"
      "Fluffy protein-packed pancakes with fresh berries"
      [
       mkIngredient "protein powder" "1" "scoop";
       mkIngredient "banana" "1" "medium";
       mkIngredient "eggs" "2" "large";
       mkIngredient "oats" "1/4" "cup";
       mkIngredient "berries" "1/2" "cup";
       mkIngredient "maple syrup" "1" "tbsp" ]
      [
       mkInstruction 1 "Blend all ingredients except berries until smooth";
       mkInstruction 2 "Cook pancakes in a non-stick pan";
       mkInstruction 3 "Top with fresh berries and maple syrup" ];
    mkTemplate
      "Breakfast Quinoa Bowl"
      "Warm quinoa with nuts, seeds, and fresh fruit"
      [
       mkIngredient "quinoa" "1/2" "cup";
       mkIngredient "almond milk" "1" "cup";
       mkIngredient "cinnamon" "1/2" "tsp";
       mkIngredient "walnuts" "2" "tbsp";
       mkIngredient "apple" "1" "medium";
       mkIngredient "honey" "1" "tsp" ]
      [
       mkInstruction 1 "Cook quinoa in almond milk with cinnamon";
       mkInstruction 2 "Top with chopped apple and walnuts";
       mkInstruction 3 "Drizzle with honey" ];
    mkTemplate
      "Veggie Scramble"
      "Scrambled eggs with colorful vegetables and herbs"
      [
       mkIngredient "eggs" "3" "large";
       mkIngredient "bell pepper" "1/2" "medium";
       mkIngredient "spinach" "1" "cup";
       mkIngredient "mushrooms" "1/2" "cup";
       mkIngredient "cheese" "2" "tbsp";
       mkIngredient "herbs" "1" "tbsp" ]
      [
       mkInstruction 1 "Sauté vegetables until tender";
       mkInstruction 2 "Add beaten eggs and scramble";
       mkInstruction 3 "Top with cheese and herbs" ] ].

Definition lunch : list MealTemplate :=
  [
    mkTemplate
      "Mediterranean Quinoa Power Bowl"
      "Protein-packed quinoa with roasted vegetables, feta, and tahini dressing"
      [
       mkIngredient "tri-color quinoa" "1/2" "cup";
       mkIngredient "cucumber" "1" "medium";
       mkIngredient "cherry tomatoes" "1" "cup";
       mkIngredient "red bell pepper" "1/2" "medium";
       mkIngredient "feta cheese" "1/4" "cup";
       mkIngredient "kalamata olives" "8" "pieces";
       mkIngredient "extra virgin olive oil" "2" "tbsp";
       mkIngredient "lemon juice" "1" "tbsp" ]
      [
       mkInstruction 1 "Rinse quinoa and cook according to package directions";
       mkInstruction 2 "Dice cucumber, tomatoes, and bell pepper";
       mkInstruction 3 "Let quinoa cool to room temperature";
       mkInstruction 4 "Combine quinoa with vegetables and olives";
       mkInstruction 5 "Whisk olive oil and lemon juice, toss with salad";
       mkInstruction 6 "Top with crumbled feta and serve" ];
    mkTemplate
      "Grilled Chicken & Hummus Wrap"
      "Lean grilled chicken with fresh vegetables and creamy hummus in a whole wheat wrap"
      [
       mkIngredient "whole wheat tortilla" "1" "large";
       mkIngredient "grilled chicken breast" "4" "oz";
       mkIngredient "romaine lettuce" "2" "cups";
       mkIngredient "roma tomato" "1" "medium";
       mkIngredient "red onion" "2" "tbsp";
       mkIngredient "hummus" "3" "tbsp";
       mkIngredient "cucumber" "1/4" "cup" ]
      [
       mkInstruction 1 "Warm tortilla in a dry pan for 30 seconds each side";
       mkInstruction 2 "Spread hummus evenly across the tortilla";
       mkInstruction 3 "Layer lettuce, sliced chicken, tomato, and cucumber";
       mkInstruction 4 "Add red onion and any desired seasonings";
       mkInstruction 5 "Roll tightly, tucking in sides as you go";
       mkInstruction 6 "Cut in half diagonally and serve" ];
    mkTemplate
      "Rainbow Buddha Bowl"
      "Colorful bowl with brown rice, roasted vegetables, and tahini dressing"
      [
       mkIngredient "brown rice" "1/2" "cup";
       mkIngredient "roasted sweet potato" "1/2" "cup";
       mkIngredient "steamed broccoli" "1/2" "cup";
       mkIngredient "shredded purple cabbage" "1/4" "cup";
       mkIngredient "chickpeas" "1/2" "cup";
       mkIngredient "tahini" "2" "tbsp";
       mkIngredient "lemon juice" "1" "tbsp";
       mkIngredient "pumpkin seeds" "1" "tbsp" ]
      [
       mkInstruction 1 "Cook brown rice according to package directions";
       mkInstruction 2 "Roast sweet potato cubes at 400°F for 25 minutes";
       mkInstruction 3 "Steam broccoli until tender-crisp";
       mkInstruction 4 "Arrange all ingredients in a bowl";
       mkInstruction 5 "Whisk tahini with lemon juice and water to thin";
       mkInstruction 6 "Drizzle dressing over bowl and sprinkle with seeds" ];
    mkTemplate
      "Asian Lettuce Wraps"
      "Fresh lettuce cups filled with seasoned protein and vegetables"
      [
       mkIngredient "butter lettuce" "8" "leaves";
       mkIngredient "ground turkey" "4" "oz";
       mkIngredient "water chestnuts" "1/4" "cup";
       mkIngredient "carrots" "1/4" "cup";
       mkIngredient "soy sauce" "2" "tbsp";
       mkIngredient "sesame oil" "1" "tsp";
       mkIngredient "green onions" "2" "stalks" ]
      [
       mkInstruction 1 "Cook ground turkey until browned";
       mkInstruction 2 "Add diced vegetables and seasonings";
       mkInstruction 3 "Serve mixture in lettuce cups";
       mkInstruction 4 "Garnish with green onions" ];
    mkTemplate
      "Lentil Soup"
      "Hearty and nutritious lentil soup with vegetables"
      [
       mkIngredient "red lentils" "1/2" "cup";
       mkIngredient "vegetable broth" "2" "cups";
       mkIngredient "carrots" "1" "medium";
       mkIngredient "celery" "2" "stalks";
       mkIngredient "onion" "1/2" "medium";
       mkIngredient "garlic" "2" "cloves";
       mkIngredient "herbs" "1" "tsp" ]
      [
       mkInstruction 1 "Sauté onion, carrots, and celery";
       mkInstruction 2 "Add lentils and broth";
       mkInstruction 3 "Simmer until lentils are tender";
       mkInstruction 4 "Season with herbs and serve" ];
    mkTemplate
      "Caprese Salad"
      "Fresh mozzarella, tomatoes, and basil with balsamic glaze"
      [
       mkIngredient "fresh mozzarella" "4" "oz";
       mkIngredient "tomatoes" "2" "large";
       mkIngredient "fresh basil" "1/4" "cup";
       mkIngredient "balsamic vinegar" "2" "tbsp";
       mkIngredient "olive oil" "1" "tbsp";
       mkIngredient "salt" "1/4" "tsp" ]
      [
       mkInstruction 1 "Slice tomatoes and mozzarella";
       mkInstruction 2 "Arrange with basil leaves";
       mkInstruction 3 "Drizzle with oil and balsamic";
       mkInstruction 4 "Season with salt" ];
    mkTemplate
      "Tuna Salad Bowl"
      "Protein-rich tuna salad with mixed greens and vegetables"
      [
       mkIngredient "canned tuna" "1" "can";
       mkIngredient "mixed greens" "2" "cups";
       mkIngredient "cherry tomatoes" "1/2" "cup";
       mkIngredient "cucumber" "1/2" "medium";
       mkIngredient "avocado" "1/2" "medium";
       mkIngredient "olive oil" "1" "tbsp";
       mkIngredient "lemon juice" "1" "tbsp" ]
      [
       mkInstruction 1 "Drain and flake tuna";
       mkInstruction 2 "Arrange greens and vegetables in bowl";
       mkInstruction 3 "Top with tuna and avocado";
       mkInstruction 4 "Dress with oil and lemon" ] ].

Definition dinner : list MealTemplate :=
  [
    mkTemplate
      "Herb-Crusted Baked Salmon"
      "Fresh Atlantic salmon with herb crust, served with roasted seasonal vegetables"
      [
       mkIngredient "salmon fillet" "6" "oz";
       mkIngredient "fresh dill" "2" "tbsp";
       mkIngredient "fresh parsley" "2" "tbsp";
       mkIngredient "garlic" "2" "cloves";
       mkIngredient "lemon zest" "1" "tsp";
       mkIngredient "asparagus" "8" "spears";
       mkIngredient "baby potatoes" "6" "small";
       mkIngredient "olive oil" "2" "tbsp" ]
      [
       mkInstruction 1 "Preheat oven to 425°F";
       mkInstruction 2 "Mix herbs, minced garlic, and lemon zest";
       mkInstruction 3 "Rub herb mixture on salmon fillet";
       mkInstruction 4 "Toss vegetables with olive oil and seasonings";
       mkInstruction 5 "Bake salmon and vegetables for 18-20 minutes";
       mkInstruction 6 "Let rest 5 minutes before serving" ];
    mkTemplate
      "Vegetable Curry with Coconut Rice"
      "Aromatic mixed vegetable curry served over fragrant coconut basmati rice"
      [
       mkIngredient "basmati rice" "1/2" "cup";
       mkIngredient "coconut milk" "1/2" "cup";
       mkIngredient "mixed vegetables" "2" "cups";
       mkIngredient "curry powder" "2" "tsp";
       mkIngredient "ginger" "1" "tbsp";
       mkIngredient "onion" "1" "medium";
       mkIngredient "garlic" "3" "cloves";
       mkIngredient "vegetable broth" "1" "cup" ]
      [
       mkInstruction 1 "Cook rice with half coconut milk and water";
       mkInstruction 2 "Sauté onion, garlic, and ginger until fragrant";
       mkInstruction 3 "Add curry powder and cook for 1 minute";
       mkInstruction 4 "Add vegetables and broth, simmer 15 minutes";
       mkInstruction 5 "Stir in remaining coconut milk";
       mkInstruction 6 "Serve curry over coconut rice" ];
    mkTemplate
      "Lean Turkey Meatballs with Zucchini Noodles"
      "Healthy turkey meatballs in marinara sauce over spiralized zucchini noodles"
      [
       mkIngredient "ground turkey" "5" "oz";
       mkIngredient "zucchini" "2" "medium";
       mkIngredient "marinara sauce" "1/2" "cup";
       mkIngredient "whole wheat breadcrumbs" "1/4" "cup";
       mkIngredient "egg" "1" "large";
       mkIngredient "Italian herbs" "1" "tsp";
       mkIngredient "parmesan cheese" "2" "tbsp" ]
      [
       mkInstruction 1 "Mix turkey, breadcrumbs, egg, and herbs";
       mkInstruction 2 "Form into 8-10 small meatballs";
       mkInstruction 3 "Bake meatballs at 375°F for 20 minutes";
       mkInstruction 4 "Spiralize zucchini into noodles";
       mkInstruction 5 "Heat marinara and add cooked meatballs";
       mkInstruction 6 "Serve over zucchini noodles with parmesan" ];
    mkTemplate
      "Stuffed Bell Peppers"
      "Colorful bell peppers stuffed with quinoa, vegetables, and herbs"
      [
       mkIngredient "bell peppers" "2" "large";
       mkIngredient "quinoa" "1/2" "cup";
       mkIngredient "black beans" "1/2" "cup";
       mkIngredient "corn" "1/4" "cup";
       mkIngredient "tomatoes" "1/2" "cup";
       mkIngredient "cheese" "1/4" "cup";
       mkIngredient "herbs" "1" "tbsp" ]
      [
       mkInstruction 1 "Cut tops off peppers and remove seeds";
       mkInstruction 2 "Cook quinoa and mix with vegetables";
       mkInstruction 3 "Stuff peppers with quinoa mixture";
       mkInstruction 4 "Top with cheese and bake 25 minutes" ];
    mkTemplate
      "Grilled Chicken with Sweet Potato"
      "Marinated grilled chicken breast with roasted sweet potato wedges"
      [
       mkIngredient "chicken breast" "6" "oz";
       mkIngredient "sweet potato" "1" "large";
       mkIngredient "olive oil" "2" "tbsp";
       mkIngredient "herbs" "1" "tbsp";
       mkIngredient "garlic" "2" "cloves";
       mkIngredient "lemon" "1/2" "medium";
       mkIngredient "green beans" "1" "cup" ]
      [
       mkInstruction 1 "Marinate chicken with herbs and garlic";
       mkInstruction 2 "Cut sweet potato into wedges";
       mkInstruction 3 "Grill chicken and roast sweet potato";
       mkInstruction 4 "Steam green beans until tender";
       mkInstruction 5 "Serve with lemon wedges" ];
    mkTemplate
      "Fish Tacos"
      "Grilled fish tacos with cabbage slaw and avocado"
      [
       mkIngredient "white fish" "5" "oz";
       mkIngredient "corn tortillas" "3" "small";
       mkIngredient "cabbage" "1" "cup";
       mkIngredient "avocado" "1/2" "medium";
       mkIngredient "lime" "1" "medium";
       mkIngredient "cilantro" "2" "tbsp";
       mkIngredient "yogurt" "2" "tbsp" ]
      [
       mkInstruction 1 "Season and grill fish until flaky";
       mkInstruction 2 "Make slaw with cabbage and lime";
       mkInstruction 3 "Warm tortillas";
       mkInstruction 4 "Assemble tacos with fish, slaw, and avocado" ];
    mkTemplate
      "Eggplant Parmesan"
      "Baked eggplant layered with marinara and cheese"
      [
       mkIngredient "eggplant" "1" "medium";
       mkIngredient "marinara sauce" "1" "cup";
       mkIngredient "mozzarella cheese" "1/2" "cup";
       mkIngredient "parmesan cheese" "1/4" "cup";
       mkIngredient "breadcrumbs" "1/4" "cup";
       mkIngredient "basil" "2" "tbsp";
       mkIngredient "olive oil" "2" "tbsp" ]
      [
       mkInstruction 1 "Slice eggplant and brush with oil";
       mkInstruction 2 "Bake eggplant until tender";
       mkInstruction 3 "Layer with sauce and cheese";
       mkInstruction 4 "Bake until cheese melts" ] ].

Definition snack : list MealTemplate :=
  [
    mkTemplate
      "Greek Yogurt Berry Bowl"
      "Protein-rich Greek yogurt with antioxidant-packed mixed berries"
      [
       mkIngredient "Greek yogurt" "3/4" "cup";
       mkIngredient "mixed berries" "1/2" "cup";
       mkIngredient "honey" "1" "tsp";
       mkIngredient "chopped walnuts" "1" "tbsp" ]
      [
       mkInstruction 1 "Place yogurt in a serving bowl";
       mkInstruction 2 "Top with fresh mixed berries";
       mkInstruction 3 "Drizzle with honey and sprinkle nuts" ];
    mkTemplate
      "Energy Trail Mix"
      "Homemade mix of nuts, seeds, and dried fruit for sustained energy"
      [
       mkIngredient "almonds" "2" "tbsp";
       mkIngredient "walnuts" "1" "tbsp";
       mkIngredient "pumpkin seeds" "1" "tbsp";
       mkIngredient "dried cranberries" "1" "tbsp" ]
      [
       mkInstruction 1 "Mix all ingredients in a small bowl";
       mkInstruction 2 "Store in airtight container for freshness" ];
    mkTemplate
      "Apple with Almond Butter"
      "Crisp apple slices with creamy almond butter"
      [
       mkIngredient "apple" "1" "medium";
       mkIngredient "almond butter" "2" "tbsp";
       mkIngredient "cinnamon" "1/4" "tsp" ]
      [
       mkInstruction 1 "Slice apple into wedges";
       mkInstruction 2 "Serve with almond butter and cinnamon" ];
    mkTemplate
      "Hummus and Veggies"
      "Fresh vegetables with protein-rich hummus"
      [
       mkIngredient "hummus" "1/4" "cup";
       mkIngredient "carrots" "1" "medium";
       mkIngredient "cucumber" "1/2" "medium";
       mkIngredient "bell pepper" "1/2" "medium" ]
      [
       mkInstruction 1 "Cut vegetables into sticks";
       mkInstruction 2 "Serve with hummus for dipping" ];
    mkTemplate
      "Protein Smoothie"
      "Refreshing protein smoothie with fruits and vegetables"
      [
       mkIngredient "protein powder" "1" "scoop";
       mkIngredient "banana" "1/2" "medium";
       mkIngredient "spinach" "1" "handful";
       mkIngredient "almond milk" "1" "cup";
       mkIngredient "berries" "1/4" "cup" ]
      [
       mkInstruction 1 "Blend all ingredients until smooth";
       mkInstruction 2 "Serve immediately" ] ].

Definition table : list (string * list MealTemplate) :=
  [("breakfast", breakfast); ("lunch", lunch);
   ("dinner", dinner); ("snack", snack)].

End mealTemplates.

(** ** The world outside

    The one thing the pipeline does not compute: whether a key is
    configured, and what the single POST to the generation endpoint comes
    back with.  The prompt only travels in the body of that request; the
    answer of the endpoint is part of the world, so the prompt text is not
    rebuilt here. *)

Inductive FetchOutcome : Type :=
  | Rejected (e : exn)
  | Response (ok : bool) (status : Z) (body : string).

Record World : Type := {
  VITE_GEMINI_API_KEY : option string;
  fetch : FetchOutcome
}.

(** What a call leaves behind: its outcome and the requests it sent. *)
Record Traced (A : Type) : Type := {
  returned : result A;
  fetches : nat
}.

Arguments returned {A} t.
Arguments fetches {A} t.

(** ** The class [GeminiAPI] *)

Module GeminiAPI.

(** *** The model client *)

(** [import.meta.env.VITE_GEMINI_API_KEY || 'demo-key'] *)
Definition GEMINI_API_KEY (w : World) : string :=
  match VITE_GEMINI_API_KEY w with
  | Some k => if Str.is_empty k then "demo-key" else k
  | None => "demo-key"
  end.

Definition show_Z (z : Z) : string := NilZero.string_of_int (Z.to_int z).

Definition get_opt (o : option value) (k : string) : option value :=
  match o with
  | Some v => Js.get v k
  | None => None
  end.

(** The checks of the transport envelope, level by level. *)
Definition read_envelope (data : value) : result string :=
  let candidates := Js.get data "candidates" in
  if negb (Js.truthy data) || negb (Js.truthy_opt candidates) ||
     negb (Js.isArray candidates) ||
     (Nat.eqb (List.length (Js.items candidates)) 0)
  then Throw (Error "Unexpected response format: missing candidates array")
  else
    let candidate := nth_error (Js.items candidates) 0 in
    let content := get_opt candidate "content" in
    let parts := get_opt content "parts" in
    if negb (Js.truthy_opt candidate) || negb (Js.truthy_opt content) ||
       negb (Js.truthy_opt parts) || negb (Js.isArray parts) ||
       (Nat.eqb (List.length (Js.items parts)) 0)
    then Throw (Error "Unexpected response format: missing content or parts")
    else
      let part := nth_error (Js.items parts) 0 in
      match negb (Js.truthy_opt part), get_opt part "text" with
      | false, Some (VStr text) => Ok text
      | _, _ =>
          Throw (Error "Unexpected response format: missing or invalid text content")
      end.

(** The body of the [try] block of [makeRequest]. *)
Definition request (w : World) : result string :=
  match fetch w with
  | Rejected e => Throw e
  | Response ok status body =>
      if negb ok then
        Throw (Error ("Gemini API error: " ++ show_Z status ++ " - " ++ body))
      else bind (JSON.parse body) read_envelope
  end.

(** Its [catch] block. *)
Definition request_failed (error : exn) : result string :=
  if String.eqb (message error) "API_KEY_MISSING" then Throw error
  else if Str.includes (message error) "Unexpected response format" then Throw error
  else Throw (Error "Failed to generate content with AI").

Definition makeRequest (w : World) : Traced string :=
  if Str.is_empty (GEMINI_API_KEY w) || String.eqb (GEMINI_API_KEY w) "demo-key"
  then {| returned := Throw (Error "API_KEY_MISSING"); fetches := 0 |}
  else {| returned := try_catch (request w) request_failed; fetches := 1 |}.

(** *** Extraction, cleaning and repair *)

(** The state of the brace-matching loop of [extractJsonFromText]. *)
Record Scan : Type := {
  braceCount : Z;
  startIndex : Z;
  endIndex : Z;
  inString : bool;
  escapeNext : bool
}.

Definition scan_init : Scan :=
  {| braceCount := 0; startIndex := -1; endIndex := -1;
     inString := false; escapeNext := false |}.

(** The loop, from index [i] on the remaining characters [text]. *)
Fixpoint scan (text : string) (i : Z) (st : Scan) : Scan :=
  match text with
  | EmptyString => st
  | String char rest =>
      if escapeNext st then
        scan rest (i + 1)
          {| braceCount := braceCount st; startIndex := startIndex st;
             endIndex := endIndex st; inString := inString st;
             escapeNext := false |}
      else if (char =? Str.backslash)%char then
        scan rest (i + 1)
          {| braceCount := braceCount st; startIndex := startIndex st;
             endIndex := endIndex st; inString := inString st;
             escapeNext := true |}
      else if (char =? Str.dquote)%char then
        scan rest (i + 1)
          {| braceCount := braceCount st; startIndex := startIndex st;
             endIndex := endIndex st; inString := negb (inString st);
             escapeNext := false |}
      else if negb (inString st) then
        if (char =? Str.lbrace)%char then
          scan rest (i + 1)
            {| braceCount := braceCount st + 1;
               startIndex := if braceCount st =? 0 then i else startIndex st;
               endIndex := endIndex st; inString := false;
               escapeNext := false |}
        else if (char =? Str.rbrace)%char then
          if (braceCount st - 1 =? 0) && negb (startIndex st =? -1) then
            {| braceCount := braceCount st - 1; startIndex := startIndex st;
               endIndex := i; inString := false; escapeNext := false |}
          else
            scan rest (i + 1)
              {| braceCount := braceCount st - 1; startIndex := startIndex st;
                 endIndex := endIndex st; inString := false;
                 escapeNext := false |}
        else scan rest (i + 1) st
      else scan rest (i + 1) st
  end.

Definition extractJsonFromText (text : string) : string :=
  let st := scan text 0 scan_init in
  if negb (startIndex st =? -1) && negb (endIndex st =? -1) then
    Str.substring text (startIndex st) (endIndex st + 1)
  else
    let jsonStart := Str.indexOf text Str.lbrace in
    let jsonEnd := Str.lastIndexOf text Str.rbrace in
    if negb (jsonStart =? -1) && negb (jsonEnd =? -1) && (jsonStart <? jsonEnd)
    then Str.substring text jsonStart (jsonEnd + 1)
    else text.

(** [.replace(/\s*```$/, '')] *)
Definition strip_closing_fence (s : string) : string :=
  let n := String.length s in
  if String.eqb (Str.drop (n - 3) s) "```" && Nat.leb 3 n
  then Str.trimEnd (Str.take (n - 3) s)
  else s.

(** What follows the first [*/] of [s], if there is one. *)
Fixpoint after_comment_end (s : string) : option string :=
  match s with
  | EmptyString => None
  | String c r =>
      match r with
      | String d r' =>
          if (c =? Str.star)%char && (d =? Str.slash)%char then Some r'
          else after_comment_end r
      | EmptyString => None
      end
  end.

(** [.replace(/\/\*[\s\S]*?\*\//g, '')] *)
Fixpoint strip_block_comments (fuel : nat) (s : string) : string :=
  match fuel with
  | O => s
  | S fuel' =>
      match s with
      | EmptyString => EmptyString
      | String c r =>
          match r with
          | String d r' =>
              if (c =? Str.slash)%char && (d =? Str.star)%char then
                match after_comment_end r' with
                | Some rest => strip_block_comments fuel' rest
                | None => String c (strip_block_comments fuel' r)
                end
              else String c (strip_block_comments fuel' r)
          | EmptyString => s
          end
      end
  end.

(** [.replace(/\/\/.*$/gm, '')]: [skipping] holds inside a comment. *)
Fixpoint strip_line_comments (skipping : bool) (s : string) : string :=
  match s with
  | EmptyString => EmptyString
  | String c r =>
      if skipping then
        if Str.is_line_terminator c then String c (strip_line_comments false r)
        else strip_line_comments true r
      else
        match r with
        | String d r' =>
            if (c =? Str.slash)%char && (d =? Str.slash)%char
            then strip_line_comments true r'
            else String c (strip_line_comments false r)
        | EmptyString => s
        end
  end.

Definition before_closer (s : string) : bool :=
  match Str.trimStart s with
  | String c _ => (c =? Str.rbrace)%char || (c =? Str.rbracket)%char
  | EmptyString => false
  end.

(** [.replace(/,(\s*[}\]])/g, '$1')] *)
Fixpoint strip_trailing_commas (s : string) : string :=
  match s with
  | EmptyString => EmptyString
  | String c r =>
      if (c =? Str.comma)%char && before_closer r
      then strip_trailing_commas r
      else String c (strip_trailing_commas r)
  end.

Definition cleanJsonResponse (response : string) : string :=
  let cleanedResponse := Str.trim response in
  let cleanedResponse :=
    if Str.startsWith cleanedResponse "```json" then
      strip_closing_fence (Str.trimStart (Str.drop 7 cleanedResponse))
    else if Str.startsWith cleanedResponse "```" then
      strip_closing_fence (Str.trimStart (Str.drop 3 cleanedResponse))
    else cleanedResponse in
  let cleanedResponse := extractJsonFromText cleanedResponse in
  Str.trim
    (strip_trailing_commas
       (strip_line_comments false
          (strip_block_comments (String.length cleanedResponse) cleanedResponse))).

(** [Object.keys(parsed)], called for the log line: it throws on null. *)
Definition Object_keys (parsed : value) : result unit :=
  match parsed with
  | VNull => Throw (TypeError "Cannot convert undefined or null to object")
  | _ => Ok tt
  end.

(** A [try] body of [validateAndParseJson]: parse, log the keys, return. *)
Definition parse_and_log (json : string) : result value :=
  bind (JSON.parse json) (fun parsed =>
  bind (Object_keys parsed) (fun _ => Ok parsed)).

(** The repairs between the two attempts. *)
Definition fixJson (jsonString : string) : string :=
  let fixedJson := jsonString in
  let fixedJson :=
    if negb (Str.startsWith fixedJson "{") then
      let firstBrace := Str.indexOf fixedJson Str.lbrace in
      if 0 <? firstBrace then Str.substring_from fixedJson firstBrace
      else fixedJson
    else fixedJson in
  let fixedJson :=
    if negb (Str.endsWith fixedJson Str.rbrace) then
      let lastBrace := Str.lastIndexOf fixedJson Str.rbrace in
      if negb (lastBrace =? -1) then Str.substring fixedJson 0 (lastBrace + 1)
      else fixedJson
    else fixedJson in
  let fixedJson :=
    if Str.endsWith fixedJson Str.comma then Str.drop_last fixedJson
    else fixedJson in
  let openBraces := Str.count Str.lbrace fixedJson in
  let closeBraces := Str.count Str.rbrace fixedJson in
  let fixedJson :=
    if closeBraces <? openBraces
    then fixedJson ++ Str.repeat Str.rbrace (openBraces - closeBraces)
    else fixedJson in
  let openBrackets := Str.count Str.lbracket fixedJson in
  let closeBrackets := Str.count Str.rbracket fixedJson in
  if closeBrackets <? openBrackets
  then fixedJson ++ Str.repeat Str.rbracket (openBrackets - closeBrackets)
  else fixedJson.

Definition validateAndParseJson (jsonString : string) : result value :=
  try_catch (parse_and_log jsonString) (fun directError =>
    try_catch (parse_and_log (fixJson jsonString)) (fun fixedError =>
      Throw (Error ("JSON parsing failed: " ++ message directError)))).

(** *** The plan validator *)

Definition valid_meal (meal : value) : bool :=
  negb (negb (Js.truthy meal) ||
        negb (Js.truthy_opt (Js.get meal "name")) ||
        negb (Js.truthy_opt (Js.get meal "mealType")) ||
        negb (Js.typeof_number (Js.get meal "calories"))).

(** The inner loop: the meals of one day, first failure wins. *)
Fixpoint valid_meals (meals : list value) : bool :=
  match meals with
  | [] => true
  | meal :: rest => if valid_meal meal then valid_meals rest else false
  end.

Definition valid_day (day : value) : bool :=
  if negb (Js.truthy day) || negb (Js.truthy_opt (Js.get day "meals")) ||
     negb (Js.isArray (Js.get day "meals")) ||
     (Nat.eqb (List.length (Js.items (Js.get day "meals"))) 0)
  then false
  else valid_meals (Js.items (Js.get day "meals")).

(** The outer loop: the days. *)
Fixpoint valid_days (days : list value) : bool :=
  match days with
  | [] => true
  | day :: rest => if valid_day day then valid_days rest else false
  end.

Definition validateDietPlanStructure (dietPlan : value) : bool :=
  if negb (Js.truthy dietPlan) || negb (Js.typeof_object dietPlan) then false
  else if negb (Js.truthy_opt (Js.get dietPlan "meals")) ||
          negb (Js.isArray (Js.get dietPlan "meals")) then false
  else if negb (Nat.eqb (List.length (Js.items (Js.get dietPlan "meals"))) 7)
  then false
  else valid_days (Js.items (Js.get dietPlan "meals")).

(** *** The caloric model *)

Definition calculateBMR (profile : UserProfile) : Q :=
  if String.eqb (gender profile) "male" then
    10 * weight profile + (25 # 4) * height profile - 5 * age profile + 5
  else
    10 * weight profile + (25 # 4) * height profile - 5 * age profile - 161.

Definition activityMultipliers : list (string * Q) :=
  [("sedentary", 6 # 5); ("light", 11 # 8); ("moderate", 31 # 20);
   ("active", 69 # 40); ("very_active", 19 # 10)].

(** The names every object literal inherits from [Object.prototype]. *)
Definition Object_prototype : list string :=
  ["constructor"; "__proto__"; "hasOwnProperty"; "isPrototypeOf";
   "propertyIsEnumerable"; "toLocaleString"; "toString"; "valueOf";
   "__defineGetter__"; "__defineSetter__"; "__lookupGetter__";
   "__lookupSetter__"].

(** What a read of a member of an object literal of numbers finds. *)
Inductive Member : Type :=
  | Own (q : Q)
  | Inherited.

(** [activityMultipliers[activityLevel]]: the key is any string, so the
    read also sees the inherited members, which are not numbers. *)
Definition activityMultiplier (activityLevel : string) : option Member :=
  match Js.lookup activityLevel activityMultipliers with
  | Some m => Some (Own m)
  | None =>
      if existsb (String.eqb activityLevel) Object_prototype
      then Some Inherited
      else None
  end.

Definition calculateDailyCalories (bmr : Q) (activityLevel goal : string)
  : number :=
  let tdee :=
    match activityMultiplier activityLevel with
    | Some (Own m) => Fin (bmr * m)
    | Some Inherited => NaN
    | None => Fin (bmr * (6 # 5))
    end in
  if String.eqb goal "weight_loss" then Num.round (Num.sub tdee (Num.of_Z 500))
  else if String.eqb goal "muscle_gain" then Num.round (Num.add tdee (Num.of_Z 300))
  else Num.round tdee.

(** *** The fallback generator *)

Definition dayNames : list string :=
  ["Monday"; "Tuesday"; "Wednesday"; "Thursday"; "Friday"; "Saturday";
   "Sunday"].

Definition mealTypes (preferences : Preferences) : list string :=
  (["breakfast"; "lunch"; "dinner"]
     ++ (if 3 <? mealsPerDay preferences then ["snack"] else [])
     ++ (if 4 <? mealsPerDay preferences then ["snack"] else []))%list.

(** [l.slice(0, n)]: a negative [n] counts from the end. *)
Definition slice0 {A : Type} (l : list A) (n : Z) : list A :=
  let len := Z.of_nat (List.length l) in
  let e := if n <? 0 then Z.max (len + n) 0 else Z.min n len in
  firstn (Z.to_nat e) l.

(** [l.map((x, i) => f x i)], counting from [i]. *)
Fixpoint mapi_from {A B : Type} (f : A -> Z -> B) (i : Z) (l : list A)
  : list B :=
  match l with
  | [] => []
  | x :: rest => f x i :: mapi_from f (i + 1) rest
  end.

Definition mapi {A B : Type} (f : A -> Z -> B) (l : list A) : list B :=
  mapi_from f 0 l.

(** [s || d] on strings. *)
Definition or_default (s d : string) : string :=
  if Str.is_empty s then d else s.

Definition lookup_or_empty (k : string) (kvs : list (string * string))
  : string :=
  match Js.lookup k kvs with
  | Some v => v
  | None => EmptyString
  end.

(** [mealTemplates[mealType] || mealTemplates.breakfast] *)
Definition templates_for (mealType : string) : list MealTemplate :=
  match Js.lookup mealType mealTemplates.table with
  | Some templates => templates
  | None => mealTemplates.breakfast
  end.

Definition no_template : MealTemplate := mkTemplate "" "" [] [].

Definition defaultMealTime (mealType : string) : string :=
  if String.eqb mealType "breakfast" then "08:00"
  else if String.eqb mealType "lunch" then "13:00"
  else if String.eqb mealType "dinner" then "19:00"
  else "15:00".

Definition fallbackMeal (caloriesPerMeal : number) (preferences : Preferences)
    (dayIndex : Z) (mealType : string) : GeneratedMeal :=
  let templates := templates_for mealType in
  let template :=
    nth (Z.to_nat (dayIndex mod Z.of_nat (List.length templates)))
        templates no_template in
  {| name := t_name template;
     description := t_description template;
     mealType := mealType;
     mealTime :=
       or_default (lookup_or_empty mealType (preferredMealTimes preferences))
                  (defaultMealTime mealType);
     calories := caloriesPerMeal;
     protein :=
       Num.round (Num.div (Num.mul caloriesPerMeal (Fin (1 # 4))) (Num.of_Z 4));
     carbs :=
       Num.round (Num.div (Num.mul caloriesPerMeal (Fin (9 # 20))) (Num.of_Z 4));
     fat :=
       Num.round (Num.div (Num.mul caloriesPerMeal (Fin (3 # 10))) (Num.of_Z 9));
     ingredients := t_ingredients template;
     instructions := t_instructions template;
     prepTime := 15;
     cookTime := 20;
     difficulty := "easy";
     tags := ["healthy"; "balanced"; mealType;
              or_default (dietType preferences) "nutritious"];
     cuisineType :=
       or_default (hd EmptyString (cuisinePreferences preferences))
                  "international" |}.

Definition fallbackDay (dailyCalories : number) (preferences : Preferences)
    (dayName : string) (dayIndex : Z) : DayPlan :=
  let caloriesPerMeal :=
    Num.round (Num.div dailyCalories (Num.of_Z (mealsPerDay preferences))) in
  {| dayNumber := dayIndex + 1;
     dayName := dayName;
     totalDayCalories := dailyCalories;
     meals :=
       map (fallbackMeal caloriesPerMeal preferences dayIndex)
           (slice0 (mealTypes preferences) (mealsPerDay preferences)) |}.

(** The object literal [fallbackPlan]. *)
Definition fallbackPlan (dailyCalories : number) (preferences : Preferences)
    (userProfile : UserProfile) : GeneratedDietPlan :=
  {| plan_name :=
       "Personalized "
         ++ or_default (Str.replace_first "_" " " (goal userProfile)) "Wellness"
         ++ " Diet Plan";
     plan_description :=
       "A comprehensive, balanced 7-day diet plan designed with whole foods and proper nutrition to help you achieve your health goals while enjoying delicious, varied meals throughout the week.";
     totalCalories := dailyCalories;
     durationWeeks :=
       if timelineWeeks userProfile =? 0 then 4 else timelineWeeks userProfile;
     days := mapi (fallbackDay dailyCalories preferences) dayNames |}.

Definition getComprehensiveFallbackDietPlan (dailyCalories : number)
    (preferences : Preferences) (userProfile : UserProfile)
  : result GeneratedDietPlan :=
  let plan := fallbackPlan dailyCalories preferences userProfile in
  if negb (validateDietPlanStructure (ToValue.plan plan)) then
    Throw (Error "Fallback diet plan generation failed - this should never happen")
  else Ok plan.

(** *** The orchestration *)

(** The fallback as [generateDietPlan] returns it: the same object. *)
Definition useFallback (dailyCalories : number) (request : DietPlanRequest)
  : result value :=
  bind (getComprehensiveFallbackDietPlan dailyCalories (preferences request)
          (userProfile request))
       (fun plan => Ok (ToValue.plan plan)).

Definition generateDietPlan (w : World) (request : DietPlanRequest)
  : result value :=
  let bmr := calculateBMR (userProfile request) in
  let dailyCalories :=
    calculateDailyCalories bmr (activityLevel (userProfile request))
                           (goal (userProfile request)) in
  try_catch
    (bind (returned (makeRequest w)) (fun response =>
       let cleanedResponse := cleanJsonResponse response in
       match validateAndParseJson cleanedResponse with
       | Throw parseError => useFallback dailyCalories request
       | Ok dietPlan =>
           if negb (validateDietPlanStructure dietPlan)
           then useFallback dailyCalories request
           else Ok dietPlan
       end))
    (fun error => useFallback dailyCalories request).

(** *** Recipes

    The text of the prompt is built from the arguments and only sent; the
    answer comes from the endpoint. *)

Definition generateRecipe (w : World) : Traced value :=
  {| returned :=
       try_catch
         (bind (returned (makeRequest w)) (fun response =>
            let cleanedResponse := cleanJsonResponse response in
            validateAndParseJson cleanedResponse))
         (fun error => Throw (Error "Failed to generate recipe"));
     fetches := fetches (makeRequest w) |}.

Definition generateRecipeDetails (w : World) : Traced value :=
  {| returned :=
       try_catch
         (bind (returned (makeRequest w)) (fun response =>
            let cleanedResponse := cleanJsonResponse response in
            validateAndParseJson cleanedResponse))
         (fun error => Throw (Error "Failed to generate recipe details"));
     fetches := fetches (makeRequest w) |}.

End GeminiAPI.

(** ** The caller: [handleGenerateDietPlan] of [pages/DietPlans.tsx]

    The record it hands to [dietPlanAPI.createDietPlan], without the user
    id and the two dates, which come from the session and the clock. *)

Record DietPlanRow : Type := {
  row_name : option value;
  row_description : option value;
  total_calories : option value;
  duration_weeks : option value;
  status : string;
  ai_generated : bool
}.

Definition createDietPlan_row (planName : string) (generatedPlan : value)
  : DietPlanRow :=
  {| row_name :=
       if Str.is_empty planName then Js.get generatedPlan "name"
       else Some (VStr planName);
     row_description := Js.get generatedPlan "description";
     total_calories := Js.get generatedPlan "totalCalories";
     duration_weeks := Js.get generatedPlan "durationWeeks";
     status := "active";
     ai_generated := true |}.

(** ** The page [pages/DietPlans.tsx]: what [generatePlanFromWizard] does
    with the plan and with a failure, and how the page names the days

    The database is outside: what it does with each meal is an input. *)

(** What a [catch] clause of the page receives: an [Error], or a value
    that is not one. *)
Inductive Caught : Type :=
  | AnError (error : exn)
  | NotAnError.

(** The message the [catch] of [generatePlanFromWizard] shows. *)
Definition userFriendlyMessage (error : Caught) : string :=
  let userFriendlyMessage := "Failed to generate your diet plan. " in
  match error with
  | AnError error =>
      if Str.includes (message error) "API_KEY_MISSING" then
        userFriendlyMessage
          ++ "AI service is not configured. Using our built-in meal templates instead."
      else if Str.includes (message error) "JSON parsing failed" then
        userFriendlyMessage
          ++ "There was an issue processing the AI response. Using our built-in meal templates instead."
      else if Str.includes (message error) "Failed to generate content with AI" then
        userFriendlyMessage
          ++ "AI service is temporarily unavailable. Using our built-in meal templates instead."
      else
        userFriendlyMessage
          ++ "Please try again or contact support if the issue persists."
  | NotAnError =>
      userFriendlyMessage ++ "An unexpected error occurred. Please try again."
  end.

(** [getDayName]: [%] takes the sign of the dividend, and an index below
    zero finds nothing. *)
Definition getDayName (dayNumber : Z) : option string :=
  let days := ["Monday"; "Tuesday"; "Wednesday"; "Thursday"; "Friday";
               "Saturday"; "Sunday"] in
  let i := Z.rem (dayNumber - 1) 7 in
  if i <? 0 then None else nth_error days (Z.to_nat i).

(** What the database does with one meal of the plan: [createRecipe]
    throws, or the recipe is stored and the insert into [meals] fails, or
    both are stored. *)
Inductive Outcome : Type :=
  | RecipeFails
  | InsertFails
  | Saved.

(** The counter of the page, and the rows the loop has left in the two
    tables. *)
Record Progress : Type := {
  createdMealsCount : Z;
  recipe_rows : Z;
  meal_rows : Z
}.

(** The body of the inner loop; [db] tells the outcome for the meal that
    comes after [n] others. *)
Definition saveMeal (db : Z -> Outcome) (p : Progress) (mealData : value)
  : Progress :=
  match db (createdMealsCount p) with
  | RecipeFails =>
      {| createdMealsCount := createdMealsCount p + 1;
         recipe_rows := recipe_rows p;
         meal_rows := meal_rows p |}
  | InsertFails =>
      {| createdMealsCount := createdMealsCount p + 1;
         recipe_rows := recipe_rows p + 1;
         meal_rows := meal_rows p |}
  | Saved =>
      {| createdMealsCount := createdMealsCount p + 1;
         recipe_rows := recipe_rows p + 1;
         meal_rows := meal_rows p + 1 |}
  end.

(** The first loop: [totalMealsToCreate]. *)
Definition totalMealsToCreate (generatedPlan : value) : Z :=
  fold_left
    (fun total dayPlan =>
       total + Z.of_nat (List.length (Js.items (Js.get dayPlan "meals"))))
    (Js.items (Js.get generatedPlan "meals")) 0.

(** The second loop, over the days and their meals. *)
Definition saveMeals (db : Z -> Outcome) (generatedPlan : value) : Progress :=
  fold_left
    (fun p dayPlan =>
       fold_left (saveMeal db) (Js.items (Js.get dayPlan "meals")) p)
    (Js.items (Js.get generatedPlan "meals"))
    {| createdMealsCount := 0; recipe_rows := 0; meal_rows := 0 |}.

(** * The vocabulary of the properties

    Predicates, the example inputs and what the specification says in its
    own words, by part of the pipeline. *)

Import GeminiAPI.

(** ** The model client and its key *)

(** No key is configured: the variable is unset or empty, or it holds the
    placeholder. *)
Definition key_missing (w : World) : Prop :=
  VITE_GEMINI_API_KEY w = None \/
  VITE_GEMINI_API_KEY w = Some EmptyString \/
  VITE_GEMINI_API_KEY w = Some "demo-key".

Definition placeholder_world : World :=
  {| VITE_GEMINI_API_KEY := Some "demo-key";
     fetch := Response true 200 "{}" |}.

(** ** The caloric model *)

(** The multiplier the specification describes: the table, and 1.2 for a
    level that is not in it. *)
Definition table_multiplier (activityLevel : string) : Q :=
  if String.eqb activityLevel "sedentary" then 6 # 5
  else if String.eqb activityLevel "light" then 11 # 8
  else if String.eqb activityLevel "moderate" then 31 # 20
  else if String.eqb activityLevel "active" then 69 # 40
  else if String.eqb activityLevel "very_active" then 19 # 10
  else 6 # 5.

Definition goal_adjustment (goal : string) : Z :=
  if String.eqb goal "weight_loss" then -500
  else if String.eqb goal "muscle_gain" then 300
  else 0.

Definition inherited (activityLevel : string) : bool :=
  existsb (String.eqb activityLevel) Object_prototype.

(** The worked example of the specification: BMR 1780, target 2136. *)
Definition example_profile : UserProfile :=
  {| age := 30; gender := "male"; height := 180; weight := 80;
     targetWeight := 75; activityLevel := "sedentary"; goal := "maintenance";
     medicalConditions := []; allergies := []; timelineWeeks := 8 |}.

(** ** The plan validator *)

(** The days of a plan and the meals of a day, as the validator reads
    them. *)
Definition plan_days (plan : value) : list value :=
  Js.items (Js.get plan "meals").

Definition day_meals (day : value) : list value :=
  Js.items (Js.get day "meals").

(** A meal has its three required members: a name and a meal type that are
    strings with something in them, and calories that are a number. *)
Definition has_required_fields (meal : value) : Prop :=
  (exists n, Js.get meal "name" = Some (VStr n) /\ n <> EmptyString) /\
  (exists t, Js.get meal "mealType" = Some (VStr t) /\ t <> EmptyString) /\
  (exists c, Js.get meal "calories" = Some (VNum c)).

(** A meal with nothing but the three required members, a day with
    nothing but one such meal, and a plan of seven such days. *)
Definition bare_meal : value :=
  VObj [("name", VStr "Oats"); ("mealType", VStr "breakfast");
        ("calories", VNum (Num.of_Z 300))].

Definition bare_day : value := VObj [("meals", VArr [bare_meal])].

Definition bare_plan : value :=
  VObj [("meals", VArr (List.repeat bare_day 7))].

(** ** The fallback generator *)

Definition recognized : list string := ["breakfast"; "lunch"; "dinner"; "snack"].

(** The slate of five slots the fallback draws from. *)
Definition slate : list string :=
  ["breakfast"; "lunch"; "dinner"; "snack"; "snack"].

Definition six_meals : Preferences :=
  {| dietType := "vegetarian"; cuisinePreferences := ["italian"];
     tastePreferences := []; foodRestrictions := []; mealsPerDay := 6;
     preferredMealTimes := [] |}.

Definition three_meals : Preferences :=
  {| dietType := "vegetarian"; cuisinePreferences := ["italian"];
     tastePreferences := []; foodRestrictions := []; mealsPerDay := 3;
     preferredMealTimes := [("breakfast", "07:30")] |}.

(** ** The orchestration *)

(** The calorie target [generateDietPlan] computes for a request. *)
Definition dailyCalories_of (request : DietPlanRequest) : number :=
  calculateDailyCalories (calculateBMR (userProfile request))
    (activityLevel (userProfile request)) (goal (userProfile request)).

Definition fallback_error : exn :=
  Error "Fallback diet plan generation failed - this should never happen".

(** The five failures of the pipeline. *)
Inductive Failure : Type :=
  | ApiKeyMissing
  | TransportError
  | MalformedEnvelope
  | UnparseableResponse
  | InvalidPlanShape.

(** Where and how each of them is raised. *)
Definition raised (w : World) (f : Failure) : Prop :=
  match f with
  | ApiKeyMissing =>
      returned (makeRequest w) = Throw (Error "API_KEY_MISSING")
  | TransportError =>
      returned (makeRequest w) = Throw (Error "Failed to generate content with AI")
  | MalformedEnvelope =>
      exists e, returned (makeRequest w) = Throw e /\
                Str.includes (message e) "Unexpected response format" = true
  | UnparseableResponse =>
      exists text e, returned (makeRequest w) = Ok text /\
                     validateAndParseJson (cleanJsonResponse text) = Throw e
  | InvalidPlanShape =>
      exists text plan, returned (makeRequest w) = Ok text /\
                        validateAndParseJson (cleanJsonResponse text) = Ok plan /\
                        validateDietPlanStructure plan = false
  end.

Definition example_request : DietPlanRequest :=
  {| userProfile := example_profile; preferences := three_meals |}.

(** *** Answers of the endpoint, for the examples *)

Definition quoted (s : string) : string :=
  (String Str.dquote s) ++ Str.of_char Str.dquote.

(** A string as a JSON string literal. *)
Fixpoint escaped (s : string) : string :=
  match s with
  | EmptyString => EmptyString
  | String c r =>
      if (c =? Str.dquote)%char || (c =? Str.backslash)%char
      then String Str.backslash (String c (escaped r))
      else String c (escaped r)
  end.

(** The transport envelope around a generated text. *)
Definition envelope (text : string) : string :=
  "{" ++ quoted "candidates" ++ ":[{" ++ quoted "content" ++ ":{"
      ++ quoted "parts" ++ ":[{" ++ quoted "text" ++ ":"
      ++ quoted (escaped text) ++ "}]}}]}".

Definition answering (text : string) : World :=
  {| VITE_GEMINI_API_KEY := Some "configured-key";
     fetch := Response true 200 (envelope text) |}.

(** *** What the returned plan looks like *)

(** What the validator has checked of a meal. *)
Definition checked_meal (meal : value) : Prop :=
  Js.truthy_opt (Js.get meal "name") = true /\
  Js.truthy_opt (Js.get meal "mealType") = true /\
  exists c, Js.get meal "calories" = Some (VNum c).

(** The shape every validated plan has. *)
Definition validated_shape (plan : value) : Prop :=
  List.length (plan_days plan) = 7%nat /\
  forall day, In day (plan_days plan) ->
    day_meals day <> [] /\
    forall meal, In meal (day_meals day) -> checked_meal meal.

(** The shape the specification claims: a name with something in it, a
    meal type out of the four, calories that are a number and not
    negative. *)
Definition claimed_meal (meal : value) : bool :=
  match Js.get meal "name", Js.get meal "mealType", Js.get meal "calories" with
  | Some (VStr n), Some (VStr t), Some (VNum c) =>
      negb (Str.is_empty n) && existsb (String.eqb t) recognized && Num.nonneg c
  | _, _, _ => false
  end.

Definition claimed_shape (plan : value) : bool :=
  Nat.eqb (List.length (plan_days plan)) 7 &&
  forallb (fun day =>
             negb (Nat.eqb (List.length (day_meals day)) 0) &&
             forallb claimed_meal (day_meals day))
          (plan_days plan).

(** A plan the model may answer with: seven days of one meal of a type
    that does not exist, with negative calories. *)
Definition odd_meal_text : string :=
  "{" ++ quoted "name" ++ ":" ++ quoted "Mystery" ++ ","
      ++ quoted "mealType" ++ ":" ++ quoted "brunch" ++ ","
      ++ quoted "calories" ++ ":-5}".

Definition odd_plan_text : string :=
  "{" ++ quoted "meals" ++ ":["
      ++ String.concat ","
           (List.repeat ("{" ++ quoted "meals" ++ ":[" ++ odd_meal_text ++ "]}") 7)
      ++ "]}".

Definition odd_plan : value :=
  VObj [("meals",
         VArr (List.repeat
                 (VObj [("meals",
                         VArr [VObj [("name", VStr "Mystery");
                                     ("mealType", VStr "brunch");
                                     ("calories", VNum (Fin (-5)))]])])
                 7))].

(** ** The balanced-brace extractor *)

(** A character that is neither a brace, nor a quote, nor a backslash. *)
Definition plain (c : ascii) : Prop :=
  c <> Str.lbrace /\ c <> Str.rbrace /\ c <> Str.dquote /\ c <> Str.backslash.

(** The inside of a string literal: characters other than the quote and
    the backslash, and backslashes each followed by one character. *)
Inductive literal_body : string -> Prop :=
  | body_nil : literal_body EmptyString
  | body_char (c : ascii) (s : string) :
      c <> Str.dquote -> c <> Str.backslash ->
      literal_body s -> literal_body (String c s)
  | body_escape (c : ascii) (s : string) :
      literal_body s -> literal_body (String Str.backslash (String c s)).

(** Text without a brace outside its string literals. *)
Inductive flat : string -> Prop :=
  | flat_nil : flat EmptyString
  | flat_char (c : ascii) (s : string) :
      plain c -> flat s -> flat (String c s)
  | flat_literal (b s : string) :
      literal_body b -> flat s ->
      flat (String Str.dquote (b ++ String Str.dquote s)).

(** Text whose braces, outside its string literals, match. *)
Inductive balanced : string -> Prop :=
  | bal_nil : balanced EmptyString
  | bal_char (c : ascii) (s : string) :
      plain c -> balanced s -> balanced (String c s)
  | bal_literal (b s : string) :
      literal_body b -> balanced s ->
      balanced (String Str.dquote (b ++ String Str.dquote s))
  | bal_object (inner s : string) :
      balanced inner -> balanced s ->
      balanced (String Str.lbrace (inner ++ String Str.rbrace s)).

Definition scanning (d a e : Z) (inside : bool) : Scan :=
  {| braceCount := d; startIndex := a; endIndex := e;
     inString := inside; escapeNext := false |}.

(** The example of the specification:
    [prefix {"a": {"b": "}"}, "c": 1} suffix]. *)
Definition example_inner : string :=
  quoted "a" ++ ": {" ++ quoted "b" ++ ": " ++ quoted "}" ++ "}, "
    ++ quoted "c" ++ ": 1".

Definition example_text : string :=
  "prefix " ++ String Str.lbrace (example_inner ++ String Str.rbrace " suffix").

Ltac plain_chars :=
  repeat first
    [ apply flat_nil | apply bal_nil | apply body_nil
    | apply flat_char; [repeat split; discriminate |]
    | apply bal_char; [repeat split; discriminate |]
    | apply body_char; [discriminate | discriminate |] ].

(** ** Repair and retry *)

(** The text ends with a comma. *)
Definition ends_comma (s : string) : Prop := Str.last_char s = Some ","%char.

(** Reading from [s] to [rest] keeps the final comma in what is left. *)
Definition keeps (s rest : string) : Prop := ends_comma s -> ends_comma rest.

(** A text cut short inside a member that follows a closed object. *)
Definition cut_after_object : string :=
  "{" ++ quoted "a" ++ ": {" ++ quoted "x" ++ ": {}, " ++ quoted "b" ++ ": 1".

(** A text cut short right after a closing brace. *)
Definition cut_after_brace : string :=
  "{" ++ quoted "a" ++ ": {" ++ quoted "b" ++ ": {" ++ quoted "c" ++ ": 1}".

(** A text cut short by one closing brace, with a brace inside a string
    literal. *)
Definition brace_in_literal : string :=
  "{" ++ quoted "a" ++ ": " ++ quoted "{" ++ ", " ++ quoted "b" ++ ": {"
      ++ quoted "c" ++ ": 1}".

(** ** More examples and predicates, by part of the pipeline *)

(** An endpoint that answers with a failure status. *)
Definition overloaded_world : World :=
  {| VITE_GEMINI_API_KEY := Some "configured-key";
     fetch := Response false 503 "overloaded" |}.

(** An endpoint that fails with a text that speaks of the format. *)
Definition misformatted_world : World :=
  {| VITE_GEMINI_API_KEY := Some "configured-key";
     fetch := Response false 503 "Unexpected response format" |}.

(** An object whose two members lack the comma between them. *)
Definition missing_comma : string :=
  "{" ++ quoted "a" ++ ": 1 " ++ quoted "b" ++ ": 2}".

(** The scan has seen an opening brace at [startIndex], if it has one. *)
Definition opened (pre : string) (st : Scan) : Prop :=
  startIndex st = -1 \/
  exists a b, pre = a ++ String Str.lbrace b /\ startIndex st = Str.len a.




(** The text begins with a slash. *)
Definition starts_slash (s : string) : bool :=
  match s with
  | String c _ => (c =? Str.slash)%char
  | EmptyString => false
  end.

(** An object with a link in one of its strings. *)
Definition linked_example : string :=
  "{" ++ quoted "source" ++ ": " ++ quoted "https://example.org/plan" ++ "}".

(** What identifies the recipe of a meal. *)
Definition recipe_of (m : GeneratedMeal)
  : string * string * list Ingredient * list Instruction :=
  (name m, description m, ingredients m, instructions m).

(** Two meals a day counted from the end of the list: breakfast and
    lunch. *)
Definition minus_one_meal : Preferences :=
  {| dietType := "vegetarian"; cuisinePreferences := [];
     tastePreferences := []; foodRestrictions := [];
     mealsPerDay := -1; preferredMealTimes := [] |}.

(** Three meals counted off the list of three: none is left. *)
Definition minus_three_meals : Preferences :=
  {| dietType := "vegetarian"; cuisinePreferences := [];
     tastePreferences := []; foodRestrictions := [];
     mealsPerDay := -3; preferredMealTimes := [] |}.

(** Three meals and one snack. *)
Definition four_meals : Preferences :=
  {| dietType := "vegetarian"; cuisinePreferences := ["italian"];
     tastePreferences := []; foodRestrictions := []; mealsPerDay := 4;
     preferredMealTimes := [] |}.

(** A vegan user who eats no poultry. *)
Definition vegan_three_meals : Preferences :=
  {| dietType := "vegan"; cuisinePreferences := [];
     tastePreferences := []; foodRestrictions := ["poultry"]; mealsPerDay := 3;
     preferredMealTimes := [] |}.

(** A request for no meal at all. *)
Definition no_meals : Preferences :=
  {| dietType := "vegetarian"; cuisinePreferences := [];
     tastePreferences := []; foodRestrictions := [];
     mealsPerDay := 0; preferredMealTimes := [] |}.

Definition no_meals_request : DietPlanRequest :=
  {| userProfile := example_profile; preferences := no_meals |}.

(** A request whose activity level is a name every object inherits. *)
Definition constructor_request : DietPlanRequest :=
  {| userProfile :=
       {| age := 30; gender := "male"; height := 180; weight := 80;
          targetWeight := 75; activityLevel := "constructor";
          goal := "maintenance"; medicalConditions := []; allergies := [];
          timelineWeeks := 8 |};
     preferences := three_meals |}.

(** * Properties *)

(** ** The model client and its key *)

Lemma key_missing_placeholder (w : World) :
  key_missing w -> GEMINI_API_KEY w = "demo-key".
Proof.
  unfold GEMINI_API_KEY.
  intros [H | [H | H]]; rewrite H; reflexivity.
Qed.

(** C10. [makeRequest] throws [API_KEY_MISSING] when no key is configured
    and also when the configured key is the placeholder ['demo-key']; in
    both cases it has sent no request. *)
Theorem makeRequest_without_key (w : World) :
  key_missing w ->
  makeRequest w = {| returned := Throw (Error "API_KEY_MISSING"); fetches := 0 |}.
Proof.
  intros H.
  unfold makeRequest.
  rewrite (key_missing_placeholder w H).
  reflexivity.
Qed.

Lemma makeRequest_without_key_witness :
  key_missing placeholder_world /\
  makeRequest placeholder_world =
    {| returned := Throw (Error "API_KEY_MISSING"); fetches := 0 |}.
Proof.
  assert (H : key_missing placeholder_world) by (right; right; reflexivity).
  split; [exact H | exact (makeRequest_without_key placeholder_world H)].
Defined.

(** With a key of its own the client does send its request. *)
Lemma makeRequest_with_key (w : World) (k : string) :
  VITE_GEMINI_API_KEY w = Some k ->
  k <> EmptyString -> k <> "demo-key" ->
  fetches (makeRequest w) = 1%nat.
Proof.
  intros Hk Hne Hnd.
  unfold makeRequest, GEMINI_API_KEY.
  rewrite Hk.
  destruct k as [| c k']; [congruence |].
  cbn [Str.is_empty orb].
  destruct (String.eqb_spec (String c k') "demo-key"); [congruence | reflexivity].
Qed.

(** ** The caloric model *)

Lemma Qfloor_half_comp (x y : Q) :
  x == y -> Num.round_Q x = Num.round_Q y.
Proof.
  intros H. unfold Num.round_Q. now rewrite H.
Qed.

Lemma activityMultiplier_table (activityLevel : string) :
  inherited activityLevel = false ->
  match activityMultiplier activityLevel with
  | Some (Own m) => m = table_multiplier activityLevel
  | Some Inherited => False
  | None => table_multiplier activityLevel = 6 # 5
  end.
Proof.
  intros Hin.
  unfold activityMultiplier, table_multiplier, activityMultipliers.
  fold (inherited activityLevel). rewrite Hin.
  cbn [Js.lookup].
  rewrite !(String.eqb_sym _ activityLevel).
  destruct (String.eqb activityLevel "very_active") eqn:E5;
  destruct (String.eqb activityLevel "active") eqn:E4;
  destruct (String.eqb activityLevel "moderate") eqn:E3;
  destruct (String.eqb activityLevel "light") eqn:E2;
  destruct (String.eqb activityLevel "sedentary") eqn:E1;
  try reflexivity;
  repeat match goal with
         | H : String.eqb _ _ = true |- _ => apply String.eqb_eq in H
         end;
  congruence.
Qed.

(** The formula of the specification, for every activity level that is
    not a name inherited from [Object.prototype]. *)
Lemma calculateDailyCalories_formula (bmr : Q) (activityLevel goal : string) :
  inherited activityLevel = false ->
  calculateDailyCalories bmr activityLevel goal =
    Num.of_Z (Num.round_Q (bmr * table_multiplier activityLevel
                           + inject_Z (goal_adjustment goal))).
Proof.
  intros Hin.
  pose proof (activityMultiplier_table activityLevel Hin) as Hm.
  unfold calculateDailyCalories, goal_adjustment.
  destruct (activityMultiplier activityLevel) as [[m |] |];
    [subst m | contradiction | rewrite Hm];
  destruct (String.eqb goal "weight_loss");
  try destruct (String.eqb goal "muscle_gain");
  cbn [Num.round Num.sub Num.add Num.opp Num.of_Z];
  apply (f_equal Fin), (f_equal inject_Z), Qfloor_half_comp;
  cbn [inject_Z]; ring.
Qed.

Lemma calculateBMR_example :
  calculateBMR example_profile == 1780 /\
  calculateDailyCalories (calculateBMR example_profile) "sedentary" "maintenance"
    = Num.of_Z 2136.
Proof.
  split; [reflexivity | vm_compute; reflexivity].
Qed.

(** The whole computation of the target, from the profile, for every
    activity level that is not an inherited name: the Mifflin-St Jeor rate
    with 5 for a male profile and 5 - 166 otherwise, times the multiplier
    of the table, plus the adjustment of the goal, rounded. *)
Lemma calorie_target_formula (profile : UserProfile) :
  inherited (activityLevel profile) = false ->
  calculateDailyCalories (calculateBMR profile) (activityLevel profile)
    (goal profile) =
  Num.of_Z
    (Num.round_Q
       ((10 * weight profile + (25 # 4) * height profile - 5 * age profile
         + (if String.eqb (gender profile) "male" then 5 else 5 - 166))
        * table_multiplier (activityLevel profile)
        + inject_Z (goal_adjustment (goal profile)))).
Proof.
  intros Hin. rewrite (calculateDailyCalories_formula _ _ _ Hin).
  apply (f_equal Num.of_Z), Qfloor_half_comp.
  unfold calculateBMR. destruct (String.eqb (gender profile) "male"); ring.
Qed.

(** C4. The default of 1.2 is missed for an activity level that names a
    member inherited from [Object.prototype]: the multiplier read from the
    table is then not a number and the target is NaN, whatever the BMR and
    the goal, instead of [round (BMR * 1.2 + adjustment)]. *)
Theorem calculateDailyCalories_inherited_level (bmr : Q) (goal : string) :
  calculateDailyCalories bmr "constructor" goal = NaN /\
  Num.of_Z (Num.round_Q (bmr * table_multiplier "constructor"
                         + inject_Z (goal_adjustment goal))) <> NaN.
Proof.
  split; [| discriminate].
  unfold calculateDailyCalories.
  destruct (String.eqb goal "weight_loss"); [reflexivity |].
  destruct (String.eqb goal "muscle_gain"); reflexivity.
Qed.

(** ** The plan validator *)

Lemma valid_meals_forallb (ms : list value) :
  valid_meals ms = forallb valid_meal ms.
Proof.
  induction ms as [| m ms IH]; [reflexivity |].
  cbn. rewrite IH. now destruct (valid_meal m).
Qed.

Lemma valid_days_forallb (ds : list value) :
  valid_days ds = forallb valid_day ds.
Proof.
  induction ds as [| d ds IH]; [reflexivity |].
  cbn. rewrite IH. now destruct (valid_day d).
Qed.

Lemma get_some_object (v : value) (k : string) (x : value) :
  Js.get v k = Some x -> exists kvs, v = VObj kvs.
Proof.
  destruct v; cbn; try discriminate. intros _. now eexists.
Qed.

Lemma string_nonempty (s : string) : s <> EmptyString -> Str.is_empty s = false.
Proof.
  destruct s; [congruence | reflexivity].
Qed.

Lemma has_required_fields_valid (meal : value) :
  has_required_fields meal -> valid_meal meal = true.
Proof.
  intros [[n [Hn Hne]] [[t [Ht Hte]] [c Hc]]].
  destruct (get_some_object _ _ _ Hn) as [kvs ->].
  unfold valid_meal. rewrite Hn, Ht, Hc. cbn.
  now rewrite (string_nonempty n Hne), (string_nonempty t Hte).
Qed.

(** What a day that passes looks like. *)
Lemma valid_day_inv (day : value) :
  valid_day day = true ->
  day_meals day <> [] /\ forallb valid_meal (day_meals day) = true.
Proof.
  unfold valid_day, day_meals.
  destruct (negb (Js.truthy day) || _ || _ || _) eqn:E; [discriminate |].
  intros H. rewrite valid_meals_forallb in H. split; [| exact H].
  apply Bool.orb_false_iff in E as [_ E].
  intros Hnil. now rewrite Hnil in E.
Qed.

(** What a plan that passes looks like. *)
Lemma validateDietPlanStructure_inv (plan : value) :
  validateDietPlanStructure plan = true ->
  List.length (plan_days plan) = 7%nat /\
  forallb valid_day (plan_days plan) = true.
Proof.
  unfold validateDietPlanStructure, plan_days.
  destruct (negb (Js.truthy plan) || _); [discriminate |].
  destruct (negb (Js.truthy_opt _) || _); [discriminate |].
  destruct (Nat.eqb_spec (List.length (Js.items (Js.get plan "meals"))) 7) as [E | E];
    cbn [negb]; [| discriminate].
  intros H. rewrite valid_days_forallb in H. now split.
Qed.

Lemma validateDietPlanStructure_accepts (plan : value) (days : list value) :
  Js.get plan "meals" = Some (VArr days) ->
  List.length days = 7%nat ->
  (forall day, In day days -> valid_day day = true) ->
  validateDietPlanStructure plan = true.
Proof.
  intros Hget Hlen Hdays.
  destruct (get_some_object _ _ _ Hget) as [kvs ->].
  unfold validateDietPlanStructure. rewrite Hget. cbn.
  rewrite Hlen. cbn.
  rewrite valid_days_forallb. now apply forallb_forall.
Qed.

Lemma valid_day_accepts (day : value) (ms : list value) :
  Js.get day "meals" = Some (VArr ms) ->
  ms <> [] ->
  (forall meal, In meal ms -> valid_meal meal = true) ->
  valid_day day = true.
Proof.
  intros Hget Hne Hms.
  destruct (get_some_object _ _ _ Hget) as [kvs ->].
  unfold valid_day. rewrite Hget. cbn.
  destruct ms as [| m ms']; [congruence |]. cbn [List.length Nat.eqb].
  rewrite valid_meals_forallb. now apply forallb_forall.
Qed.

(** C3. The validator rejects a plan whose sequence of days has any length
    other than 7 (6, say); it rejects a plan in which some day has no
    meals; one meal that fails its check rejects the whole plan; and it
    accepts a plan of 7 days in which every day has meals and every meal
    has a name, a meal type and numeric calories, whatever else is
    absent. *)
Theorem validateDietPlanStructure_verdicts (plan : value) :
  (List.length (plan_days plan) <> 7%nat ->
   validateDietPlanStructure plan = false) /\
  ((exists day, In day (plan_days plan) /\ day_meals day = []) ->
   validateDietPlanStructure plan = false) /\
  ((exists day meal, In day (plan_days plan) /\ In meal (day_meals day) /\
                     valid_meal meal = false) ->
   validateDietPlanStructure plan = false) /\
  (forall days,
     Js.get plan "meals" = Some (VArr days) ->
     List.length days = 7%nat ->
     (forall day, In day days ->
        exists ms, Js.get day "meals" = Some (VArr ms) /\ ms <> [] /\
                   forall meal, In meal ms -> has_required_fields meal) ->
     validateDietPlanStructure plan = true).
Proof.
  repeat split.
  - intros Hlen.
    destruct (validateDietPlanStructure plan) eqn:E; [| reflexivity].
    now apply validateDietPlanStructure_inv in E.
  - intros [day [Hin Hnil]].
    destruct (validateDietPlanStructure plan) eqn:E; [| reflexivity].
    apply validateDietPlanStructure_inv in E as [_ E].
    rewrite forallb_forall in E.
    now destruct (valid_day_inv day (E day Hin)).
  - intros [day [meal [Hin [Hmeal Hbad]]]].
    destruct (validateDietPlanStructure plan) eqn:E; [| reflexivity].
    apply validateDietPlanStructure_inv in E as [_ E].
    rewrite forallb_forall in E.
    destruct (valid_day_inv day (E day Hin)) as [_ Hms].
    rewrite forallb_forall in Hms.
    rewrite (Hms meal Hmeal) in Hbad. discriminate.
  - intros days Hget Hlen Hdays.
    apply (validateDietPlanStructure_accepts plan days Hget Hlen).
    intros day Hin.
    destruct (Hdays day Hin) as [ms [Hms [Hne Hall]]].
    apply (valid_day_accepts day ms Hms Hne).
    intros meal Hmeal. apply has_required_fields_valid, Hall, Hmeal.
Qed.

Lemma validateDietPlanStructure_verdicts_witness :
  validateDietPlanStructure bare_plan = true /\
  validateDietPlanStructure (VObj [("meals", VArr (List.repeat bare_day 6))]) = false /\
  validateDietPlanStructure
    (VObj [("meals", VArr (VObj [("meals", VArr [])] :: List.repeat bare_day 6))])
  = false.
Proof.
  split; [| split].
  - apply (proj2 (proj2 (proj2 (validateDietPlanStructure_verdicts bare_plan)))
             (List.repeat bare_day 7)); [reflexivity | reflexivity |].
    intros day Hin. apply repeat_spec in Hin. subst day.
    exists [bare_meal]. split; [reflexivity |]. split; [discriminate |].
    intros meal [<- | []].
    repeat split; eexists; (split; [reflexivity | discriminate]) || reflexivity.
  - apply (proj1 (validateDietPlanStructure_verdicts _)). cbn. lia.
  - apply (proj1 (proj2 (validateDietPlanStructure_verdicts _))).
    exists (VObj [("meals", VArr [])]). split; [left |]; reflexivity.
Defined.

(** ** The fallback generator *)

Lemma mealTypes_slate (preferences : Preferences) :
  0 <= mealsPerDay preferences ->
  slice0 (mealTypes preferences) (mealsPerDay preferences) =
    firstn (Z.to_nat (Z.min (mealsPerDay preferences) 5)) slate.
Proof.
  intros Hn. unfold slice0, mealTypes, slate.
  set (n := mealsPerDay preferences) in *.
  destruct (Z.ltb_spec n 0) as [Hneg | _]; [lia |].
  destruct (Z.ltb_spec 3 n) as [H3 | H3];
  destruct (Z.ltb_spec 4 n) as [H4 | H4]; try lia; cbn [app List.length].
  - replace (Z.min n 5) with 5 by lia.
    replace (Z.min n (Z.of_nat 5)) with 5 by lia. reflexivity.
  - replace n with 4 by lia. reflexivity.
  - assert (Hc : n = 0 \/ n = 1 \/ n = 2 \/ n = 3) by lia.
    destruct Hc as [-> | [-> | [-> | ->]]]; reflexivity.
Qed.

Lemma mapi_from_in {A B : Type} (f : A -> Z -> B) (l : list A) (i : Z) (y : B) :
  In y (mapi_from f i l) -> exists x j, In x l /\ i <= j /\ y = f x j.
Proof.
  revert i. induction l as [| a l IH]; intros i; cbn; [tauto |].
  intros [<- | H].
  - exists a, i. repeat split; [now left | lia].
  - destruct (IH _ H) as [x [j [Hx [Hj ->]]]].
    exists x, j. repeat split; [now right | lia].
Qed.

Lemma mapi_from_length {A B : Type} (f : A -> Z -> B) (l : list A) (i : Z) :
  List.length (mapi_from f i l) = List.length l.
Proof.
  revert i. induction l as [| a l IH]; intros i; cbn; [reflexivity |].
  now rewrite IH.
Qed.

(** Every day of the fallback plan is built by [fallbackDay] at an index
    that is not negative. *)
Lemma fallbackPlan_days (dailyCalories : number) (preferences : Preferences)
    (userProfile : UserProfile) (day : DayPlan) :
  In day (days (fallbackPlan dailyCalories preferences userProfile)) ->
  exists dayName dayIndex,
    0 <= dayIndex /\ day = fallbackDay dailyCalories preferences dayName dayIndex.
Proof.
  cbn [days fallbackPlan]. unfold mapi. intros H.
  destruct (mapi_from_in _ _ _ _ H) as [x [j [_ [Hj ->]]]].
  now exists x, j.
Qed.

Lemma map_mealType_fallbackMeal (c : number) (preferences : Preferences)
    (dayIndex : Z) (types : list string) :
  map mealType (map (fallbackMeal c preferences dayIndex) types) = types.
Proof.
  induction types as [| t types IH]; [reflexivity |].
  cbn [map]. now rewrite IH.
Qed.

(** C9. For every number of meals per day (a count: not negative), each
    day of the fallback plan holds exactly [min mealsPerDay 5] meals, whose
    types are the first ones of the slate breakfast, lunch, dinner, snack,
    snack, in that order; from five on nothing more is added, so a request
    for six meals gives days of five. *)
Theorem fallbackPlan_meals_per_day (dailyCalories : number)
    (preferences : Preferences) (userProfile : UserProfile) :
  0 <= mealsPerDay preferences ->
  forall day,
    In day (days (fallbackPlan dailyCalories preferences userProfile)) ->
    map mealType (meals day) =
      firstn (Z.to_nat (Z.min (mealsPerDay preferences) 5)) slate /\
    Z.of_nat (List.length (meals day)) = Z.min (mealsPerDay preferences) 5 /\
    (6 <= mealsPerDay preferences -> List.length (meals day) = 5%nat).
Proof.
  intros Hn day Hin.
  destruct (fallbackPlan_days _ _ _ _ Hin) as [dayName [dayIndex [_ ->]]].
  cbn [meals fallbackDay].
  assert (Htypes : map mealType
            (map (fallbackMeal
                    (Num.round (Num.div dailyCalories
                                  (Num.of_Z (mealsPerDay preferences))))
                    preferences dayIndex)
                 (slice0 (mealTypes preferences) (mealsPerDay preferences)))
          = firstn (Z.to_nat (Z.min (mealsPerDay preferences) 5)) slate).
  { rewrite map_mealType_fallbackMeal. now apply mealTypes_slate. }
  split; [exact Htypes |].
  assert (Hlen : Z.of_nat (List.length
            (map (fallbackMeal
                    (Num.round (Num.div dailyCalories
                                  (Num.of_Z (mealsPerDay preferences))))
                    preferences dayIndex)
                 (slice0 (mealTypes preferences) (mealsPerDay preferences))))
          = Z.min (mealsPerDay preferences) 5).
  { rewrite <- (length_map mealType), Htypes, length_firstn.
    change (List.length slate) with 5%nat. lia. }
  split; [exact Hlen | lia].
Qed.

Lemma fallbackPlan_meals_per_day_witness :
  0 <= mealsPerDay six_meals /\
  Forall (fun day => map mealType (meals day) = slate)
         (days (fallbackPlan (Num.of_Z 2136) six_meals example_profile)).
Proof.
  split; [cbn; lia |].
  apply Forall_forall. intros day Hin.
  apply (fallbackPlan_meals_per_day (Num.of_Z 2136) six_meals example_profile);
    [cbn; lia | exact Hin].
Defined.

(** A negative number of meals is no count: [slice] then counts from the
    end of the slate, and a request for -1 meals gives days of two. *)
Lemma fallbackPlan_negative_meals :
  Forall (fun day => map mealType (meals day) = ["breakfast"; "lunch"])
         (days (fallbackPlan (Num.of_Z 2136)
                  {| dietType := "vegetarian"; cuisinePreferences := [];
                     tastePreferences := []; foodRestrictions := [];
                     mealsPerDay := -1; preferredMealTimes := [] |}
                  example_profile)).
Proof. repeat constructor. Qed.
(** The templates: every list has entries, and every entry has a name. *)
Lemma templates_for_named (mealType : string) :
  templates_for mealType <> [] /\
  Forall (fun t => t_name t <> EmptyString) (templates_for mealType).
Proof.
  unfold templates_for, mealTemplates.table. cbn [Js.lookup].
  destruct (String.eqb "snack" mealType);
    [| destruct (String.eqb "dinner" mealType);
       [| destruct (String.eqb "lunch" mealType);
          [| destruct (String.eqb "breakfast" mealType)]]];
  (split; [discriminate | repeat constructor; discriminate]).
Qed.

Lemma nth_mod_in {A : Type} (l : list A) (d : A) (i : Z) :
  l <> [] -> 0 <= i ->
  In (nth (Z.to_nat (i mod Z.of_nat (List.length l))) l d) l.
Proof.
  intros Hne Hi. apply nth_In.
  destruct l as [| a l]; [congruence |].
  pose proof (Z.mod_pos_bound i (Z.of_nat (List.length (a :: l)))) as Hb.
  cbn [List.length] in *. lia.
Qed.

Lemma in_firstn {A : Type} (n : nat) (l : list A) (x : A) :
  In x (firstn n l) -> In x l.
Proof.
  revert l. induction n as [| n IH]; intros [| a l]; cbn; try tauto.
  intros [-> | H]; [now left | right; now apply IH].
Qed.

Lemma mealTypes_recognized (preferences : Preferences) (t : string) :
  In t (slice0 (mealTypes preferences) (mealsPerDay preferences)) ->
  In t recognized.
Proof.
  unfold slice0. intros H. apply in_firstn in H. revert H.
  unfold mealTypes, recognized.
  destruct (3 <? mealsPerDay preferences), (4 <? mealsPerDay preferences);
    cbn; tauto.
Qed.

Lemma recognized_nonempty (t : string) : In t recognized -> t <> EmptyString.
Proof.
  cbn. intros [<- | [<- | [<- | [<- | []]]]]; discriminate.
Qed.

Lemma fallbackMeal_required (c : number) (preferences : Preferences)
    (dayIndex : Z) (t : string) :
  0 <= dayIndex -> In t recognized ->
  has_required_fields (ToValue.meal (fallbackMeal c preferences dayIndex t)).
Proof.
  intros Hi Ht.
  destruct (templates_for_named t) as [Hne Hnamed].
  rewrite Forall_forall in Hnamed.
  repeat split.
  - eexists. split; [reflexivity |].
    cbn [name fallbackMeal]. apply Hnamed. now apply nth_mod_in.
  - eexists. split; [reflexivity |]. now apply recognized_nonempty.
  - eexists. reflexivity.
Qed.

Lemma slice0_nonempty (preferences : Preferences) :
  1 <= mealsPerDay preferences ->
  slice0 (mealTypes preferences) (mealsPerDay preferences) <> [].
Proof.
  intros Hn. rewrite mealTypes_slate by lia.
  destruct (Z.to_nat (Z.min (mealsPerDay preferences) 5)) eqn:E; [lia |].
  discriminate.
Qed.

(** The fallback plan passes the validator as soon as one meal a day is
    asked for. *)
Lemma fallbackPlan_valid (dailyCalories : number) (preferences : Preferences)
    (userProfile : UserProfile) :
  1 <= mealsPerDay preferences ->
  validateDietPlanStructure
    (ToValue.plan (fallbackPlan dailyCalories preferences userProfile)) = true.
Proof.
  intros Hn.
  apply (validateDietPlanStructure_accepts _
           (map ToValue.day (days (fallbackPlan dailyCalories preferences userProfile))));
    [reflexivity | |].
  - rewrite length_map. cbn [days fallbackPlan]. unfold mapi.
    now rewrite mapi_from_length.
  - intros dv Hdv. apply in_map_iff in Hdv as [day [<- Hday]].
    destruct (fallbackPlan_days _ _ _ _ Hday) as [dayName [dayIndex [Hi ->]]].
    apply (valid_day_accepts _
             (map ToValue.meal
                (meals (fallbackDay dailyCalories preferences dayName dayIndex))));
      [reflexivity | |].
    + cbn [meals fallbackDay]. pose proof (slice0_nonempty preferences Hn) as Hne.
      destruct (slice0 (mealTypes preferences) (mealsPerDay preferences));
        [congruence | discriminate].
    + intros mv Hmv. apply in_map_iff in Hmv as [meal [<- Hmeal]].
      cbn [meals fallbackDay] in Hmeal.
      apply in_map_iff in Hmeal as [t [<- Ht]].
      apply has_required_fields_valid, fallbackMeal_required; [exact Hi |].
      now apply (mealTypes_recognized preferences).
Qed.

(** C8. For a numeric target and between 3 and 6 meals per day the
    fallback generator does not throw: it returns the plan it built, that
    plan passes the validator (7 days, meals in every day, the three
    required members in every meal), and so the fatal branch is not
    taken. *)
Theorem getComprehensiveFallbackDietPlan_never_fails (dailyCalories : number)
    (preferences : Preferences) (userProfile : UserProfile) :
  3 <= mealsPerDay preferences <= 6 ->
  let plan := fallbackPlan dailyCalories preferences userProfile in
  getComprehensiveFallbackDietPlan dailyCalories preferences userProfile = Ok plan /\
  validateDietPlanStructure (ToValue.plan plan) = true /\
  List.length (days plan) = 7%nat /\
  (forall day, In day (days plan) ->
     meals day <> [] /\
     forall meal, In meal (meals day) ->
       has_required_fields (ToValue.meal meal)) /\
  (forall e,
     getComprehensiveFallbackDietPlan dailyCalories preferences userProfile
     <> Throw e).
Proof.
  intros Hn plan.
  assert (Hvalid : validateDietPlanStructure (ToValue.plan plan) = true)
    by (apply fallbackPlan_valid; lia).
  assert (Hok : getComprehensiveFallbackDietPlan dailyCalories preferences
                  userProfile = Ok plan).
  { unfold getComprehensiveFallbackDietPlan. fold plan. now rewrite Hvalid. }
  split; [exact Hok |]. split; [exact Hvalid |]. split; [| split].
  - subst plan. cbn [days fallbackPlan]. unfold mapi.
    now rewrite mapi_from_length.
  - intros day Hday.
    destruct (fallbackPlan_days _ _ _ _ Hday) as [dayName [dayIndex [Hi ->]]].
    cbn [meals fallbackDay]. split.
    + pose proof (slice0_nonempty preferences ltac:(lia)) as Hne.
      destruct (slice0 (mealTypes preferences) (mealsPerDay preferences));
        [congruence | discriminate].
    + intros meal Hmeal. apply in_map_iff in Hmeal as [t [<- Ht]].
      apply fallbackMeal_required; [exact Hi |].
      now apply (mealTypes_recognized preferences).
  - intros e. rewrite Hok. discriminate.
Qed.

Lemma getComprehensiveFallbackDietPlan_never_fails_witness :
  3 <= mealsPerDay three_meals <= 6 /\
  getComprehensiveFallbackDietPlan (Num.of_Z 2136) three_meals example_profile
  = Ok (fallbackPlan (Num.of_Z 2136) three_meals example_profile).
Proof.
  assert (H : 3 <= mealsPerDay three_meals <= 6) by (cbn; lia).
  split; [exact H |].
  exact (proj1 (getComprehensiveFallbackDietPlan_never_fails
                  (Num.of_Z 2136) three_meals example_profile H)).
Defined.

(** With no meal asked for, the days are empty and the fallback generator
    throws: the fatal branch can be reached, outside the valid range. *)
Lemma getComprehensiveFallbackDietPlan_no_meals :
  getComprehensiveFallbackDietPlan (Num.of_Z 2136)
    {| dietType := "vegetarian"; cuisinePreferences := [];
       tastePreferences := []; foodRestrictions := [];
       mealsPerDay := 0; preferredMealTimes := [] |}
    example_profile
  = Throw fallback_error.
Proof. vm_compute. reflexivity. Qed.
(** ** The orchestration *)

Lemma useFallback_ok (dailyCalories : number) (request : DietPlanRequest) :
  1 <= mealsPerDay (preferences request) ->
  useFallback dailyCalories request =
    Ok (ToValue.plan (fallbackPlan dailyCalories (preferences request)
                        (userProfile request))).
Proof.
  intros Hn. unfold useFallback, getComprehensiveFallbackDietPlan.
  now rewrite fallbackPlan_valid.
Qed.

Lemma useFallback_throws (dailyCalories : number) (request : DietPlanRequest)
    (e : exn) :
  useFallback dailyCalories request = Throw e ->
  e = fallback_error /\
  getComprehensiveFallbackDietPlan dailyCalories (preferences request)
    (userProfile request) = Throw e.
Proof.
  unfold useFallback, getComprehensiveFallbackDietPlan.
  destruct (negb (validateDietPlanStructure _)); cbn [bind]; [| discriminate].
  intros [= <-]. now split.
Qed.

(** The outcome of [generateDietPlan]: the plan of the model when every
    stage went through, the fallback in every other case. *)
Lemma generateDietPlan_cases (w : World) (request : DietPlanRequest) :
  (exists text plan,
     returned (makeRequest w) = Ok text /\
     validateAndParseJson (cleanJsonResponse text) = Ok plan /\
     validateDietPlanStructure plan = true /\
     generateDietPlan w request = Ok plan) \/
  generateDietPlan w request = useFallback (dailyCalories_of request) request.
Proof.
  unfold generateDietPlan. fold (dailyCalories_of request).
  destruct (returned (makeRequest w)) as [text | e] eqn:Hreq; cbn [bind try_catch].
  - destruct (validateAndParseJson (cleanJsonResponse text)) as [plan | e] eqn:Hparse.
    + destruct (validateDietPlanStructure plan) eqn:Hvalid; cbn [negb].
      * left. now exists text, plan.
      * right. now destruct (useFallback _ _).
    + right. now destruct (useFallback _ _).
  - now right.
Qed.

(** C2. Each of the five failures, wherever it is raised, turns the call
    into the fallback generation; none of them reaches the caller.  The
    only error [generateDietPlan] lets out is the one the fallback
    generator throws when its own plan fails validation. *)
Theorem generateDietPlan_recovers (w : World) (request : DietPlanRequest) :
  (forall f, raised w f ->
     generateDietPlan w request = useFallback (dailyCalories_of request) request) /\
  (forall e, generateDietPlan w request = Throw e ->
     e = fallback_error /\
     getComprehensiveFallbackDietPlan (dailyCalories_of request)
       (preferences request) (userProfile request) = Throw e).
Proof.
  split.
  - intros f Hf.
    destruct (generateDietPlan_cases w request)
      as [[text [plan [Hreq [Hparse [Hvalid _]]]]] | Hfb]; [| exact Hfb].
    destruct f; cbn [raised] in Hf.
    + congruence.
    + congruence.
    + destruct Hf as [e [He _]]. congruence.
    + destruct Hf as [text' [e [He Hp]]]. congruence.
    + destruct Hf as [text' [plan' [He [Hp Hv]]]]. congruence.
  - intros e He.
    destruct (generateDietPlan_cases w request)
      as [[text [plan [_ [_ [_ Hok]]]]] | Hfb]; [congruence |].
    rewrite Hfb in He. now apply useFallback_throws.
Qed.

Lemma generateDietPlan_recovers_witness :
  raised placeholder_world ApiKeyMissing /\
  generateDietPlan placeholder_world example_request =
    useFallback (dailyCalories_of example_request) example_request.
Proof.
  assert (H : raised placeholder_world ApiKeyMissing) by reflexivity.
  split; [exact H |].
  exact (proj1 (generateDietPlan_recovers placeholder_world example_request)
               ApiKeyMissing H).
Defined.

(** *** The five failures do occur *)

(** Each of the five failures does occur. *)
Lemma failures_raised :
  raised placeholder_world ApiKeyMissing /\
  raised {| VITE_GEMINI_API_KEY := Some "configured-key";
            fetch := Response false 503 "overloaded" |} TransportError /\
  raised {| VITE_GEMINI_API_KEY := Some "configured-key";
            fetch := Response true 200 "{}" |} MalformedEnvelope /\
  raised (answering "Sorry, I cannot help with that.") UnparseableResponse /\
  raised (answering ("{" ++ quoted "meals" ++ ":[]}")) InvalidPlanShape.
Proof.
  split; [reflexivity |]. split; [reflexivity |]. split; [| split].
  - exists (Error "Unexpected response format: missing candidates array").
    split; vm_compute; reflexivity.
  - exists "Sorry, I cannot help with that.",
           (Error "JSON parsing failed: Unexpected token in JSON").
    split; vm_compute; reflexivity.
  - exists ("{" ++ quoted "meals" ++ ":[]}"), (VObj [("meals", VArr [])]).
    split; [| split]; vm_compute; reflexivity.
Qed.

(** *** What the returned plan looks like *)

Lemma valid_meal_checked (meal : value) :
  valid_meal meal = true -> checked_meal meal.
Proof.
  unfold valid_meal, checked_meal. intros H.
  apply Bool.negb_true_iff in H.
  repeat (apply Bool.orb_false_iff in H as [H ?]).
  repeat match goal with
         | X : negb _ = false |- _ => apply Bool.negb_false_iff in X
         end.
  repeat split; try assumption.
  destruct (Js.get meal "calories") as [[| | c | | |] |]; try discriminate.
  now exists c.
Qed.

Lemma validateDietPlanStructure_shape (plan : value) :
  validateDietPlanStructure plan = true -> validated_shape plan.
Proof.
  intros H. apply validateDietPlanStructure_inv in H as [Hlen Hdays].
  split; [exact Hlen |].
  rewrite forallb_forall in Hdays.
  intros day Hday. destruct (valid_day_inv day (Hdays day Hday)) as [Hne Hms].
  split; [exact Hne |].
  rewrite forallb_forall in Hms.
  intros meal Hmeal. apply valid_meal_checked, Hms, Hmeal.
Qed.

Lemma checked_meal_valid (meal : value) :
  checked_meal meal -> valid_meal meal = true.
Proof.
  intros [Hn [Ht [c Hc]]].
  destruct (get_some_object _ _ _ Hc) as [kvs ->].
  unfold valid_meal. now rewrite Hn, Ht, Hc.
Qed.

Lemma isArray_inv (o : option value) :
  Js.isArray o = true -> exists l, o = Some (VArr l).
Proof.
  destruct o as [[| | | | l |] |]; try discriminate. intros _. now exists l.
Qed.

(** The validator, said once and for all: it accepts exactly the objects
    whose [meals] member is an array of 7 days, each an object whose
    [meals] member is an array that is not empty, of meals with a truthy
    name, a truthy meal type and calories that are a number. *)
Lemma validateDietPlanStructure_spec (plan : value) :
  validateDietPlanStructure plan = true <->
  exists days,
    Js.get plan "meals" = Some (VArr days) /\
    List.length days = 7%nat /\
    forall day, In day days ->
      exists ms, Js.get day "meals" = Some (VArr ms) /\ ms <> [] /\
                 forall meal, In meal ms -> checked_meal meal.
Proof.
  split.
  - intros H.
    pose proof (validateDietPlanStructure_inv plan H) as [Hlen Hdays].
    unfold validateDietPlanStructure in H.
    destruct (negb (Js.truthy plan) || _); [discriminate |].
    destruct (negb (Js.truthy_opt (Js.get plan "meals")) ||
              negb (Js.isArray (Js.get plan "meals"))) eqn:E; [discriminate |].
    apply Bool.orb_false_iff in E as [_ E].
    apply Bool.negb_false_iff, isArray_inv in E as [days Hget].
    exists days. unfold plan_days in Hlen, Hdays. rewrite Hget in Hlen, Hdays.
    cbn [Js.items] in Hlen, Hdays.
    split; [exact Hget |]. split; [exact Hlen |].
    rewrite forallb_forall in Hdays.
    intros day Hday. specialize (Hdays day Hday).
    destruct (valid_day_inv day Hdays) as [Hne Hms].
    unfold valid_day in Hdays.
    destruct (negb (Js.truthy day) || negb (Js.truthy_opt (Js.get day "meals"))
              || negb (Js.isArray (Js.get day "meals"))
              || (List.length (Js.items (Js.get day "meals")) =? 0)%nat) eqn:E;
      [discriminate |].
    apply Bool.orb_false_iff in E as [E _].
    apply Bool.orb_false_iff in E as [_ E].
    apply Bool.negb_false_iff, isArray_inv in E as [ms Hm].
    exists ms. unfold day_meals in Hne, Hms. rewrite Hm in Hne, Hms.
    cbn [Js.items] in Hne, Hms.
    split; [exact Hm |]. split; [exact Hne |].
    rewrite forallb_forall in Hms.
    intros meal Hmeal. apply valid_meal_checked, Hms, Hmeal.
  - intros [days [Hget [Hlen Hdays]]].
    apply (validateDietPlanStructure_accepts plan days Hget Hlen).
    intros day Hday. destruct (Hdays day Hday) as [ms [Hm [Hne Hall]]].
    apply (valid_day_accepts day ms Hm Hne).
    intros meal Hmeal. apply checked_meal_valid, Hall, Hmeal.
Qed.

(** C1, as stated, fails on the path of the model: a plan whose meals have
    an unknown type and negative calories passes the validator and is
    returned as it is. *)
Lemma generateDietPlan_returns_odd_plan :
  ~ (forall w request,
       3 <= mealsPerDay (preferences request) <= 6 ->
       exists plan,
         generateDietPlan w request = Ok plan /\ claimed_shape plan = true).
Proof.
  intros H.
  destruct (H (answering odd_plan_text) example_request) as [plan [Hgen Hshape]];
    [cbn; lia |].
  assert (Hodd : generateDietPlan (answering odd_plan_text) example_request
                 = Ok odd_plan) by (vm_compute; reflexivity).
  rewrite Hodd in Hgen. injection Hgen as <-.
  vm_compute in Hshape. discriminate Hshape.
Qed.

(** C1, amended.  For every request that asks for at least one meal a
    day, whatever the world does, [generateDietPlan] returns a plan with
    exactly 7 days, each with at least one meal, every meal with a truthy
    name, a truthy meal type and calories that are a number.  The plan is
    either the validated answer of the model or the fallback plan; in the
    fallback plan every meal has a name with something in it, a meal type
    out of the four, and the calories [round (target / mealsPerDay)]. *)
Theorem generateDietPlan_returns_validated_plan (w : World)
    (request : DietPlanRequest) :
  1 <= mealsPerDay (preferences request) ->
  let fallback :=
    fallbackPlan (dailyCalories_of request) (preferences request)
      (userProfile request) in
  (exists plan,
     generateDietPlan w request = Ok plan /\
     validated_shape plan /\
     (plan = ToValue.plan fallback \/
      exists text, returned (makeRequest w) = Ok text /\
                   validateAndParseJson (cleanJsonResponse text) = Ok plan)) /\
  (forall day meal, In day (days fallback) -> In meal (meals day) ->
     name meal <> EmptyString /\
     In (mealType meal) recognized /\
     calories meal =
       Num.round (Num.div (dailyCalories_of request)
                    (Num.of_Z (mealsPerDay (preferences request))))).
Proof.
  intros Hn fallback. split.
  - destruct (generateDietPlan_cases w request)
      as [[text [plan [Hreq [Hparse [Hvalid Hok]]]]] | Hfb].
    + exists plan. split; [exact Hok |].
      split; [now apply validateDietPlanStructure_shape |].
      right. now exists text.
    + exists (ToValue.plan fallback). rewrite Hfb.
      split; [now apply useFallback_ok |].
      split; [| now left].
      apply validateDietPlanStructure_shape. now apply fallbackPlan_valid.
  - intros day meal Hday Hmeal.
    destruct (fallbackPlan_days _ _ _ _ Hday) as [dayName [dayIndex [Hi ->]]].
    cbn [meals fallbackDay] in Hmeal.
    apply in_map_iff in Hmeal as [t [<- Ht]].
    pose proof (mealTypes_recognized _ _ Ht) as Hrec.
    cbn [name mealType calories fallbackMeal].
    split; [| split; [exact Hrec | reflexivity]].
    destruct (templates_for_named t) as [Hne Hnamed].
    rewrite Forall_forall in Hnamed. apply Hnamed. now apply nth_mod_in.
Qed.

Lemma generateDietPlan_returns_validated_plan_witness :
  1 <= mealsPerDay (preferences example_request) /\
  exists plan,
    generateDietPlan (answering odd_plan_text) example_request = Ok plan /\
    validated_shape plan.
Proof.
  assert (H : 1 <= mealsPerDay (preferences example_request)) by (cbn; lia).
  split; [exact H |].
  destruct (proj1 (generateDietPlan_returns_validated_plan
                     (answering odd_plan_text) example_request H))
    as [plan [Hgen [Hshape _]]].
  exists plan. split; [exact Hgen | exact Hshape].
Defined.

(** ** From a missing key to the saved plan *)

(** C7, as stated, fails: the plan that comes back when the key is missing
    carries no flag of its own, and the caller saves it with
    [ai_generated] set. *)
Lemma fallback_saved_as_ai_generated :
  raised placeholder_world ApiKeyMissing /\
  exists plan,
    generateDietPlan placeholder_world example_request = Ok plan /\
    Js.get plan "aiGenerated" = None /\
    ai_generated (createDietPlan_row EmptyString plan) <> false.
Proof.
  split; [reflexivity |].
  exists (ToValue.plan (fallbackPlan (Num.of_Z 2136) three_meals example_profile)).
  split; [| split].
  - vm_compute; reflexivity.
  - reflexivity.
  - discriminate.
Qed.

(** C7, amended.  When the client throws [API_KEY_MISSING] and three meals
    a day are asked for, [generateDietPlan] returns the fallback plan: 7
    days, 3 meals in each, and a total that is the output of the caloric
    model for the profile.  The plan has no member that tells where it
    comes from. *)
Theorem generateDietPlan_without_key (w : World) (request : DietPlanRequest) :
  raised w ApiKeyMissing ->
  mealsPerDay (preferences request) = 3 ->
  let plan :=
    fallbackPlan (dailyCalories_of request) (preferences request)
      (userProfile request) in
  generateDietPlan w request = Ok (ToValue.plan plan) /\
  List.length (days plan) = 7%nat /\
  (forall day, In day (days plan) -> List.length (meals day) = 3%nat) /\
  totalCalories plan =
    calculateDailyCalories (calculateBMR (userProfile request))
      (activityLevel (userProfile request)) (goal (userProfile request)) /\
  Js.get (ToValue.plan plan) "totalCalories" = Some (VNum (totalCalories plan)) /\
  Js.get (ToValue.plan plan) "aiGenerated" = None.
Proof.
  intros Hkey Hn plan.
  split; [| split; [| split; [| split; [| split]]]].
  - unfold generateDietPlan. fold (dailyCalories_of request).
    cbn [raised] in Hkey. rewrite Hkey. cbn [bind try_catch].
    apply useFallback_ok. lia.
  - subst plan. cbn [days fallbackPlan]. unfold mapi.
    now rewrite mapi_from_length.
  - intros day Hday.
    destruct (fallbackPlan_days _ _ _ _ Hday) as [dayName [dayIndex [_ ->]]].
    cbn [meals fallbackDay]. rewrite length_map, mealTypes_slate by lia.
    rewrite Hn. reflexivity.
  - reflexivity.
  - reflexivity.
  - reflexivity.
Qed.

Lemma generateDietPlan_without_key_witness :
  raised placeholder_world ApiKeyMissing /\
  mealsPerDay (preferences example_request) = 3 /\
  generateDietPlan placeholder_world example_request =
    Ok (ToValue.plan
          (fallbackPlan (dailyCalories_of example_request)
             (preferences example_request) (userProfile example_request))).
Proof.
  assert (Hk : raised placeholder_world ApiKeyMissing) by reflexivity.
  assert (Hn : mealsPerDay (preferences example_request) = 3) by reflexivity.
  split; [exact Hk |]. split; [exact Hn |].
  exact (proj1 (generateDietPlan_without_key placeholder_world example_request
                  Hk Hn)).
Defined.

(** ** The balanced-brace extractor *)

Lemma eqb_neq (c d : ascii) : c <> d -> (c =? d)%char = false.
Proof. intros H. now apply Ascii.eqb_neq. Qed.

(** Inside a string literal nothing but the closing quote changes the
    state: braces are not counted, and an escaped quote does not close. *)
Lemma scan_literal_body (b k : string) (i d a e : Z) :
  literal_body b ->
  scan (b ++ String Str.dquote k) i (scanning d a e true) =
  scan k (i + Str.len b + 1) (scanning d a e false).
Proof.
  intros Hb. revert i.
  induction Hb as [| c s Hq Hs _ IH | c s _ IH]; intros i.
  - cbn. f_equal. unfold Str.len. cbn. lia.
  - cbn [append scan scanning escapeNext inString negb].
    rewrite (eqb_neq _ _ Hs), (eqb_neq _ _ Hq).
    fold (scanning d a e true). rewrite IH. f_equal.
    unfold Str.len. cbn [String.length]. lia.
  - cbn [append scan scanning escapeNext inString negb braceCount startIndex endIndex].
    rewrite Ascii.eqb_refl.
    fold (scanning d a e true). rewrite IH. f_equal.
    unfold Str.len. cbn [String.length]. lia.
Qed.

Lemma scan_plain (c : ascii) (k : string) (i d a e : Z) :
  plain c ->
  scan (String c k) i (scanning d a e false) =
  scan k (i + 1) (scanning d a e false).
Proof.
  intros [Hl [Hr [Hq Hs]]].
  cbn [scan scanning escapeNext inString negb].
  now rewrite (eqb_neq _ _ Hs), (eqb_neq _ _ Hq), (eqb_neq _ _ Hl),
              (eqb_neq _ _ Hr).
Qed.

Lemma scan_quote (k : string) (i d a e : Z) :
  scan (String Str.dquote k) i (scanning d a e false) =
  scan k (i + 1) (scanning d a e true).
Proof. reflexivity. Qed.

Lemma scan_open (k : string) (i d a e : Z) :
  scan (String Str.lbrace k) i (scanning d a e false) =
  scan k (i + 1) (scanning (d + 1) (if d =? 0 then i else a) e false).
Proof. reflexivity. Qed.

Lemma scan_close (k : string) (i d a e : Z) :
  scan (String Str.rbrace k) i (scanning d a e false) =
  if (d - 1 =? 0) && negb (a =? -1) then scanning (d - 1) a i false
  else scan k (i + 1) (scanning (d - 1) a e false).
Proof. reflexivity. Qed.

Lemma len_cons (c : ascii) (s : string) : Str.len (String c s) = Str.len s + 1.
Proof. unfold Str.len. cbn [String.length]. lia. Qed.

Lemma len_app (s t : string) : Str.len (s ++ t) = Str.len s + Str.len t.
Proof.
  unfold Str.len. induction s as [| c s IH]; cbn [append String.length]; lia.
Qed.

Lemma len_nonneg (s : string) : 0 <= Str.len s.
Proof. unfold Str.len. lia. Qed.

Lemma app_assoc_cons (b : string) (c : ascii) (s k : string) :
  (b ++ String c s) ++ k = b ++ String c (s ++ k).
Proof.
  induction b as [| x b IH]; cbn [append]; [reflexivity | now rewrite IH].
Qed.

(** Before the first brace the loop waits at depth zero. *)
Lemma scan_flat (s k : string) (i : Z) :
  flat s ->
  scan (s ++ k) i (scanning 0 (-1) (-1) false) =
  scan k (i + Str.len s) (scanning 0 (-1) (-1) false).
Proof.
  intros Hs. revert i.
  induction Hs as [| c s Hc _ IH | b s Hb _ IH]; intros i.
  - cbn [append]. f_equal. unfold Str.len. cbn. lia.
  - cbn [append]. rewrite (scan_plain _ _ _ _ _ _ Hc), IH, len_cons.
    f_equal. lia.
  - cbn [append]. rewrite app_assoc_cons, scan_quote.
    rewrite (scan_literal_body _ _ _ _ _ _ Hb), IH.
    rewrite len_cons, len_app, len_cons. f_equal. lia.
Qed.

(** Inside an object, balanced text brings the loop back to the depth it
    started from and never ends it. *)
Lemma scan_balanced (s k : string) (i d a e : Z) :
  balanced s -> 1 <= d ->
  scan (s ++ k) i (scanning d a e false) =
  scan k (i + Str.len s) (scanning d a e false).
Proof.
  intros Hs. revert k i d.
  induction Hs as [| c s Hc _ IH | b s Hb _ IH | inner s _ IHi _ IHs];
    intros k i d Hd.
  - cbn [append]. f_equal. unfold Str.len. cbn. lia.
  - cbn [append]. rewrite (scan_plain _ _ _ _ _ _ Hc). rewrite IH by lia. rewrite len_cons.
    f_equal. lia.
  - cbn [append]. rewrite app_assoc_cons, scan_quote.
    rewrite (scan_literal_body _ _ _ _ _ _ Hb), IH by lia.
    rewrite len_cons, len_app, len_cons. f_equal. lia.
  - cbn [append]. rewrite app_assoc_cons, scan_open.
    replace (d =? 0) with false by (symmetry; apply Z.eqb_neq; lia).
    rewrite IHi, scan_close by lia.
    replace (d + 1 - 1 =? 0) with false by (symmetry; apply Z.eqb_neq; lia).
    cbn [andb].
    replace (d + 1 - 1) with d by lia.
    rewrite IHs by lia.
    rewrite len_cons, len_app, len_cons. f_equal. lia.
Qed.

(** The state in which the loop stops on an object that follows flat
    text. *)
Lemma scan_first_object (pre inner post : string) :
  flat pre -> balanced inner ->
  scan (pre ++ String Str.lbrace (inner ++ String Str.rbrace post)) 0 scan_init =
  scanning 0 (Str.len pre) (Str.len pre + Str.len inner + 1) false.
Proof.
  intros Hpre Hinner.
  change scan_init with (scanning 0 (-1) (-1) false).
  rewrite (scan_flat _ _ _ Hpre), scan_open.
  cbn [Z.eqb].
  rewrite (scan_balanced _ _ _ _ _ _ Hinner), scan_close by lia.
  pose proof (len_nonneg pre).
  replace (0 + 1 - 1 =? 0) with true by reflexivity.
  replace (0 + Str.len pre =? -1) with false by (symmetry; apply Z.eqb_neq; lia).
  cbn [andb negb]. unfold scanning. f_equal; lia.
Qed.

Lemma drop_app (s t : string) : Str.drop (String.length s) (s ++ t) = t.
Proof. induction s as [| c s IH]; [now destruct t | exact IH]. Qed.

Lemma take_app (s t : string) : Str.take (String.length s) (s ++ t) = s.
Proof.
  induction s as [| c s IH]; cbn [String.length Str.take append];
    [reflexivity | now rewrite IH].
Qed.

(** Cutting the middle out of a string by its two indices. *)
Lemma substring_middle (pre mid post : string) :
  Str.substring (pre ++ mid ++ post) (Str.len pre) (Str.len pre + Str.len mid)
  = mid.
Proof.
  unfold Str.substring, Str.clamp. rewrite !len_app.
  pose proof (len_nonneg pre). pose proof (len_nonneg mid).
  pose proof (len_nonneg post).
  replace (Z.min (Z.max (Str.len pre) 0) (Str.len pre + (Str.len mid + Str.len post)))
    with (Str.len pre) by lia.
  replace (Z.min (Z.max (Str.len pre + Str.len mid) 0)
             (Str.len pre + (Str.len mid + Str.len post)))
    with (Str.len pre + Str.len mid) by lia.
  replace (Z.min (Str.len pre) (Str.len pre + Str.len mid)) with (Str.len pre) by lia.
  replace (Z.max (Str.len pre) (Str.len pre + Str.len mid))
    with (Str.len pre + Str.len mid) by lia.
  replace (Str.len pre + Str.len mid - Str.len pre) with (Str.len mid) by lia.
  unfold Str.len. rewrite !Nat2Z.id.
  now rewrite drop_app, take_app.
Qed.

(** C5.  The extractor goes through the text character by character,
    with a quote state and an escape flag, so that a brace inside a quoted
    string, also after an escaped quote, does not move the depth counter:
    when the text before the first top-level brace has no brace outside
    its string literals and the inside of the object is balanced, the
    result is the span from that brace to the brace that matches it,
    whatever follows. *)
Theorem extractJsonFromText_first_object (pre inner post : string) :
  flat pre -> balanced inner ->
  extractJsonFromText
    (pre ++ String Str.lbrace (inner ++ String Str.rbrace post))
  = String Str.lbrace (inner ++ Str.of_char Str.rbrace).
Proof.
  intros Hpre Hinner. unfold extractJsonFromText.
  rewrite (scan_first_object pre inner post Hpre Hinner).
  cbn [scanning startIndex endIndex].
  pose proof (len_nonneg pre). pose proof (len_nonneg inner).
  replace (Str.len pre =? -1) with false by (symmetry; apply Z.eqb_neq; lia).
  replace (Str.len pre + Str.len inner + 1 =? -1) with false
    by (symmetry; apply Z.eqb_neq; lia).
  cbn [negb andb].
  pose proof (substring_middle pre
                (String Str.lbrace (inner ++ Str.of_char Str.rbrace)) post) as Hcut.
  rewrite len_cons, len_app in Hcut.
  change (Str.len (Str.of_char Str.rbrace)) with 1 in Hcut.
  replace (Str.len pre + (Str.len inner + 1 + 1))
    with (Str.len pre + Str.len inner + 1 + 1) in Hcut by lia.
  unfold Str.of_char in Hcut |- *.
  cbn [append] in Hcut. rewrite app_assoc_cons in Hcut.
  exact Hcut.
Qed.

Lemma example_prefix_flat : flat "prefix ".
Proof. plain_chars. Qed.

Lemma example_inner_balanced : balanced example_inner.
Proof.
  eapply (bal_literal "a"); [plain_chars |]. plain_chars.
  eapply (bal_object (quoted "b" ++ ": " ++ quoted "}")).
  - eapply (bal_literal "b"); [plain_chars |]. plain_chars.
    eapply (bal_literal "}"); [plain_chars |]. plain_chars.
  - plain_chars.
    eapply (bal_literal "c"); [plain_chars |]. plain_chars.
Qed.

Lemma extractJsonFromText_first_object_witness :
  flat "prefix " /\ balanced example_inner /\
  extractJsonFromText example_text =
    "{" ++ quoted "a" ++ ": {" ++ quoted "b" ++ ": " ++ quoted "}" ++ "}, "
        ++ quoted "c" ++ ": 1}".
Proof.
  split; [exact example_prefix_flat |]. split; [exact example_inner_balanced |].
  exact (extractJsonFromText_first_object "prefix " example_inner " suffix"
           example_prefix_flat example_inner_balanced).
Defined.

(** A quote after a backslash does not close the literal: the brace that
    follows it is still inside, and the object ends where it should. *)
Lemma extractJsonFromText_escaped_quote :
  extractJsonFromText
    ("note: {" ++ quoted "a" ++ ": "
       ++ String Str.dquote ("x\" ++ quoted "}" ++ "} tail"))
  = "{" ++ quoted "a" ++ ": " ++ String Str.dquote ("x\" ++ quoted "}" ++ "}").
Proof. vm_compute. reflexivity. Qed.
(** ** Repair and retry *)

Lemma count_nonneg (c : ascii) (s : string) : 0 <= Str.count c s.
Proof.
  induction s as [| a s IH]; cbn [Str.count]; [lia |].
  destruct (a =? c)%char; lia.
Qed.

Lemma count_app (c : ascii) (s t : string) :
  Str.count c (s ++ t) = Str.count c s + Str.count c t.
Proof.
  induction s as [| a s IH]; cbn [append Str.count]; [lia | rewrite IH; lia].
Qed.

Lemma count_repeat_other (c d : ascii) (n : nat) :
  d <> c -> Str.count c (Str.repeat_nat d n) = 0.
Proof.
  intros Hne. induction n as [| n IH]; [reflexivity |].
  cbn [Str.repeat_nat Str.count]. now rewrite (eqb_neq _ _ Hne), IH.
Qed.

Lemma app_empty_r (s : string) : s ++ EmptyString = s.
Proof. induction s as [| c s IH]; cbn [append]; [reflexivity | now rewrite IH]. Qed.

Lemma last_char_app (s : string) (c : ascii) :
  Str.last_char (s ++ String c EmptyString) = Some c.
Proof.
  induction s as [| a s IH]; [reflexivity |].
  cbn [append]. destruct s as [| b s]; [reflexivity | exact IH].
Qed.

Lemma endsWith_split (s : string) (c : ascii) :
  Str.endsWith s c = true -> exists s', s = s' ++ String c EmptyString.
Proof.
  unfold Str.endsWith.
  induction s as [| a s IH]; [discriminate |].
  destruct s as [| b s].
  - cbn. intros H. apply Ascii.eqb_eq in H. subst a. now exists EmptyString.
  - intros H. destruct (IH H) as [s' Hs']. exists (String a s').
    cbn [append]. now rewrite <- Hs'.
Qed.

Lemma last_index_from_absent (c : ascii) (s : string) (i found : Z) :
  Str.count c s = 0 -> Str.last_index_from c s i found = found.
Proof.
  revert i found. induction s as [| a s IH]; intros i found; [reflexivity |].
  cbn [Str.count Str.last_index_from].
  pose proof (count_nonneg c s) as Hpos.
  destruct (a =? c)%char; [lia |]. intros H. apply IH. lia.
Qed.

Lemma last_index_from_app (c : ascii) (s t : string) (i found : Z) :
  Str.last_index_from c (s ++ t) i found =
  Str.last_index_from c t (i + Str.len s) (Str.last_index_from c s i found).
Proof.
  revert i found. induction s as [| a s IH]; intros i found.
  - cbn [append Str.last_index_from]. f_equal. unfold Str.len. cbn. lia.
  - cbn [append Str.last_index_from]. rewrite IH, len_cons. f_equal. lia.
Qed.

Lemma length_app (s t : string) :
  String.length (s ++ t) = (String.length s + String.length t)%nat.
Proof. induction s as [| a s IH]; cbn [append String.length]; [reflexivity | now rewrite IH]. Qed.

Lemma drop_last_app (s : string) (c : ascii) :
  Str.drop_last (s ++ String c EmptyString) = s.
Proof.
  unfold Str.drop_last. rewrite length_app. cbn [String.length].
  replace (Nat.pred (String.length s + 1)) with (String.length s) by lia.
  apply take_app.
Qed.

Lemma startsWith_app (s t : string) (c : ascii) :
  Str.startsWith s (String c EmptyString) = true ->
  Str.startsWith (s ++ t) (String c EmptyString) = true.
Proof.
  unfold Str.startsWith. destruct s as [| a s]; [discriminate |].
  cbn. destruct (ascii_dec c a); [| discriminate]. intros _.
  now destruct (s ++ t).
Qed.

Lemma substring_prefix (s t : string) :
  Str.substring (s ++ t) 0 (Str.len s) = s.
Proof.
  pose proof (substring_middle EmptyString s t) as H.
  cbn [append] in H. change (Str.len EmptyString) with 0 in H.
  now rewrite Z.add_0_l in H.
Qed.

(** Cutting a string at the last brace, when nothing but a comma comes
    after it or when there is none, and dropping the comma, gives the text
    before the comma. *)
Lemma trim_trailing_comma (body : string) :
  Str.endsWith body Str.rbrace = true \/ Str.count Str.rbrace body = 0 ->
  let fixedJson := body ++ "," in
  let fixedJson :=
    if negb (Str.endsWith fixedJson Str.rbrace) then
      let lastBrace := Str.lastIndexOf fixedJson Str.rbrace in
      if negb (lastBrace =? -1) then Str.substring fixedJson 0 (lastBrace + 1)
      else fixedJson
    else fixedJson in
  (if Str.endsWith fixedJson Str.comma then Str.drop_last fixedJson
   else fixedJson) = body.
Proof.
  intros Hbody. cbn zeta.
  assert (Hend : Str.endsWith (body ++ ",") Str.rbrace = false).
  { unfold Str.endsWith. now rewrite (last_char_app body ","). }
  rewrite Hend. cbn [negb].
  destruct Hbody as [Hlast | Hnone].
  - assert (Hidx : Str.lastIndexOf (body ++ ",") Str.rbrace = Str.len body - 1).
    { destruct (endsWith_split _ _ Hlast) as [b' ->].
      unfold Str.lastIndexOf. rewrite !last_index_from_app.
      cbn [Str.last_index_from]. rewrite Ascii.eqb_refl.
      change (("," =? Str.rbrace)%char) with false. cbn iota.
      rewrite len_app. change (Str.len (String Str.rbrace "")) with 1. lia. }
    rewrite Hidx. pose proof (len_nonneg body) as Hpos.
    replace (Str.len body - 1 =? -1) with false.
    2:{ symmetry. apply Z.eqb_neq. destruct body; [discriminate Hlast |].
        rewrite len_cons. pose proof (len_nonneg body). lia. }
    cbn [negb]. replace (Str.len body - 1 + 1) with (Str.len body) by lia.
    rewrite substring_prefix.
    destruct (endsWith_split _ _ Hlast) as [b' ->].
    unfold Str.endsWith at 1. now rewrite (last_char_app b' Str.rbrace).
  - unfold Str.lastIndexOf.
    rewrite last_index_from_absent
      by (rewrite count_app; rewrite Hnone; reflexivity).
    change (negb (-1 =? -1)) with false. cbn iota.
    unfold Str.endsWith. rewrite (last_char_app body ",").
    change (("," =? Str.comma)%char) with true. cbn iota.
    apply (drop_last_app body ",").
Qed.

(** What the repairs make of a text cut short after a comma. *)
Lemma fixJson_truncated (body : string) (k : Z) :
  Str.startsWith body "{" = true ->
  Str.endsWith body Str.rbrace = true \/ Str.count Str.rbrace body = 0 ->
  0 <= k ->
  Str.count Str.lbrace body = Str.count Str.rbrace body + k ->
  Str.count Str.lbracket body <= Str.count Str.rbracket body ->
  fixJson (body ++ ",") = body ++ Str.repeat Str.rbrace k.
Proof.
  intros Hstart Hbody Hk Hbraces Hbrackets.
  unfold fixJson. cbn zeta.
  rewrite (startsWith_app body "," "{"%char Hstart). cbn [negb].
  pose proof (trim_trailing_comma body Hbody) as Htrim. cbn zeta in Htrim.
  rewrite Htrim.
  assert (Hfix :
            (if Str.count Str.rbrace body <? Str.count Str.lbrace body
             then body ++ Str.repeat Str.rbrace
                            (Str.count Str.lbrace body - Str.count Str.rbrace body)
             else body) = body ++ Str.repeat Str.rbrace k).
  { destruct (Z.ltb_spec (Str.count Str.rbrace body) (Str.count Str.lbrace body)).
    - f_equal. f_equal. lia.
    - replace k with 0 by lia. cbn. now rewrite app_empty_r. }
  rewrite Hfix.
  rewrite !count_app. unfold Str.repeat.
  rewrite !count_repeat_other by discriminate.
  destruct (Z.ltb_spec (Str.count Str.rbracket body + 0)
                       (Str.count Str.lbracket body + 0)); [lia | reflexivity].
Qed.

(** *** A text that ends with a comma is not JSON *)

Lemma keeps_refl (s : string) : keeps s s.
Proof. now intros H. Qed.

Lemma keeps_trans (s t u : string) : keeps s t -> keeps t u -> keeps s u.
Proof. unfold keeps. tauto. Qed.

Lemma ends_comma_tail (c : ascii) (r : string) :
  ends_comma (String c r) -> r <> EmptyString -> ends_comma r.
Proof.
  unfold ends_comma. destruct r as [| d r]; [congruence |]. now cbn.
Qed.

Lemma keeps_tail (c : ascii) (r : string) :
  c <> ","%char -> keeps (String c r) r.
Proof.
  intros Hc H. apply (ends_comma_tail c r H).
  intros ->. unfold ends_comma in H. cbn in H. congruence.
Qed.

Lemma keeps_drop (lit s : string) :
  String.prefix lit s = true ->
  Forall (fun c => c <> ","%char) (list_ascii_of_string lit) ->
  keeps s (Str.drop (String.length lit) s).
Proof.
  revert s. induction lit as [| c lit IH]; intros s Hp Hall.
  - apply keeps_refl.
  - destruct s as [| d s]; [discriminate |].
    cbn in Hp. destruct (ascii_dec c d) as [<- |]; [| discriminate].
    cbn in Hall. inversion Hall as [| ? ? Hc Hrest]; subst.
    cbn [String.length Str.drop].
    apply (keeps_trans _ s); [now apply keeps_tail | now apply IH].
Qed.

Lemma skip_ws_keeps (s : string) : keeps s (JSON.skip_ws s).
Proof.
  induction s as [| c r IH]; [apply keeps_refl |].
  cbn [JSON.skip_ws]. destruct (JSON.is_ws c) eqn:E; [| apply keeps_refl].
  apply (keeps_trans _ r); [| exact IH].
  apply keeps_tail. intros ->. discriminate E.
Qed.

Lemma digit_not_comma (c : ascii) (d : Z) :
  JSON.digit_of c = Some d -> c <> ","%char.
Proof. intros H ->. discriminate H. Qed.

Lemma take_digits_keeps (s : string) (acc : Z) (cnt : nat) :
  keeps s (snd (JSON.take_digits s acc cnt)).
Proof.
  revert acc cnt. induction s as [| c r IH]; intros acc cnt;
    [apply keeps_refl |].
  cbn [JSON.take_digits]. destruct (JSON.digit_of c) as [d |] eqn:E;
    [| apply keeps_refl].
  apply (keeps_trans _ r); [| apply IH].
  apply keeps_tail, (digit_not_comma c d E).
Qed.

Lemma parse_int_keeps (s : string) (n : Z) (rest : string) :
  JSON.parse_int s = JSON.POk n rest -> keeps s rest.
Proof.
  unfold JSON.parse_int. destruct s as [| c r]; [discriminate |].
  destruct (JSON.digit_of c) as [d |] eqn:E; [| discriminate].
  destruct d.
  - intros [= _ <-]. apply keeps_tail, (digit_not_comma c 0 E).
  - pose proof (take_digits_keeps (String c r) 0 0) as H.
    destruct (JSON.take_digits (String c r) 0 0) as [[m cnt] rest'].
    intros [= _ <-]. exact H.
  - pose proof (take_digits_keeps (String c r) 0 0) as H.
    destruct (JSON.take_digits (String c r) 0 0) as [[m cnt] rest'].
    intros [= _ <-]. exact H.
Qed.

Lemma parse_frac_keeps (s : string) (f : Z * nat) (rest : string) :
  JSON.parse_frac s = JSON.POk f rest -> keeps s rest.
Proof.
  unfold JSON.parse_frac. destruct s as [| c r].
  - intros [= _ <-]. apply keeps_refl.
  - destruct (Ascii.eqb_spec c "."%char) as [-> | Hne].
    + pose proof (take_digits_keeps r 0 0) as H.
      destruct (JSON.take_digits r 0 0) as [[m cnt] rest'].
      destruct cnt; [discriminate |]. intros [= _ <-].
      apply (keeps_trans _ r); [apply keeps_tail; discriminate | exact H].
    + intros [= _ <-]. apply keeps_refl.
Qed.

Lemma parse_exp_digits_keeps (negative : bool) (s : string) (e : Z)
    (rest : string) :
  JSON.parse_exp_digits negative s = JSON.POk e rest -> keeps s rest.
Proof.
  unfold JSON.parse_exp_digits.
  pose proof (take_digits_keeps s 0 0) as H.
  destruct (JSON.take_digits s 0 0) as [[m cnt] rest'].
  destruct cnt; [discriminate |]. intros [= _ <-]. exact H.
Qed.

Lemma parse_exp_keeps (s : string) (e : Z) (rest : string) :
  JSON.parse_exp s = JSON.POk e rest -> keeps s rest.
Proof.
  unfold JSON.parse_exp. destruct s as [| c r].
  - intros [= _ <-]. apply keeps_refl.
  - destruct ((c =? "e")%char || (c =? "E")%char) eqn:Ec.
    + assert (Hc : c <> ","%char) by (intros ->; discriminate Ec).
      destruct r as [| d r'].
      * intros H. apply parse_exp_digits_keeps in H.
        apply (keeps_trans _ EmptyString); [now apply keeps_tail | exact H].
      * destruct (Ascii.eqb_spec d "+"%char) as [-> | _];
          [| destruct (Ascii.eqb_spec d "-"%char) as [-> | _]];
          intros H; apply parse_exp_digits_keeps in H.
        -- apply (keeps_trans _ (String "+" r')); [now apply keeps_tail |].
           apply (keeps_trans _ r'); [apply keeps_tail; discriminate | exact H].
        -- apply (keeps_trans _ (String "-" r')); [now apply keeps_tail |].
           apply (keeps_trans _ r'); [apply keeps_tail; discriminate | exact H].
        -- apply (keeps_trans _ (String d r')); [now apply keeps_tail | exact H].
    + intros [= _ <-]. apply keeps_refl.
Qed.

Lemma parse_number_keeps (s : string) (x : Q) (rest : string) :
  JSON.parse_number s = JSON.POk x rest -> keeps s rest.
Proof.
  unfold JSON.parse_number.
  set (split := match s with
                | EmptyString => (false, s)
                | String c r => if (c =? "-")%char then (true, r) else (false, s)
                end).
  assert (Hsplit : keeps s (snd split)).
  { subst split. destruct s as [| c r]; [apply keeps_refl |].
    destruct (Ascii.eqb_spec c "-"%char) as [-> | _]; [| apply keeps_refl].
    apply keeps_tail. discriminate. }
  destruct split as [negative s1]. cbn [snd] in Hsplit.
  destruct (JSON.parse_int s1) as [i s2 |] eqn:Ei; [| discriminate].
  destruct (JSON.parse_frac s2) as [[f cnt] s3 |] eqn:Ef; [| discriminate].
  destruct (JSON.parse_exp s3) as [e s4 |] eqn:Ee; [| discriminate].
  intros [= _ <-].
  apply (keeps_trans _ s1); [exact Hsplit |].
  apply (keeps_trans _ s2); [exact (parse_int_keeps _ _ _ Ei) |].
  apply (keeps_trans _ s3); [exact (parse_frac_keeps _ _ _ Ef) |].
  exact (parse_exp_keeps _ _ _ Ee).
Qed.

Lemma pmap_ok {A B : Type} (f : A -> B) (r : JSON.presult A) (b : B)
    (rest : string) :
  JSON.pmap f r = JSON.POk b rest -> exists a, r = JSON.POk a rest.
Proof.
  destruct r as [a rest' | m]; [| discriminate].
  intros [= _ <-]. now exists a.
Qed.

Lemma closes_cons (c : ascii) (s rest : string) :
  (exists pre, s = pre ++ String Str.dquote rest) ->
  exists pre, String c s = pre ++ String Str.dquote rest.
Proof. intros [pre ->]. now exists (String c pre). Qed.

(** A string literal that is read to its end leaves what follows its
    closing quote. *)
Lemma parse_chars_closes (n : nat) (s : string) (a rest : string) :
  (String.length s <= n)%nat ->
  JSON.parse_chars s = JSON.POk a rest ->
  exists pre, s = pre ++ String Str.dquote rest.
Proof.
  revert s a rest. induction n as [| n IH]; intros s a rest Hlen.
  - destruct s; [discriminate | cbn in Hlen; lia].
  - destruct s as [| c r]; [discriminate |].
    cbn [JSON.parse_chars].
    destruct (Ascii.eqb_spec c Str.dquote) as [-> | _].
    { intros [= _ <-]. now exists EmptyString. }
    intros H.
    repeat match type of H with
           | (if ?b then _ else _) = _ => destruct b
           | match ?x with _ => _ end = _ => destruct x
           end;
      try discriminate H;
      apply pmap_ok in H as [a' H];
      (apply IH in H;
       [repeat apply closes_cons; exact H
       | cbn [String.length] in Hlen |- *; lia]).
Qed.

Lemma last_char_closes (pre rest : string) (c : ascii) :
  c <> ","%char ->
  ends_comma (pre ++ String c rest) -> ends_comma rest.
Proof.
  intros Hc. unfold ends_comma.
  induction pre as [| a pre IH]; cbn [append].
  - destruct rest as [| d rest]; [cbn; congruence | now cbn].
  - destruct (pre ++ String c rest) eqn:E; [now destruct pre |]. exact IH.
Qed.

Lemma parse_chars_keeps (s a rest : string) :
  JSON.parse_chars s = JSON.POk a rest -> keeps s rest.
Proof.
  intros H.
  destruct (parse_chars_closes (String.length s) s a rest (le_n _) H) as [pre ->].
  intros Hc.
  apply (last_char_closes pre rest Str.dquote); [discriminate | exact Hc].
Qed.

Lemma expect_keeps (lit : string) (v w : value) (s rest : string) :
  Forall (fun c => c <> ","%char) (list_ascii_of_string lit) ->
  JSON.expect lit v s = JSON.POk w rest -> keeps s rest.
Proof.
  intros Hlit. unfold JSON.expect.
  destruct (String.prefix lit s) eqn:E; [| discriminate].
  intros [= _ <-]. now apply keeps_drop.
Qed.

Lemma parse_elements_empty (fuel : nat) (v : list value) (rest : string) :
  JSON.parse_elements fuel EmptyString <> JSON.POk v rest.
Proof. destruct fuel as [| [| fuel]]; discriminate. Qed.

Lemma parse_members_empty (fuel : nat) (v : list (string * value))
    (rest : string) :
  JSON.parse_members fuel EmptyString <> JSON.POk v rest.
Proof. destruct fuel; discriminate. Qed.

(** The three mutually recursive readers keep the final comma. *)
Lemma parse_value_keeps_all (fuel : nat) :
  (forall s v rest, JSON.parse_value fuel s = JSON.POk v rest -> keeps s rest) /\
  (forall s v rest, JSON.parse_elements fuel s = JSON.POk v rest -> keeps s rest) /\
  (forall s v rest, JSON.parse_members fuel s = JSON.POk v rest -> keeps s rest).
Proof.
  induction fuel as [| fuel [IHv [IHe IHm]]];
    [repeat split; intros; discriminate |].
  repeat split; intros s v rest H.
  - cbn [JSON.parse_value] in H.
    pose proof (skip_ws_keeps s) as Hws.
    destruct (JSON.skip_ws s) as [| c r] eqn:Es; [discriminate |].
    apply (keeps_trans _ (String c r)); [exact Hws |]. clear Hws Es s.
    destruct (Ascii.eqb_spec c Str.lbrace) as [-> | _].
    { pose proof (skip_ws_keeps r) as Hws.
      destruct (JSON.skip_ws r) as [| d r'] eqn:Er; [discriminate |].
      apply (keeps_trans _ r); [apply keeps_tail; discriminate |].
      apply (keeps_trans _ (String d r')); [exact Hws |].
      destruct (Ascii.eqb_spec d Str.rbrace) as [-> | _].
      - injection H as _ <-. apply keeps_tail. discriminate.
      - apply pmap_ok in H as [ms H]. exact (IHm _ _ _ H). }
    destruct (Ascii.eqb_spec c Str.lbracket) as [-> | _].
    { pose proof (skip_ws_keeps r) as Hws.
      destruct (JSON.skip_ws r) as [| d r'] eqn:Er; [discriminate |].
      apply (keeps_trans _ r); [apply keeps_tail; discriminate |].
      apply (keeps_trans _ (String d r')); [exact Hws |].
      destruct (Ascii.eqb_spec d Str.rbracket) as [-> | _].
      - injection H as _ <-. apply keeps_tail. discriminate.
      - apply pmap_ok in H as [es H]. exact (IHe _ _ _ H). }
    destruct (Ascii.eqb_spec c Str.dquote) as [-> | _].
    { apply pmap_ok in H as [k H].
      apply (keeps_trans _ r); [apply keeps_tail; discriminate |].
      exact (parse_chars_keeps _ _ _ H). }
    destruct (Ascii.eqb_spec c "t"%char) as [-> | _].
    { eapply (expect_keeps "true"); [cbn; repeat constructor; discriminate |].
      exact H. }
    destruct (Ascii.eqb_spec c "f"%char) as [-> | _].
    { eapply (expect_keeps "false"); [cbn; repeat constructor; discriminate |].
      exact H. }
    destruct (Ascii.eqb_spec c "n"%char) as [-> | _].
    { eapply (expect_keeps "null"); [cbn; repeat constructor; discriminate |].
      exact H. }
    apply pmap_ok in H as [x H]. exact (parse_number_keeps _ _ _ H).
  - cbn [JSON.parse_elements] in H.
    destruct (JSON.parse_value fuel s) as [x rest1 |] eqn:Ev; [| discriminate].
    apply (keeps_trans _ rest1); [exact (IHv _ _ _ Ev) |].
    pose proof (skip_ws_keeps rest1) as Hws.
    destruct (JSON.skip_ws rest1) as [| c r] eqn:Er; [discriminate |].
    apply (keeps_trans _ (String c r)); [exact Hws |].
    destruct (Ascii.eqb_spec c Str.comma) as [-> | _].
    { apply pmap_ok in H as [es H]. intros Hc.
      apply (IHe _ _ _ H). apply (ends_comma_tail _ _ Hc).
      intros ->. exact (parse_elements_empty _ _ _ H). }
    destruct (Ascii.eqb_spec c Str.rbracket) as [-> | _]; [| discriminate].
    injection H as _ <-. apply keeps_tail. discriminate.
  - cbn [JSON.parse_members] in H.
    pose proof (skip_ws_keeps s) as Hws.
    destruct (JSON.skip_ws s) as [| c r] eqn:Es; [discriminate |].
    apply (keeps_trans _ (String c r)); [exact Hws |]. clear Hws Es s.
    destruct (Ascii.eqb_spec c Str.dquote) as [-> | _]; [| discriminate].
    apply (keeps_trans _ r); [apply keeps_tail; discriminate |].
    destruct (JSON.parse_chars r) as [k rest0 |] eqn:Ek; [| discriminate].
    apply (keeps_trans _ rest0); [exact (parse_chars_keeps _ _ _ Ek) |].
    pose proof (skip_ws_keeps rest0) as Hws.
    destruct (JSON.skip_ws rest0) as [| d r1] eqn:E0; [discriminate |].
    apply (keeps_trans _ (String d r1)); [exact Hws |].
    destruct (Ascii.eqb_spec d ":"%char) as [-> | _]; [| discriminate].
    apply (keeps_trans _ r1); [apply keeps_tail; discriminate |].
    destruct (JSON.parse_value fuel r1) as [x rest1 |] eqn:Ev; [| discriminate].
    apply (keeps_trans _ rest1); [exact (IHv _ _ _ Ev) |].
    pose proof (skip_ws_keeps rest1) as Hws1.
    destruct (JSON.skip_ws rest1) as [| e r2] eqn:E1; [discriminate |].
    apply (keeps_trans _ (String e r2)); [exact Hws1 |].
    destruct (Ascii.eqb_spec e Str.comma) as [-> | _].
    { apply pmap_ok in H as [ms H]. intros Hc.
      apply (IHm _ _ _ H). apply (ends_comma_tail _ _ Hc).
      intros ->. exact (parse_members_empty _ _ _ H). }
    destruct (Ascii.eqb_spec e Str.rbrace) as [-> | _]; [| discriminate].
    injection H as _ <-. apply keeps_tail. discriminate.
Qed.

(** [JSON.parse] rejects every text that ends with a comma. *)
Lemma parse_trailing_comma (s : string) :
  exists m, JSON.parse (s ++ ",") = Throw (SyntaxError m).
Proof.
  unfold JSON.parse.
  destruct (JSON.parse_value _ (s ++ ",")) as [v rest | m] eqn:E;
    [| now exists m].
  destruct (parse_value_keeps_all (2 * String.length (s ++ ",") + 2)) as [Hv _].
  assert (Hc : ends_comma (JSON.skip_ws rest)).
  { apply skip_ws_keeps, (Hv _ _ _ E). unfold ends_comma. apply last_char_app. }
  destruct (JSON.skip_ws rest); [discriminate Hc |].
  eexists. reflexivity.
Qed.

(** A text that starts with a brace parses to an object or not at all. *)
Lemma parse_object (r : string) (v : value) :
  JSON.parse (String Str.lbrace r) = Ok v -> exists members, v = VObj members.
Proof.
  unfold JSON.parse.
  replace (2 * String.length (String Str.lbrace r) + 2)%nat
    with (S (2 * String.length r + 3))%nat by (cbn [String.length]; lia).
  cbn [JSON.parse_value JSON.skip_ws].
  change (JSON.is_ws Str.lbrace) with false. cbn iota.
  rewrite Ascii.eqb_refl.
  destruct (JSON.skip_ws r) as [| d r']; [discriminate |].
  destruct (d =? Str.rbrace)%char.
  - destruct (Str.is_empty (JSON.skip_ws r')); [| discriminate].
    intros [= <-]. now eexists.
  - destruct (JSON.parse_members _ _) as [ms rest |]; cbn [JSON.pmap];
      [| discriminate].
    destruct (Str.is_empty (JSON.skip_ws rest)); [| discriminate].
    intros [= <-]. now eexists.
Qed.

Lemma parse_and_log_object (r : string) (v : value) :
  JSON.parse (String Str.lbrace r) = Ok v ->
  parse_and_log (String Str.lbrace r) = Ok v.
Proof.
  intros H. unfold parse_and_log. rewrite H. cbn [bind].
  now destruct (parse_object r v H) as [members ->].
Qed.

Lemma parse_and_log_trailing_comma (s : string) :
  exists m, parse_and_log (s ++ ",") = Throw (SyntaxError m).
Proof.
  destruct (parse_trailing_comma s) as [m H]. exists m.
  unfold parse_and_log. now rewrite H.
Qed.

(** The error of [validateAndParseJson] is the error of the first
    attempt, whatever the second one failed with. *)
Lemma validateAndParseJson_error (s : string) (e : exn) :
  validateAndParseJson s = Throw e ->
  exists d, parse_and_log s = Throw d /\
            e = Error ("JSON parsing failed: " ++ message d).
Proof.
  unfold validateAndParseJson.
  destruct (parse_and_log s) as [v | d]; cbn [try_catch]; [discriminate |].
  destruct (parse_and_log (fixJson s)); cbn [try_catch]; [discriminate |].
  intros [= <-]. now exists d.
Qed.

(** C6, as stated, fails: with two closing braces missing and a trailing
    comma, the repair cuts the text back to its last closing brace, so the
    member that was being written is lost, and the object that comes out
    is not the one of the well-formed text. *)
Lemma validateAndParseJson_loses_member :
  ~ (forall body k v,
       0 <= k <= 2 ->
       JSON.parse (body ++ Str.repeat Str.rbrace k) = Ok v ->
       validateAndParseJson (body ++ ",") = Ok v).
Proof.
  intros H.
  specialize (H cut_after_object 2
                (VObj [("a", VObj [("x", VObj []); ("b", VNum (Fin 1))])])
                ltac:(lia) ltac:(vm_compute; reflexivity)).
  vm_compute in H. discriminate H.
Qed.

(** The repair counts characters, not structure: a brace inside a string
    literal counts as an opening brace.  On a text that lacks one closing
    brace and holds a brace in a literal, two braces are appended and
    both attempts fail. *)
Lemma validateAndParseJson_counts_literals :
  JSON.parse (brace_in_literal ++ "}") =
    Ok (VObj [("a", VStr "{"); ("b", VObj [("c", VNum (Fin 1))])]) /\
  fixJson (brace_in_literal ++ ",") = brace_in_literal ++ "}}" /\
  exists e, validateAndParseJson (brace_in_literal ++ ",") = Throw e.
Proof.
  split; [vm_compute; reflexivity |]. split; [vm_compute; reflexivity |].
  eexists (Error _). vm_compute. reflexivity.
Qed.

(** C6, amended.  Take a text [body] that starts with a brace and in which
    the characters [{] outnumber the characters [}] by exactly [k], while
    the characters [[] do not outnumber the characters []]: the counts
    are those of the repair, over all the characters of the text, the
    ones inside string literals included.  Let the text end with a
    closing brace or hold none at all, and let one trailing comma follow
    it.  The first attempt fails, the repair drops the comma and appends
    [k] closing braces, and whenever [body] followed by [k] closing braces
    is JSON, the second attempt returns the value it parses to.  Whenever
    both attempts fail, the error thrown carries the message of the first
    attempt. *)
Theorem validateAndParseJson_repairs_truncation (body : string) (k : Z) :
  Str.startsWith body "{" = true ->
  Str.endsWith body Str.rbrace = true \/ Str.count Str.rbrace body = 0 ->
  0 <= k ->
  Str.count Str.lbrace body = Str.count Str.rbrace body + k ->
  Str.count Str.lbracket body <= Str.count Str.rbracket body ->
  (exists m, parse_and_log (body ++ ",") = Throw (SyntaxError m)) /\
  fixJson (body ++ ",") = body ++ Str.repeat Str.rbrace k /\
  (forall v,
     JSON.parse (body ++ Str.repeat Str.rbrace k) = Ok v ->
     validateAndParseJson (body ++ ",") = Ok v) /\
  (forall s e,
     validateAndParseJson s = Throw e ->
     exists d, parse_and_log s = Throw d /\
               e = Error ("JSON parsing failed: " ++ message d)).
Proof.
  intros Hstart Hbody Hk Hbraces Hbrackets.
  pose proof (fixJson_truncated body k Hstart Hbody Hk Hbraces Hbrackets) as Hfix.
  split; [apply parse_and_log_trailing_comma |].
  split; [exact Hfix |].
  split; [| exact validateAndParseJson_error].
  intros v Hv. unfold validateAndParseJson.
  destruct (parse_and_log_trailing_comma body) as [m ->]. cbn [try_catch].
  rewrite Hfix.
  destruct body as [| c r]; [discriminate Hstart |].
  assert (c = Str.lbrace) as ->.
  { unfold Str.startsWith in Hstart. cbn [String.prefix] in Hstart.
    destruct (ascii_dec "{" c) as [<- |]; [reflexivity | discriminate Hstart]. }
  cbn [append] in Hv |- *.
  now rewrite (parse_and_log_object _ v Hv).
Qed.

Lemma validateAndParseJson_repairs_truncation_witness :
  validateAndParseJson (cut_after_brace ++ ",") =
    Ok (VObj [("a", VObj [("b", VObj [("c", VNum (Fin 1))])])]) /\
  JSON.parse (cut_after_brace ++ "}}") =
    Ok (VObj [("a", VObj [("b", VObj [("c", VNum (Fin 1))])])]).
Proof.
  assert (Hparse : JSON.parse (cut_after_brace ++ Str.repeat Str.rbrace 2) =
                   Ok (VObj [("a", VObj [("b", VObj [("c", VNum (Fin 1))])])]))
    by (vm_compute; reflexivity).
  split; [| exact Hparse].
  apply (proj1 (proj2 (proj2
           (validateAndParseJson_repairs_truncation cut_after_brace 2
              ltac:(reflexivity) ltac:(left; reflexivity) ltac:(lia)
              ltac:(reflexivity) ltac:(vm_compute; discriminate))))).
  exact Hparse.
Defined.

(** *** The fuel of the parser is enough *)

Lemma skip_ws_length (s : string) :
  (String.length (JSON.skip_ws s) <= String.length s)%nat.
Proof.
  induction s as [| c r IH]; [apply le_n |].
  cbn [JSON.skip_ws]. destruct (JSON.is_ws c); cbn [String.length]; lia.
Qed.

Lemma take_digits_length (s : string) (acc : Z) (cnt : nat) :
  (String.length (snd (JSON.take_digits s acc cnt)) <= String.length s)%nat.
Proof.
  revert acc cnt. induction s as [| c r IH]; intros acc cnt; [apply le_n |].
  cbn [JSON.take_digits]. destruct (JSON.digit_of c); [| apply le_n].
  specialize (IH (acc * 10 + z) (S cnt)). cbn [String.length]. lia.
Qed.

Lemma parse_int_length (s : string) (n : Z) (rest : string) :
  JSON.parse_int s = JSON.POk n rest ->
  (String.length rest < String.length s)%nat.
Proof.
  unfold JSON.parse_int. destruct s as [| c r]; [discriminate |].
  destruct (JSON.digit_of c) as [d |] eqn:Ed; [| discriminate].
  assert (Hrest : (String.length (snd (JSON.take_digits (String c r) 0 0))
                   < String.length (String c r))%nat).
  { cbn [JSON.take_digits]. rewrite Ed.
    pose proof (take_digits_length r (0 * 10 + d) 1). cbn [String.length]. lia. }
  destruct (JSON.take_digits (String c r) 0 0) as [[m cnt] rest'].
  cbn [snd] in Hrest.
  destruct d; intros [= _ <-]; [cbn [String.length]; lia | exact Hrest ..].
Qed.

Lemma parse_frac_length (s : string) (f : Z * nat) (rest : string) :
  JSON.parse_frac s = JSON.POk f rest ->
  (String.length rest <= String.length s)%nat.
Proof.
  unfold JSON.parse_frac. destruct s as [| c r].
  - intros [= _ <-]. apply le_n.
  - destruct (c =? ".")%char.
    + pose proof (take_digits_length r 0 0) as H.
      destruct (JSON.take_digits r 0 0) as [[m cnt] rest'].
      destruct cnt; [discriminate |]. intros [= _ <-].
      cbn [snd String.length] in *. lia.
    + intros [= _ <-]. apply le_n.
Qed.

Lemma parse_exp_digits_length (negative : bool) (s : string) (e : Z)
    (rest : string) :
  JSON.parse_exp_digits negative s = JSON.POk e rest ->
  (String.length rest <= String.length s)%nat.
Proof.
  unfold JSON.parse_exp_digits.
  pose proof (take_digits_length s 0 0) as H.
  destruct (JSON.take_digits s 0 0) as [[m cnt] rest'].
  destruct cnt; [discriminate |]. intros [= _ <-]. exact H.
Qed.

Lemma parse_exp_length (s : string) (e : Z) (rest : string) :
  JSON.parse_exp s = JSON.POk e rest ->
  (String.length rest <= String.length s)%nat.
Proof.
  unfold JSON.parse_exp. destruct s as [| c r].
  - intros [= _ <-]. apply le_n.
  - destruct ((c =? "e")%char || (c =? "E")%char).
    + destruct r as [| d r'].
      * intros H. apply parse_exp_digits_length in H.
        cbn [String.length] in *. lia.
      * destruct (d =? "+")%char; [| destruct (d =? "-")%char];
          intros H; apply parse_exp_digits_length in H;
          cbn [String.length] in *; lia.
    + intros [= _ <-]. apply le_n.
Qed.

Lemma parse_number_length (s : string) (x : Q) (rest : string) :
  JSON.parse_number s = JSON.POk x rest ->
  (String.length rest < String.length s)%nat.
Proof.
  unfold JSON.parse_number.
  set (split := match s with
                | EmptyString => (false, s)
                | String c r => if (c =? "-")%char then (true, r) else (false, s)
                end).
  assert (Hsplit : (String.length (snd split) <= String.length s)%nat).
  { subst split. destruct s as [| c r]; [apply le_n |].
    destruct (c =? "-")%char; cbn [snd String.length]; lia. }
  destruct split as [negative s1]. cbn [snd] in Hsplit.
  destruct (JSON.parse_int s1) as [i s2 |] eqn:Ei; [| discriminate].
  destruct (JSON.parse_frac s2) as [[f cnt] s3 |] eqn:Ef; [| discriminate].
  destruct (JSON.parse_exp s3) as [e s4 |] eqn:Ee; [| discriminate].
  intros [= _ <-].
  apply parse_int_length in Ei. apply parse_frac_length in Ef.
  apply parse_exp_length in Ee. lia.
Qed.

Lemma parse_chars_length (s a rest : string) :
  JSON.parse_chars s = JSON.POk a rest ->
  (String.length rest < String.length s)%nat.
Proof.
  intros H.
  destruct (parse_chars_closes (String.length s) s a rest (le_n _) H) as [pre ->].
  rewrite length_app. cbn [String.length]. lia.
Qed.

Lemma drop_length (n : nat) (s : string) :
  (String.length (Str.drop n s) <= String.length s)%nat.
Proof.
  revert s. induction n as [| n IH]; intros s; [apply le_n |].
  destruct s as [| c s]; [apply le_n |].
  cbn [Str.drop String.length]. specialize (IH s). lia.
Qed.

Lemma expect_length (lit : string) (v w : value) (s rest : string) :
  lit <> EmptyString ->
  JSON.expect lit v s = JSON.POk w rest ->
  (String.length rest < String.length s)%nat.
Proof.
  intros Hne. unfold JSON.expect.
  destruct (String.prefix lit s) eqn:Hp; [| discriminate].
  intros [= _ <-].
  destruct lit as [| l lit]; [congruence |].
  destruct s as [| c s]; [discriminate Hp |].
  cbn [String.length Str.drop].
  pose proof (drop_length (String.length lit) s). lia.
Qed.

(** What the three readers leave is shorter than what they were given. *)
Lemma parse_value_length_all (fuel : nat) :
  (forall s v rest, JSON.parse_value fuel s = JSON.POk v rest ->
     (String.length rest < String.length s)%nat) /\
  (forall s v rest, JSON.parse_elements fuel s = JSON.POk v rest ->
     (String.length rest < String.length s)%nat) /\
  (forall s v rest, JSON.parse_members fuel s = JSON.POk v rest ->
     (String.length rest < String.length s)%nat).
Proof.
  induction fuel as [| fuel [IHv [IHe IHm]]];
    [repeat split; intros; discriminate |].
  repeat split; intros s v rest H.
  - cbn [JSON.parse_value] in H.
    pose proof (skip_ws_length s) as Hws.
    destruct (JSON.skip_ws s) as [| c r] eqn:Es; [discriminate |].
    destruct (c =? Str.lbrace)%char.
    { pose proof (skip_ws_length r) as Hws'.
      destruct (JSON.skip_ws r) as [| d r'] eqn:Er; [discriminate |].
      cbn [String.length] in Hws, Hws'.
      destruct (d =? Str.rbrace)%char.
      - injection H as _ <-. lia.
      - apply pmap_ok in H as [ms H]. apply IHm in H.
        cbn [String.length] in H. lia. }
    destruct (c =? Str.lbracket)%char.
    { pose proof (skip_ws_length r) as Hws'.
      destruct (JSON.skip_ws r) as [| d r'] eqn:Er; [discriminate |].
      cbn [String.length] in Hws, Hws'.
      destruct (d =? Str.rbracket)%char.
      - injection H as _ <-. lia.
      - apply pmap_ok in H as [es H]. apply IHe in H.
        cbn [String.length] in H. lia. }
    destruct (c =? Str.dquote)%char.
    { apply pmap_ok in H as [k H]. apply parse_chars_length in H.
      cbn [String.length] in Hws. lia. }
    destruct (c =? "t")%char;
      [apply expect_length in H; [lia | discriminate] |].
    destruct (c =? "f")%char;
      [apply expect_length in H; [lia | discriminate] |].
    destruct (c =? "n")%char;
      [apply expect_length in H; [lia | discriminate] |].
    apply pmap_ok in H as [x H]. apply parse_number_length in H. lia.
  - cbn [JSON.parse_elements] in H.
    destruct (JSON.parse_value fuel s) as [x rest1 |] eqn:Ev; [| discriminate].
    apply IHv in Ev.
    pose proof (skip_ws_length rest1) as Hws.
    destruct (JSON.skip_ws rest1) as [| c r] eqn:Er; [discriminate |].
    cbn [String.length] in Hws.
    destruct (c =? Str.comma)%char.
    { apply pmap_ok in H as [es H]. apply IHe in H. lia. }
    destruct (c =? Str.rbracket)%char; [| discriminate].
    injection H as _ <-. lia.
  - cbn [JSON.parse_members] in H.
    pose proof (skip_ws_length s) as Hws.
    destruct (JSON.skip_ws s) as [| c r] eqn:Es; [discriminate |].
    cbn [String.length] in Hws.
    destruct (c =? Str.dquote)%char; [| discriminate].
    destruct (JSON.parse_chars r) as [k rest0 |] eqn:Ek; [| discriminate].
    apply parse_chars_length in Ek.
    pose proof (skip_ws_length rest0) as Hws0.
    destruct (JSON.skip_ws rest0) as [| d r1] eqn:E0; [discriminate |].
    cbn [String.length] in Hws0.
    destruct (d =? ":")%char; [| discriminate].
    destruct (JSON.parse_value fuel r1) as [x rest1 |] eqn:Ev; [| discriminate].
    apply IHv in Ev.
    pose proof (skip_ws_length rest1) as Hws1.
    destruct (JSON.skip_ws rest1) as [| e r2] eqn:E1; [discriminate |].
    cbn [String.length] in Hws1.
    destruct (e =? Str.comma)%char.
    { apply pmap_ok in H as [ms H]. apply IHm in H. lia. }
    destruct (e =? Str.rbrace)%char; [| discriminate].
    injection H as _ <-. lia.
Qed.

Lemma pmap_err {A B : Type} (f : A -> B) (r : JSON.presult A) (m : string) :
  JSON.pmap f r = JSON.PErr m -> r = JSON.PErr m.
Proof. destruct r; [discriminate | now intros [= ->]]. Qed.

Lemma parse_number_fuel (s : string) :
  JSON.parse_number s <> JSON.PErr JSON.too_deep.
Proof.
  unfold JSON.parse_number.
  destruct (match s with
            | EmptyString => (false, s)
            | String c r => if (c =? "-")%char then (true, r) else (false, s)
            end) as [negative s1].
  destruct (JSON.parse_int s1) as [i s2 | m] eqn:Ei.
  - destruct (JSON.parse_frac s2) as [[f cnt] s3 | m] eqn:Ef.
    + destruct (JSON.parse_exp s3) as [e s4 | m] eqn:Ee; [discriminate |].
      intros [= ->]. revert Ee. unfold JSON.parse_exp, JSON.parse_exp_digits.
      destruct s3 as [| c r]; [discriminate |].
      destruct ((c =? "e")%char || (c =? "E")%char); [| discriminate].
      destruct r as [| d r'].
      * cbn. discriminate.
      * destruct (d =? "+")%char; [| destruct (d =? "-")%char];
          match goal with
          | |- context [JSON.take_digits ?t ?a ?n] =>
              destruct (JSON.take_digits t a n) as [[? [| ?]] ?]
          end; discriminate.
    + intros [= ->]. revert Ef. unfold JSON.parse_frac.
      destruct s2 as [| c r]; [discriminate |].
      destruct (c =? ".")%char; [| discriminate].
      destruct (JSON.take_digits r 0 0) as [[? [| ?]] ?]; discriminate.
  - intros [= ->]. revert Ei. unfold JSON.parse_int.
    destruct s1 as [| c r]; [discriminate |].
    destruct (JSON.digit_of c) as [[| ? | ?] |]; try discriminate;
      destruct (JSON.take_digits (String c r) 0 0) as [[? ?] ?]; discriminate.
Qed.

Lemma parse_chars_fuel (n : nat) (s : string) :
  (String.length s <= n)%nat -> JSON.parse_chars s <> JSON.PErr JSON.too_deep.
Proof.
  revert s. induction n as [| n IH]; intros s Hlen.
  - destruct s; [discriminate | cbn in Hlen; lia].
  - destruct s as [| c r]; [discriminate |].
    cbn [JSON.parse_chars]. intros H.
    repeat match type of H with
           | (if ?b then _ else _) = _ => destruct b
           | match ?x with _ => _ end = _ => destruct x
           end;
      try discriminate H;
      apply pmap_err in H;
      (apply IH in H; [exact H | cbn [String.length] in Hlen |- *; lia]).
Qed.

Lemma expect_fuel (lit : string) (v : value) (s : string) :
  JSON.expect lit v s <> JSON.PErr JSON.too_deep.
Proof. unfold JSON.expect. destruct (String.prefix lit s); discriminate. Qed.

(** With two units of fuel for a character, and one or two more, the
    readers do not run out of it. *)
Lemma parse_value_fuel_all (fuel : nat) :
  (forall s, (2 * String.length s + 1 <= fuel)%nat ->
     JSON.parse_value fuel s <> JSON.PErr JSON.too_deep) /\
  (forall s, (2 * String.length s + 2 <= fuel)%nat ->
     JSON.parse_elements fuel s <> JSON.PErr JSON.too_deep) /\
  (forall s, (2 * String.length s + 2 <= fuel)%nat ->
     JSON.parse_members fuel s <> JSON.PErr JSON.too_deep).
Proof.
  induction fuel as [| fuel [IHv [IHe IHm]]]; [repeat split; intros; lia |].
  destruct (parse_value_length_all fuel) as [Lv [Le Lm]].
  repeat split; intros s Hfuel H.
  - cbn [JSON.parse_value] in H.
    pose proof (skip_ws_length s) as Hws.
    destruct (JSON.skip_ws s) as [| c r] eqn:Es; [discriminate |].
    cbn [String.length] in Hws.
    destruct (c =? Str.lbrace)%char.
    { pose proof (skip_ws_length r) as Hws'.
      destruct (JSON.skip_ws r) as [| d r'] eqn:Er; [discriminate |].
      destruct (d =? Str.rbrace)%char; [discriminate |].
      apply pmap_err in H. apply IHm in H; [exact H | lia]. }
    destruct (c =? Str.lbracket)%char.
    { pose proof (skip_ws_length r) as Hws'.
      destruct (JSON.skip_ws r) as [| d r'] eqn:Er; [discriminate |].
      destruct (d =? Str.rbracket)%char; [discriminate |].
      apply pmap_err in H. apply IHe in H; [exact H | lia]. }
    destruct (c =? Str.dquote)%char.
    { apply pmap_err in H. exact (parse_chars_fuel _ _ (le_n _) H). }
    destruct (c =? "t")%char; [exact (expect_fuel _ _ _ H) |].
    destruct (c =? "f")%char; [exact (expect_fuel _ _ _ H) |].
    destruct (c =? "n")%char; [exact (expect_fuel _ _ _ H) |].
    apply pmap_err in H. exact (parse_number_fuel _ H).
  - cbn [JSON.parse_elements] in H.
    destruct (JSON.parse_value fuel s) as [x rest1 | m] eqn:Ev.
    + apply Lv in Ev.
      pose proof (skip_ws_length rest1) as Hws.
      destruct (JSON.skip_ws rest1) as [| c r] eqn:Er; [discriminate |].
      cbn [String.length] in Hws.
      destruct (c =? Str.comma)%char.
      { apply pmap_err in H. apply IHe in H; [exact H | lia]. }
      destruct (c =? Str.rbracket)%char; discriminate.
    + injection H as ->. apply IHv in Ev; [exact Ev | lia].
  - cbn [JSON.parse_members] in H.
    pose proof (skip_ws_length s) as Hws.
    destruct (JSON.skip_ws s) as [| c r] eqn:Es; [discriminate |].
    cbn [String.length] in Hws.
    destruct (c =? Str.dquote)%char; [| discriminate].
    destruct (JSON.parse_chars r) as [k rest0 | m] eqn:Ek.
    + apply parse_chars_length in Ek.
      pose proof (skip_ws_length rest0) as Hws0.
      destruct (JSON.skip_ws rest0) as [| d r1] eqn:E0; [discriminate |].
      cbn [String.length] in Hws0.
      destruct (d =? ":")%char; [| discriminate].
      destruct (JSON.parse_value fuel r1) as [x rest1 | m] eqn:Ev.
      * apply Lv in Ev.
        pose proof (skip_ws_length rest1) as Hws1.
        destruct (JSON.skip_ws rest1) as [| e r2] eqn:E1; [discriminate |].
        cbn [String.length] in Hws1.
        destruct (e =? Str.comma)%char.
        { apply pmap_err in H. apply IHm in H; [exact H | lia]. }
        destruct (e =? Str.rbrace)%char; discriminate.
      * injection H as ->. apply IHv in Ev; [exact Ev | lia].
    + injection H as ->. exact (parse_chars_fuel _ _ (le_n _) Ek).
Qed.

(** [JSON.parse] never fails for lack of fuel: its errors are errors of
    the text. *)
Lemma parse_has_fuel (text : string) :
  JSON.parse text <> Throw (SyntaxError JSON.too_deep).
Proof.
  unfold JSON.parse.
  destruct (parse_value_fuel_all (2 * String.length text + 2)) as [Hv _].
  specialize (Hv text ltac:(lia)).
  destruct (JSON.parse_value _ text) as [v rest | m].
  - destruct (Str.is_empty (JSON.skip_ws rest)); discriminate.
  - intros [= ->]. now apply Hv.
Qed.

(** * More properties of the code *)

(** ** More on the model client *)

(** An error of [makeRequest] is one of three kinds: the missing key, an
    error whose message speaks of an unexpected response format, or the
    one generic failure.  A response that is not ok gives the generic
    failure, unless the message made of its status and its text holds
    the words of the second kind: then that message, status and text
    included, is what the caller gets. *)
Theorem makeRequest_errors (w : World) :
  (forall e,
     returned (makeRequest w) = Throw e ->
     message e = "API_KEY_MISSING" \/
     Str.includes (message e) "Unexpected response format" = true \/
     e = Error "Failed to generate content with AI") /\
  (forall k status body,
     VITE_GEMINI_API_KEY w = Some k ->
     k <> EmptyString -> k <> "demo-key" ->
     fetch w = Response false status body ->
     returned (makeRequest w) =
       if Str.includes ("Gemini API error: " ++ show_Z status ++ " - " ++ body)
                       "Unexpected response format"
       then Throw (Error ("Gemini API error: " ++ show_Z status ++ " - " ++ body))
       else Throw (Error "Failed to generate content with AI")).
Proof.
  split.
  - intros e. unfold makeRequest.
    destruct (Str.is_empty (GEMINI_API_KEY w) || _); cbn [returned].
    + intros [= <-]. now left.
    + destruct (request w) as [text | d]; cbn [try_catch]; [discriminate |].
      unfold request_failed.
      destruct (String.eqb_spec (message d) "API_KEY_MISSING") as [Hk | _].
      * intros [= <-]. now left.
      * destruct (Str.includes (message d) "Unexpected response format") eqn:Hf.
        -- intros [= <-]. right. now left.
        -- intros [= <-]. right. now right.
  - intros k status body Hkey Hne Hdemo Hfetch.
    apply String.eqb_neq in Hdemo.
    unfold makeRequest, GEMINI_API_KEY. rewrite Hkey.
    destruct k as [| a k']; [congruence |].
    cbn [Str.is_empty]. rewrite Hdemo.
    cbn [orb returned]. unfold request. rewrite Hfetch.
    cbn [negb try_catch]. unfold request_failed. cbn [message].
    change (String.eqb
              ("Gemini API error: " ++ show_Z status ++ " - " ++ body)
              "API_KEY_MISSING") with false.
    cbv iota.
    destruct (Str.includes _ "Unexpected response format"); reflexivity.
Qed.

Lemma makeRequest_errors_witness :
  returned (makeRequest overloaded_world)
    = Throw (Error "Failed to generate content with AI") /\
  returned (makeRequest misformatted_world)
    = Throw (Error "Gemini API error: 503 - Unexpected response format").
Proof.
  split.
  - exact (proj2 (makeRequest_errors overloaded_world)
             "configured-key" 503 "overloaded" eq_refl
             ltac:(discriminate) ltac:(discriminate) eq_refl).
  - exact (proj2 (makeRequest_errors misformatted_world)
             "configured-key" 503 "Unexpected response format" eq_refl
             ltac:(discriminate) ltac:(discriminate) eq_refl).
Defined.

Lemma truthy_opt_some (o : option value) :
  Js.truthy_opt o = true -> exists v, o = Some v.
Proof. destruct o as [v |]; [now exists v | discriminate]. Qed.

Lemma items_nonempty (o : option value) :
  Js.isArray o = true ->
  Nat.eqb (List.length (Js.items o)) 0 = false ->
  exists x l, o = Some (VArr (x :: l)).
Proof.
  destruct o as [[| | | | [| x l] |] |]; try discriminate.
  intros _ _. now exists x, l.
Qed.

(** The envelope is read at one place only: the text of the first part of
    the content of the first candidate.  [read_envelope] returns a text
    exactly when that place holds a string, whatever else the answer
    holds. *)
Theorem read_envelope_ok (data : value) (text : string) :
  read_envelope data = Ok text <->
  exists candidate others content part parts,
    Js.get data "candidates" = Some (VArr (candidate :: others)) /\
    Js.get candidate "content" = Some content /\
    Js.get content "parts" = Some (VArr (part :: parts)) /\
    Js.get part "text" = Some (VStr text).
Proof.
  unfold read_envelope. split.
  - destruct (negb (Js.truthy data) || _ || _ || _) eqn:E1; [discriminate |].
    apply Bool.orb_false_iff in E1 as [E1 Hlen].
    apply Bool.orb_false_iff in E1 as [_ Harr].
    apply Bool.negb_false_iff in Harr.
    destruct (items_nonempty _ Harr Hlen) as [candidate [others Hc]].
    rewrite Hc. cbn [Js.items nth_error get_opt].
    destruct (negb (Js.truthy_opt (Some candidate)) || _ || _ || _ || _) eqn:E2;
      [discriminate |].
    apply Bool.orb_false_iff in E2 as [E2 Hlen2].
    apply Bool.orb_false_iff in E2 as [E2 Harr2].
    apply Bool.orb_false_iff in E2 as [E2 _].
    apply Bool.orb_false_iff in E2 as [_ Hcontent].
    apply Bool.negb_false_iff in Harr2, Hcontent.
    destruct (truthy_opt_some _ Hcontent) as [content Hct].
    rewrite Hct in Harr2, Hlen2 |- *. cbn [get_opt] in Harr2, Hlen2 |- *.
    destruct (items_nonempty _ Harr2 Hlen2) as [part [parts Hp]].
    rewrite Hp. cbn [Js.items nth_error get_opt].
    destruct (negb (Js.truthy_opt (Some part))); [discriminate |].
    destruct (Js.get part "text") as [[| | | t | |] |] eqn:Ht; try discriminate.
    intros [= <-].
    now exists candidate, others, content, part, parts.
  - intros [candidate [others [content [part [parts [Hc [Hct [Hp Ht]]]]]]]].
    destruct (get_some_object _ _ _ Hc) as [kd ->].
    destruct (get_some_object _ _ _ Hct) as [kc ->].
    destruct (get_some_object _ _ _ Hp) as [kn ->].
    destruct (get_some_object _ _ _ Ht) as [kp ->].
    rewrite Hc. cbn [Js.truthy Js.truthy_opt Js.isArray Js.items List.length
                     Nat.eqb negb orb nth_error get_opt].
    rewrite Hct. cbn [Js.truthy Js.truthy_opt get_opt negb orb].
    rewrite Hp. cbn [Js.truthy Js.truthy_opt Js.isArray Js.items List.length
                     Nat.eqb negb orb nth_error get_opt].
    now rewrite Ht.
Qed.

(** ** More on repair and retry *)

(** [validateAndParseJson] never returns null, although [null] is JSON:
    the log line that lists the keys of the parsed value throws on it, in
    both attempts.  Any other value that the text parses to comes back as
    it is, without a repair. *)
Theorem validateAndParseJson_direct (s : string) :
  validateAndParseJson s <> Ok VNull /\
  (forall v, JSON.parse s = Ok v -> v <> VNull -> validateAndParseJson s = Ok v).
Proof.
  assert (Hlog : forall t, parse_and_log t <> Ok VNull).
  { intros t. unfold parse_and_log.
    destruct (JSON.parse t) as [[| | | | |] |]; cbn; discriminate. }
  split.
  - unfold validateAndParseJson.
    destruct (parse_and_log s) as [v | d] eqn:E1; cbn [try_catch].
    + rewrite <- E1. apply Hlog.
    + destruct (parse_and_log (fixJson s)) as [v | d'] eqn:E2; cbn [try_catch];
        [rewrite <- E2; apply Hlog | discriminate].
  - intros v Hv Hnull. unfold validateAndParseJson, parse_and_log.
    rewrite Hv. cbn [bind]. now destruct v.
Qed.

Lemma validateAndParseJson_direct_witness :
  validateAndParseJson "[1, 2]" = Ok (VArr [VNum (Fin 1); VNum (Fin 2)]) /\
  validateAndParseJson "null"
    = Throw (Error "JSON parsing failed: Cannot convert undefined or null to object").
Proof.
  split; [| vm_compute; reflexivity].
  apply (proj2 (validateAndParseJson_direct "[1, 2]"));
    [vm_compute; reflexivity | discriminate].
Defined.

Lemma count_repeat_same (c : ascii) (n : nat) :
  Str.count c (Str.repeat_nat c n) = Z.of_nat n.
Proof.
  induction n as [| n IH]; [reflexivity |].
  cbn [Str.repeat_nat Str.count]. rewrite Ascii.eqb_refl, IH. lia.
Qed.

(** After the repairs there are no more opening braces than closing ones,
    and no more opening brackets than closing ones, whatever the text. *)
Theorem fixJson_balances (s : string) :
  Str.count Str.lbrace (fixJson s) <= Str.count Str.rbrace (fixJson s) /\
  Str.count Str.lbracket (fixJson s) <= Str.count Str.rbracket (fixJson s).
Proof.
  unfold fixJson. cbn zeta.
  set (t := if Str.endsWith _ Str.comma then _ else _).
  set (u := if Str.count Str.rbrace t <? Str.count Str.lbrace t then _ else t).
  assert (Hu : Str.count Str.lbrace u <= Str.count Str.rbrace u).
  { subst u.
    destruct (Z.ltb_spec (Str.count Str.rbrace t) (Str.count Str.lbrace t));
      [| lia].
    rewrite !count_app. unfold Str.repeat.
    rewrite count_repeat_same, count_repeat_other by discriminate. lia. }
  destruct (Z.ltb_spec (Str.count Str.rbracket u) (Str.count Str.lbracket u)).
  - rewrite !count_app. unfold Str.repeat.
    rewrite count_repeat_same, !count_repeat_other by discriminate. lia.
  - lia.
Qed.

Lemma endsWith_other (s : string) (c d : ascii) :
  Str.endsWith s c = true -> d <> c -> Str.endsWith s d = false.
Proof.
  unfold Str.endsWith. destruct (Str.last_char s) as [x |]; [| discriminate].
  intros Hc Hd. apply Ascii.eqb_eq in Hc. subst x.
  apply Ascii.eqb_neq. congruence.
Qed.

Lemma fixJson_closed (s : string) :
  Str.startsWith s "{" = true ->
  Str.endsWith s Str.rbrace = true ->
  Str.count Str.lbrace s <= Str.count Str.rbrace s ->
  Str.count Str.lbracket s <= Str.count Str.rbracket s ->
  fixJson s = s.
Proof.
  intros Hstart Hend Hbraces Hbrackets.
  unfold fixJson. cbn zeta.
  rewrite Hstart. cbn [negb]. rewrite Hend. cbn [negb].
  rewrite (endsWith_other s Str.rbrace Str.comma Hend) by discriminate.
  destruct (Z.ltb_spec (Str.count Str.rbrace s) (Str.count Str.lbrace s)); [lia |].
  destruct (Z.ltb_spec (Str.count Str.rbracket s) (Str.count Str.lbracket s));
    [lia | reflexivity].
Qed.

(** A text that starts with a brace, ends with a brace and has no more
    opening than closing braces and brackets is left as it is by the
    repairs: the second attempt parses the same text again, so the outcome
    is the one of the direct parse, its error wrapped when it fails. *)
Theorem validateAndParseJson_closed (s : string) :
  Str.startsWith s "{" = true ->
  Str.endsWith s Str.rbrace = true ->
  Str.count Str.lbrace s <= Str.count Str.rbrace s ->
  Str.count Str.lbracket s <= Str.count Str.rbracket s ->
  fixJson s = s /\
  validateAndParseJson s =
    match parse_and_log s with
    | Ok v => Ok v
    | Throw d => Throw (Error ("JSON parsing failed: " ++ message d))
    end.
Proof.
  intros Hstart Hend Hbraces Hbrackets.
  pose proof (fixJson_closed s Hstart Hend Hbraces Hbrackets) as Hfix.
  split; [exact Hfix |].
  unfold validateAndParseJson. rewrite Hfix.
  destruct (parse_and_log s) as [v | d] eqn:E; cbn [try_catch]; reflexivity.
Qed.

Lemma validateAndParseJson_closed_witness :
  fixJson missing_comma = missing_comma /\
  validateAndParseJson missing_comma
    = Throw (Error "JSON parsing failed: Unexpected token in JSON").
Proof.
  destruct (validateAndParseJson_closed missing_comma
              ltac:(reflexivity) ltac:(reflexivity)
              ltac:(vm_compute; discriminate) ltac:(vm_compute; discriminate))
    as [Hfix Hres].
  split; [exact Hfix |].
  rewrite Hres. vm_compute. reflexivity.
Defined.

(** ** More on the extractor *)

Lemma opened_snoc (pre : string) (c : ascii) (st st' : Scan) :
  startIndex st' = startIndex st ->
  opened pre st -> opened (pre ++ String c EmptyString) st'.
Proof.
  intros Hs [H | (a & b & Hpre & Ha)].
  - left. congruence.
  - right. exists a, (b ++ String c EmptyString). split; [| congruence].
    subst pre. rewrite app_assoc_cons. reflexivity.
Qed.

Lemma scan_span (rest : string) : forall (pre : string) (st : Scan),
  endIndex st = -1 -> opened pre st ->
  endIndex (scan rest (Str.len pre) st) = -1 \/
  exists a m post,
    pre ++ rest = a ++ String Str.lbrace (m ++ String Str.rbrace post) /\
    startIndex (scan rest (Str.len pre) st) = Str.len a /\
    endIndex (scan rest (Str.len pre) st) = Str.len a + 1 + Str.len m.
Proof.
  induction rest as [| char rest IH]; intros pre st He Ho.
  - left. exact He.
  - assert (Hnext : forall st',
      endIndex st' = -1 -> opened (pre ++ String char EmptyString) st' ->
      endIndex (scan rest (Str.len pre + 1) st') = -1 \/
      exists a m post,
        pre ++ String char rest
          = a ++ String Str.lbrace (m ++ String Str.rbrace post) /\
        startIndex (scan rest (Str.len pre + 1) st') = Str.len a /\
        endIndex (scan rest (Str.len pre + 1) st') = Str.len a + 1 + Str.len m).
    { intros st' He' Ho'.
      specialize (IH (pre ++ String char EmptyString) st' He' Ho').
      rewrite len_app in IH.
      change (Str.len (String char EmptyString)) with 1 in IH.
      rewrite app_assoc_cons in IH. exact IH. }
    cbn [scan].
    destruct (escapeNext st).
    { apply Hnext; [exact He | apply (opened_snoc pre char st); [reflexivity | exact Ho]]. }
    destruct (char =? Str.backslash)%char.
    { apply Hnext; [exact He | apply (opened_snoc pre char st); [reflexivity | exact Ho]]. }
    destruct (char =? Str.dquote)%char.
    { apply Hnext; [exact He | apply (opened_snoc pre char st); [reflexivity | exact Ho]]. }
    destruct (negb (inString st)).
    2: { apply Hnext; [exact He | apply (opened_snoc pre char st); [reflexivity | exact Ho]]. }
    destruct (char =? Str.lbrace)%char eqn:Eopen.
    { apply Hnext; [exact He |].
      apply Ascii.eqb_eq in Eopen. subst char.
      destruct (braceCount st =? 0).
      - right. exists pre, EmptyString. split; reflexivity.
      - apply (opened_snoc pre Str.lbrace st); [reflexivity | exact Ho]. }
    destruct (char =? Str.rbrace)%char eqn:Eclose.
    2: { apply Hnext; [exact He | apply (opened_snoc pre char st); [reflexivity | exact Ho]]. }
    apply Ascii.eqb_eq in Eclose. subst char.
    destruct ((braceCount st - 1 =? 0) && negb (startIndex st =? -1)) eqn:Eexit.
    2: { apply Hnext; [exact He | apply (opened_snoc pre Str.rbrace st); [reflexivity | exact Ho]]. }
    apply andb_true_iff in Eexit. destruct Eexit as [_ Hstart].
    apply negb_true_iff, Z.eqb_neq in Hstart.
    destruct Ho as [Ho | (a & b & Hpre & Ha)]; [contradiction |].
    right. exists a, b, rest. cbn [startIndex endIndex]. subst pre.
    split; [apply app_assoc_cons |]. split; [exact Ha |].
    rewrite len_app, len_cons. lia.
Qed.

Lemma index_from_split (c : ascii) (s : string) : forall i : Z,
  Str.index_from c s i = -1 \/
  exists a b, s = a ++ String c b /\ Str.index_from c s i = i + Str.len a.
Proof.
  induction s as [| x r IH]; intros i; cbn [Str.index_from].
  - left. reflexivity.
  - destruct (x =? c)%char eqn:E.
    + apply Ascii.eqb_eq in E. subst x. right. exists EmptyString, r.
      split; [reflexivity |]. change (Str.len EmptyString) with 0. lia.
    + destruct (IH (i + 1)) as [H | (a & b & Hr & H)]; [left; exact H |].
      right. exists (String x a), b. split; [subst r; reflexivity |].
      rewrite H, len_cons. lia.
Qed.

Lemma last_index_from_split (c : ascii) (s : string) : forall i found : Z,
  Str.last_index_from c s i found = found \/
  exists a b,
    s = a ++ String c b /\ Str.last_index_from c s i found = i + Str.len a.
Proof.
  induction s as [| x r IH]; intros i found; cbn [Str.last_index_from].
  - left. reflexivity.
  - destruct (IH (i + 1) (if (x =? c)%char then i else found))
      as [H | (a & b & Hr & H)].
    + destruct (x =? c)%char eqn:E; [| left; exact H].
      apply Ascii.eqb_eq in E. subst x. right. exists EmptyString, r.
      split; [reflexivity |]. rewrite H. change (Str.len EmptyString) with 0. lia.
    + right. exists (String x a), b. split; [subst r; reflexivity |].
      rewrite H, len_cons. lia.
Qed.

Lemma app_overlap (x y : ascii) (b d : string) : forall a c : string,
  a ++ String x b = c ++ String y d -> Str.len a < Str.len c ->
  exists m, c = a ++ String x m /\ b = m ++ String y d.
Proof.
  induction a as [| z a IH]; intros c Heq Hlen.
  - destruct c as [| z' c'].
    + change (Str.len EmptyString) with 0 in Hlen. lia.
    + cbn in Heq. injection Heq as Hx Hb. subst z'. exists c'.
      split; [reflexivity | exact Hb].
  - destruct c as [| z' c'].
    + change (Str.len EmptyString) with 0 in Hlen.
      pose proof (len_nonneg (String z a)). lia.
    + cbn in Heq. injection Heq as Hz Hrest. subst z'.
      rewrite !len_cons in Hlen.
      destruct (IH c' Hrest ltac:(lia)) as (m & Hc & Hb).
      exists m. split; [subst c'; reflexivity | exact Hb].
Qed.

Lemma substring_object (a m post : string) :
  Str.substring (a ++ String Str.lbrace (m ++ String Str.rbrace post))
    (Str.len a) (Str.len a + 1 + Str.len m + 1)
  = String Str.lbrace (m ++ Str.of_char Str.rbrace).
Proof.
  pose proof (substring_middle a (String Str.lbrace (m ++ Str.of_char Str.rbrace)) post)
    as H.
  rewrite len_cons, len_app in H.
  change (Str.len (Str.of_char Str.rbrace)) with 1 in H.
  replace (Str.len a + (Str.len m + 1 + 1)) with (Str.len a + 1 + Str.len m + 1)
    in H by lia.
  rewrite <- H. f_equal. f_equal. cbn [append]. f_equal.
  unfold Str.of_char. rewrite app_assoc_cons. reflexivity.
Qed.

Lemma extract_by_scan (text : string) :
  endIndex (scan text 0 scan_init) <> -1 ->
  exists pre mid post,
    text = pre ++ String Str.lbrace (mid ++ String Str.rbrace post) /\
    Str.substring text (startIndex (scan text 0 scan_init))
      (endIndex (scan text 0 scan_init) + 1)
    = String Str.lbrace (mid ++ Str.of_char Str.rbrace).
Proof.
  intros Hend.
  destruct (scan_span text EmptyString scan_init eq_refl (or_introl eq_refl))
    as [H | (a & m & post & Htext & Hs & He)].
  - change (Str.len EmptyString) with 0 in H. contradiction.
  - change (Str.len EmptyString) with 0 in Hs, He. cbn [append] in Htext.
    exists a, m, post. split; [exact Htext |].
    rewrite Hs, He. rewrite Htext at 1. apply substring_object.
Qed.

Lemma extract_by_bounds (text : string) :
  Str.indexOf text Str.lbrace <> -1 ->
  Str.lastIndexOf text Str.rbrace <> -1 ->
  Str.indexOf text Str.lbrace < Str.lastIndexOf text Str.rbrace ->
  exists pre mid post,
    text = pre ++ String Str.lbrace (mid ++ String Str.rbrace post) /\
    Str.substring text (Str.indexOf text Str.lbrace)
      (Str.lastIndexOf text Str.rbrace + 1)
    = String Str.lbrace (mid ++ Str.of_char Str.rbrace).
Proof.
  unfold Str.indexOf, Str.lastIndexOf. intros Hs He Hlt.
  destruct (index_from_split Str.lbrace text 0) as [H | (a & b & Ha & Hi)];
    [contradiction |].
  destruct (last_index_from_split Str.rbrace text 0 (-1))
    as [H | (c & d & Hc & Hj)]; [contradiction |].
  rewrite Hi, Hj in *.
  assert (Heq : a ++ String Str.lbrace b = c ++ String Str.rbrace d)
    by congruence.
  destruct (app_overlap _ _ _ _ a c Heq ltac:(lia)) as (m & Hcm & Hb).
  exists a, m, d. subst b. split; [exact Ha |].
  rewrite Ha at 1. subst c. rewrite len_app, len_cons.
  replace (0 + (Str.len a + (Str.len m + 1)) + 1)
    with (Str.len a + 1 + Str.len m + 1) by lia.
  replace (0 + Str.len a) with (Str.len a) by lia.
  apply substring_object.
Qed.

(** What the extractor returns is the text it was given, or a piece of it
    that begins with an opening brace and ends with a closing one: it
    never returns text that is not in its input. *)
Theorem extractJsonFromText_span (text : string) :
  extractJsonFromText text = text \/
  exists pre mid post,
    text = pre ++ String Str.lbrace (mid ++ String Str.rbrace post) /\
    extractJsonFromText text = String Str.lbrace (mid ++ Str.of_char Str.rbrace).
Proof.
  unfold extractJsonFromText. cbn zeta.
  destruct (negb (startIndex (scan text 0 scan_init) =? -1)
            && negb (endIndex (scan text 0 scan_init) =? -1)) eqn:Efound.
  - apply andb_true_iff in Efound as [_ Hend].
    apply negb_true_iff, Z.eqb_neq in Hend.
    right. now apply extract_by_scan.
  - destruct (negb (Str.indexOf text Str.lbrace =? -1)
              && negb (Str.lastIndexOf text Str.rbrace =? -1)
              && (Str.indexOf text Str.lbrace <? Str.lastIndexOf text Str.rbrace))
      eqn:Ebounds; [| left; reflexivity].
    apply andb_true_iff in Ebounds as [Ebounds Hlt].
    apply andb_true_iff in Ebounds as [Hs He].
    apply negb_true_iff, Z.eqb_neq in Hs, He. apply Z.ltb_lt in Hlt.
    right. now apply extract_by_bounds.
Qed.

Lemma count_cons_same (c : ascii) (s : string) :
  Str.count c (String c s) = 1 + Str.count c s.
Proof. cbn [Str.count]. rewrite Ascii.eqb_refl. reflexivity. Qed.

Lemma count_object (pre mid post : string) :
  1 <= Str.count Str.lbrace
         (pre ++ String Str.lbrace (mid ++ String Str.rbrace post)) /\
  1 <= Str.count Str.rbrace
         (pre ++ String Str.lbrace (mid ++ String Str.rbrace post)).
Proof.
  rewrite !count_app.
  pose proof (count_nonneg Str.lbrace pre).
  pose proof (count_nonneg Str.rbrace pre).
  split.
  - rewrite count_cons_same.
    pose proof (count_nonneg Str.lbrace (mid ++ String Str.rbrace post)). lia.
  - cbn [Str.count].
    change (Str.lbrace =? Str.rbrace)%char with false.
    rewrite count_app, count_cons_same.
    pose proof (count_nonneg Str.rbrace mid).
    pose proof (count_nonneg Str.rbrace post). lia.
Qed.

Lemma extract_piece (text : string) :
  extractJsonFromText text = text \/
  (1 <= Str.count Str.lbrace text /\ 1 <= Str.count Str.rbrace text /\
   exists i j, extractJsonFromText text = Str.substring text i j).
Proof.
  unfold extractJsonFromText. cbn zeta.
  destruct (negb (startIndex (scan text 0 scan_init) =? -1)
            && negb (endIndex (scan text 0 scan_init) =? -1)) eqn:Efound.
  - apply andb_true_iff in Efound as [_ Hend].
    apply negb_true_iff, Z.eqb_neq in Hend.
    destruct (extract_by_scan text Hend) as (pre & mid & post & Htext & _).
    right. destruct (count_object pre mid post) as [H1 H2].
    rewrite <- Htext in H1, H2. split; [exact H1 |]. split; [exact H2 |].
    now do 2 eexists.
  - destruct (negb (Str.indexOf text Str.lbrace =? -1)
              && negb (Str.lastIndexOf text Str.rbrace =? -1)
              && (Str.indexOf text Str.lbrace <? Str.lastIndexOf text Str.rbrace))
      eqn:Ebounds; [| left; reflexivity].
    apply andb_true_iff in Ebounds as [Ebounds Hlt].
    apply andb_true_iff in Ebounds as [Hs He].
    apply negb_true_iff, Z.eqb_neq in Hs, He. apply Z.ltb_lt in Hlt.
    destruct (extract_by_bounds text Hs He Hlt) as (pre & mid & post & Htext & _).
    right. destruct (count_object pre mid post) as [H1 H2].
    rewrite <- Htext in H1, H2. split; [exact H1 |]. split; [exact H2 |].
    now do 2 eexists.
Qed.

(** A text without an opening brace, or without a closing one, comes back
    unchanged, whatever else it holds. *)
Theorem extractJsonFromText_no_object (text : string) :
  Str.count Str.lbrace text = 0 \/ Str.count Str.rbrace text = 0 ->
  extractJsonFromText text = text.
Proof.
  intros Hnone.
  destruct (extract_piece text) as [H | (H1 & H2 & _)]; [exact H | lia].
Qed.

Lemma extractJsonFromText_no_object_witness :
  extractJsonFromText "I cannot help with that }" = "I cannot help with that }".
Proof.
  apply extractJsonFromText_no_object. left. reflexivity.
Defined.

(** *** Cleaning and repair only remove *)

Lemma count_trimStart_le (c : ascii) (s : string) :
  Str.count c (Str.trimStart s) <= Str.count c s.
Proof.
  induction s as [| x r IH]; [apply Z.le_refl |].
  cbn [Str.trimStart]. destruct (Str.is_space x); [| apply Z.le_refl].
  cbn [Str.count]. destruct (x =? c)%char; lia.
Qed.

Lemma count_trimEnd_le (c : ascii) (s : string) :
  Str.count c (Str.trimEnd s) <= Str.count c s.
Proof.
  induction s as [| x r IH]; [apply Z.le_refl |].
  cbn [Str.trimEnd].
  pose proof (count_nonneg c r).
  destruct (Str.is_empty (Str.trimEnd r) && Str.is_space x);
    cbn [Str.count]; destruct (x =? c)%char; lia.
Qed.

Lemma count_trim_le (c : ascii) (s : string) :
  Str.count c (Str.trim s) <= Str.count c s.
Proof.
  unfold Str.trim.
  pose proof (count_trimStart_le c (Str.trimEnd s)).
  pose proof (count_trimEnd_le c s). lia.
Qed.

Lemma count_drop_le (c : ascii) (n : nat) : forall s : string,
  Str.count c (Str.drop n s) <= Str.count c s.
Proof.
  induction n as [| n IH]; intros [| x r]; cbn [Str.drop]; try apply Z.le_refl.
  specialize (IH r). cbn [Str.count]. destruct (x =? c)%char; lia.
Qed.

Lemma count_take_le (c : ascii) (n : nat) : forall s : string,
  Str.count c (Str.take n s) <= Str.count c s.
Proof.
  induction n as [| n IH]; intros [| x r]; cbn [Str.take]; try apply Z.le_refl.
  - apply count_nonneg.
  - specialize (IH r). cbn [Str.count]. destruct (x =? c)%char; lia.
Qed.

Lemma count_substring_le (c : ascii) (s : string) (i j : Z) :
  Str.count c (Str.substring s i j) <= Str.count c s.
Proof.
  unfold Str.substring. cbn zeta.
  etransitivity; [apply count_take_le | apply count_drop_le].
Qed.

Lemma count_strip_closing_fence_le (c : ascii) (s : string) :
  Str.count c (strip_closing_fence s) <= Str.count c s.
Proof.
  unfold strip_closing_fence. cbn zeta.
  destruct (_ && _); [| apply Z.le_refl].
  etransitivity; [apply count_trimEnd_le | apply count_take_le].
Qed.

Lemma count_after_comment_end_le (c : ascii) (s rest : string) :
  after_comment_end s = Some rest -> Str.count c rest <= Str.count c s.
Proof.
  revert rest. induction s as [| x r IH]; intros rest; [discriminate |].
  cbn [after_comment_end]. destruct r as [| d r']; [discriminate |].
  destruct ((x =? Str.star)%char && (d =? Str.slash)%char).
  - intros [= <-]. pose proof (count_nonneg c r').
    cbn [Str.count]. destruct (x =? c)%char, (d =? c)%char; lia.
  - intros H. specialize (IH rest H).
    cbn [Str.count] in *. destruct (x =? c)%char; lia.
Qed.

Lemma count_strip_block_comments_le (c : ascii) (fuel : nat) :
  forall s : string,
    Str.count c (strip_block_comments fuel s) <= Str.count c s.
Proof.
  induction fuel as [| fuel IH]; intros s; [apply Z.le_refl |].
  cbn [strip_block_comments]. destruct s as [| x r]; [apply Z.le_refl |].
  destruct r as [| d r']; [apply Z.le_refl |].
  assert (Hkeep : Str.count c (String x (strip_block_comments fuel (String d r')))
                  <= Str.count c (String x (String d r'))).
  { specialize (IH (String d r')). cbn [Str.count] in *.
    destruct (x =? c)%char; lia. }
  destruct ((x =? Str.slash)%char && (d =? Str.star)%char); [| exact Hkeep].
  destruct (after_comment_end r') as [rest |] eqn:E; [| exact Hkeep].
  pose proof (count_after_comment_end_le c r' rest E).
  specialize (IH rest).
  cbn [Str.count]. destruct (x =? c)%char, (d =? c)%char; lia.
Qed.

Lemma count_strip_line_comments_le (c : ascii) (s : string) :
  forall b : bool, Str.count c (strip_line_comments b s) <= Str.count c s.
Proof.
  induction s as [| x r IH]; intros b; [destruct b; apply Z.le_refl |].
  pose proof (IH true) as Ht. pose proof (IH false) as Hf.
  destruct b; cbn [strip_line_comments].
  - destruct (Str.is_line_terminator x); cbn [Str.count];
      destruct (x =? c)%char; lia.
  - destruct r as [| d r']; [apply Z.le_refl |].
    destruct ((x =? Str.slash)%char && (d =? Str.slash)%char) eqn:E.
    + apply andb_true_iff in E as [_ Ed]. apply Ascii.eqb_eq in Ed. subst d.
      change (strip_line_comments true (String Str.slash r'))
        with (strip_line_comments true r') in Ht.
      cbn [Str.count] in *.
      destruct (x =? c)%char, (Str.slash =? c)%char; lia.
    + cbn [Str.count] in *. destruct (x =? c)%char; lia.
Qed.

Lemma count_strip_trailing_commas_le (c : ascii) (s : string) :
  Str.count c (strip_trailing_commas s) <= Str.count c s.
Proof.
  induction s as [| x r IH]; [apply Z.le_refl |].
  cbn [strip_trailing_commas].
  destruct ((x =? Str.comma)%char && before_closer r);
    cbn [Str.count]; destruct (x =? c)%char; lia.
Qed.

Lemma count_extract_le (c : ascii) (text : string) :
  Str.count c (extractJsonFromText text) <= Str.count c text.
Proof.
  destruct (extract_piece text) as [-> | (_ & _ & i & j & ->)];
    [apply Z.le_refl | apply count_substring_le].
Qed.

Lemma count_clean_le (c : ascii) (response : string) :
  Str.count c (cleanJsonResponse response) <= Str.count c response.
Proof.
  unfold cleanJsonResponse. cbn zeta.
  set (fenced := if Str.startsWith (Str.trim response) "```json" then _ else _).
  assert (Hfenced : Str.count c fenced <= Str.count c response).
  { subst fenced. pose proof (count_trim_le c response) as Htrim.
    destruct (Str.startsWith (Str.trim response) "```json");
      [| destruct (Str.startsWith (Str.trim response) "```")]; [| | exact Htrim].
    - pose proof (count_strip_closing_fence_le c
                    (Str.trimStart (Str.drop 7 (Str.trim response)))).
      pose proof (count_trimStart_le c (Str.drop 7 (Str.trim response))).
      pose proof (count_drop_le c 7 (Str.trim response)). lia.
    - pose proof (count_strip_closing_fence_le c
                    (Str.trimStart (Str.drop 3 (Str.trim response)))).
      pose proof (count_trimStart_le c (Str.drop 3 (Str.trim response))).
      pose proof (count_drop_le c 3 (Str.trim response)). lia. }
  pose proof (count_extract_le c fenced) as H1.
  set (e := extractJsonFromText fenced) in *.
  pose proof (count_strip_block_comments_le c (String.length e) e) as H2.
  pose proof (count_strip_line_comments_le c
                (strip_block_comments (String.length e) e) false) as H3.
  pose proof (count_strip_trailing_commas_le c
                (strip_line_comments false
                   (strip_block_comments (String.length e) e))) as H4.
  pose proof (count_trim_le c
                (strip_trailing_commas
                   (strip_line_comments false
                      (strip_block_comments (String.length e) e)))) as H5.
  lia.
Qed.

Lemma count_fixJson_le (c : ascii) (s : string) :
  c <> Str.rbrace -> c <> Str.rbracket ->
  Str.count c (fixJson s) <= Str.count c s.
Proof.
  intros Hbrace Hbracket. unfold fixJson. cbn zeta.
  set (s1 := if negb (Str.startsWith s "{") then _ else s).
  assert (H1 : Str.count c s1 <= Str.count c s).
  { subst s1. destruct (negb (Str.startsWith s "{")); [| apply Z.le_refl].
    destruct (0 <? Str.indexOf s Str.lbrace); [| apply Z.le_refl].
    apply count_substring_le. }
  set (s2 := if negb (Str.endsWith s1 Str.rbrace) then _ else s1).
  assert (H2 : Str.count c s2 <= Str.count c s1).
  { subst s2. destruct (negb (Str.endsWith s1 Str.rbrace)); [| apply Z.le_refl].
    destruct (negb (Str.lastIndexOf s1 Str.rbrace =? -1)); [| apply Z.le_refl].
    apply count_substring_le. }
  set (s3 := if Str.endsWith s2 Str.comma then Str.drop_last s2 else s2).
  assert (H3 : Str.count c s3 <= Str.count c s2).
  { subst s3. destruct (Str.endsWith s2 Str.comma); [| apply Z.le_refl].
    apply count_take_le. }
  set (s4 := if Str.count Str.rbrace s3 <? Str.count Str.lbrace s3
             then _ else s3).
  assert (H4 : Str.count c s4 = Str.count c s3).
  { subst s4. destruct (Str.count Str.rbrace s3 <? Str.count Str.lbrace s3);
      [| reflexivity].
    rewrite count_app. unfold Str.repeat.
    rewrite count_repeat_other by congruence. lia. }
  assert (H5 : Str.count c
                 (if Str.count Str.rbracket s4 <? Str.count Str.lbracket s4
                  then s4 ++ Str.repeat Str.rbracket
                               (Str.count Str.lbracket s4
                                - Str.count Str.rbracket s4)
                  else s4) = Str.count c s4).
  { destruct (Str.count Str.rbracket s4 <? Str.count Str.lbracket s4);
      [| reflexivity].
    rewrite count_app. unfold Str.repeat.
    rewrite count_repeat_other by congruence. lia. }
  lia.
Qed.

(** Cleaning only removes, and the repair adds nothing but closing
    braces and brackets: no character occurs more often in the cleaned
    text than in the answer it was made from, and none but the two
    closers occurs more often in the repaired text. *)
Theorem cleanJsonResponse_only_removes (c : ascii) (response : string) :
  Str.count c (cleanJsonResponse response) <= Str.count c response /\
  (c <> Str.rbrace -> c <> Str.rbracket ->
   Str.count c (fixJson (cleanJsonResponse response))
     <= Str.count c response).
Proof.
  split; [apply count_clean_le |].
  intros Hbrace Hbracket.
  etransitivity; [now apply count_fixJson_le | apply count_clean_le].
Qed.

Lemma count_skip_ws_le (c : ascii) (s : string) :
  Str.count c (JSON.skip_ws s) <= Str.count c s.
Proof.
  induction s as [| x r IH]; [apply Z.le_refl |].
  cbn [JSON.skip_ws]. destruct (JSON.is_ws x); [| apply Z.le_refl].
  cbn [Str.count]. destruct (x =? c)%char; lia.
Qed.

Lemma expect_value (lit : string) (v w : value) (s rest : string) :
  JSON.expect lit v s = JSON.POk w rest -> w = v.
Proof.
  unfold JSON.expect. destruct (String.prefix lit s); [| discriminate].
  now intros [= <- _].
Qed.

Lemma pmap_value {A B : Type} (f : A -> B) (r : JSON.presult A) (b : B)
    (rest : string) :
  JSON.pmap f r = JSON.POk b rest -> exists a, b = f a.
Proof.
  destruct r as [a rest' | m]; [| discriminate].
  intros [= <- _]. now exists a.
Qed.

Lemma parse_object_has_brace (s : string) (members : list (string * value)) :
  JSON.parse s = Ok (VObj members) -> 1 <= Str.count Str.lbrace s.
Proof.
  unfold JSON.parse.
  replace (2 * String.length s + 2)%nat
    with (S (2 * String.length s + 1)) by lia.
  cbn [JSON.parse_value].
  pose proof (count_skip_ws_le Str.lbrace s) as Hws.
  destruct (JSON.skip_ws s) as [| c r] eqn:Es; [discriminate |].
  destruct (c =? Str.lbrace)%char eqn:Ec.
  { intros _. apply Ascii.eqb_eq in Ec. subst c.
    pose proof (count_nonneg Str.lbrace r).
    cbn [Str.count] in Hws. rewrite Ascii.eqb_refl in Hws. lia. }
  intros H.
  assert (Hv : exists rest,
            (if (c =? Str.lbracket)%char then
               match JSON.skip_ws r with
               | EmptyString => JSON.PErr "Unexpected end of JSON input"
               | String d r' as elements =>
                   if (d =? Str.rbracket)%char then JSON.POk (VArr []) r'
                   else JSON.pmap VArr
                          (JSON.parse_elements (2 * String.length s + 1) elements)
               end
             else if (c =? Str.dquote)%char then JSON.pmap VStr (JSON.parse_chars r)
             else if (c =? "t")%char then JSON.expect "true" (VBool true) (String c r)
             else if (c =? "f")%char then JSON.expect "false" (VBool false) (String c r)
             else if (c =? "n")%char then JSON.expect "null" VNull (String c r)
             else JSON.pmap (fun q => VNum (Fin q)) (JSON.parse_number (String c r)))
            = JSON.POk (VObj members) rest).
  { destruct (if (c =? Str.lbracket)%char then _ else _) as [v rest | m];
      [| discriminate H].
    destruct (Str.is_empty (JSON.skip_ws rest)); [| discriminate H].
    injection H as ->. now exists rest. }
  clear H. destruct Hv as [rest Hv]. exfalso.
  destruct (c =? Str.lbracket)%char.
  { destruct (JSON.skip_ws r) as [| d r']; [discriminate Hv |].
    destruct (d =? Str.rbracket)%char; [discriminate Hv |].
    apply pmap_value in Hv as [a Ha]. discriminate Ha. }
  destruct (c =? Str.dquote)%char.
  { apply pmap_value in Hv as [a Ha]. discriminate Ha. }
  destruct (c =? "t")%char; [apply expect_value in Hv; discriminate Hv |].
  destruct (c =? "f")%char; [apply expect_value in Hv; discriminate Hv |].
  destruct (c =? "n")%char; [apply expect_value in Hv; discriminate Hv |].
  apply pmap_value in Hv as [a Ha]. discriminate Ha.
Qed.

Lemma parse_and_log_inv (s : string) (v : value) :
  parse_and_log s = Ok v -> JSON.parse s = Ok v.
Proof.
  unfold parse_and_log. destruct (JSON.parse s) as [p | e]; [| discriminate].
  cbn [bind]. destruct (Object_keys p); [| discriminate].
  cbn [bind]. now intros [= ->].
Qed.

Lemma validateAndParseJson_object (s : string)
    (members : list (string * value)) :
  validateAndParseJson s = Ok (VObj members) -> 1 <= Str.count Str.lbrace s.
Proof.
  unfold validateAndParseJson.
  destruct (parse_and_log s) as [v | d] eqn:E1; cbn [try_catch].
  - intros [= ->]. apply parse_and_log_inv in E1.
    now apply (parse_object_has_brace s members).
  - destruct (parse_and_log (fixJson s)) as [v | d'] eqn:E2; cbn [try_catch];
      [| discriminate].
    intros [= ->]. apply parse_and_log_inv in E2.
    apply parse_object_has_brace in E2.
    pose proof (count_fixJson_le Str.lbrace s ltac:(discriminate)
                  ltac:(discriminate)). lia.
Qed.

(** An answer without an opening brace never yields a plan: whatever else
    it holds, the generator answers with the fallback. *)
Theorem generateDietPlan_needs_object (w : World) (request : DietPlanRequest)
    (text : string) :
  returned (makeRequest w) = Ok text ->
  Str.count Str.lbrace text = 0 ->
  generateDietPlan w request = useFallback (dailyCalories_of request) request.
Proof.
  intros Hreq Hnone.
  destruct (generateDietPlan_cases w request)
    as [(text' & plan & Hreq' & Hparse & Hvalid & _) | Hfb]; [| exact Hfb].
  exfalso. rewrite Hreq in Hreq'. injection Hreq' as <-.
  apply validateDietPlanStructure_spec in Hvalid as (days & Hget & _).
  apply get_some_object in Hget as [members ->].
  apply validateAndParseJson_object in Hparse.
  pose proof (count_clean_le Str.lbrace text). lia.
Qed.

Lemma generateDietPlan_needs_object_witness :
  generateDietPlan (answering "[1, 2]") example_request =
    useFallback (dailyCalories_of example_request) example_request.
Proof.
  apply (generateDietPlan_needs_object _ _ "[1, 2]").
  - vm_compute. reflexivity.
  - reflexivity.
Defined.

(** ** Cleaning *)













(** *** No double slash survives the cleaning *)

Lemma includes_dslash_cons (c : ascii) (r : string) :
  Str.includes (String c r) "//" =
  ((c =? Str.slash)%char && starts_slash r) || Str.includes r "//".
Proof.
  cbn [Str.includes]. f_equal.
  cbn [String.prefix]. unfold Str.slash.
  destruct (ascii_dec "/" c) as [<- | Hc].
  - cbn [Ascii.eqb Bool.eqb andb]. destruct r as [| d r']; [reflexivity |].
    cbn [String.prefix starts_slash].
    destruct (ascii_dec "/" d) as [<- | Hd].
    + destruct r'; reflexivity.
    + symmetry. apply Ascii.eqb_neq. intros ->. now apply Hd.
  - replace (c =? "/")%char with false; [reflexivity |].
    symmetry. apply Ascii.eqb_neq. intros ->. now apply Hc.
Qed.

Lemma includes_dslash_nil : Str.includes EmptyString "//" = false.
Proof. reflexivity. Qed.

Lemma strip_line_comments_skipping (s : string) :
  starts_slash (strip_line_comments true s) = false.
Proof.
  induction s as [| c r IH]; [reflexivity |].
  cbn [strip_line_comments].
  destruct (Str.is_line_terminator c) eqn:E; [| exact IH].
  cbn [starts_slash]. apply Ascii.eqb_neq. intros ->. discriminate E.
Qed.

Lemma strip_line_comments_clean (s : string) :
  (forall b, Str.includes (strip_line_comments b s) "//" = false) /\
  (starts_slash (strip_line_comments false s) = true -> starts_slash s = true).
Proof.
  induction s as [| c r [IHinc IHhead]].
  - split; [intros []; reflexivity | intros H; exact H].
  - assert (Hkeep :
      Str.includes (String c (strip_line_comments false r)) "//" = false /\
      (starts_slash (String c (strip_line_comments false r)) = true ->
       starts_slash (String c r) = true) \/
      exists r', r = String Str.slash r' /\ (c =? Str.slash)%char = true) .
    { destruct (c =? Str.slash)%char eqn:Ec.
      - destruct r as [| d r'].
        + left. split; [| intros _; cbn; exact Ec].
          rewrite includes_dslash_cons. cbn [strip_line_comments starts_slash].
          now rewrite andb_false_r.
        + destruct (d =? Str.slash)%char eqn:Ed.
          * right. apply Ascii.eqb_eq in Ed. subst d. now exists r'.
          * left. split; [| intros _; cbn; exact Ec].
            rewrite includes_dslash_cons, (IHinc false), Ec.
            destruct (starts_slash (strip_line_comments false (String d r')))
              eqn:Eh; [| reflexivity].
            specialize (IHhead eq_refl). cbn in IHhead. congruence.
      - left. split; [| cbn; congruence].
        rewrite includes_dslash_cons, (IHinc false), Ec. reflexivity. }
    split.
    + intros [|]; cbn [strip_line_comments].
      * destruct (Str.is_line_terminator c) eqn:E; [| apply IHinc].
        rewrite includes_dslash_cons, (IHinc false).
        replace (c =? Str.slash)%char with false; [reflexivity |].
        symmetry. apply Ascii.eqb_neq. intros ->. discriminate E.
      * destruct r as [| d r'];
          [rewrite includes_dslash_cons; cbn [starts_slash];
           now rewrite andb_false_r |].
        destruct ((c =? Str.slash)%char && (d =? Str.slash)%char) eqn:E.
        -- apply andb_true_iff in E as [_ Ed]. apply Ascii.eqb_eq in Ed.
           subst d. apply (IHinc true).
        -- destruct Hkeep as [[H _] | (r'' & Hr & Hc)]; [exact H |].
           injection Hr as -> <-. rewrite Hc in E. discriminate E.
    + cbn [strip_line_comments].
      destruct r as [| d r']; [intros H; exact H |].
      destruct ((c =? Str.slash)%char && (d =? Str.slash)%char) eqn:E.
      * apply andb_true_iff in E as [_ Ed]. apply Ascii.eqb_eq in Ed. subst d.
        intros H.
        pose proof (strip_line_comments_skipping (String Str.slash r')) as Hs.
        cbn [strip_line_comments] in Hs.
        change (Str.is_line_terminator Str.slash) with false in Hs.
        cbv iota in Hs. congruence.
      * intros H. exact H.
Qed.

Lemma space_not_slash_comma (x : ascii) :
  Str.is_space x = true ->
  (x =? Str.slash)%char = false /\ (x =? Str.comma)%char = false.
Proof.
  unfold Str.is_space. intros H.
  repeat (apply orb_true_iff in H as [H | H]);
    apply Ascii.eqb_eq in H; subst x; split; reflexivity.
Qed.

Lemma before_closer_head (r : string) :
  before_closer r = true -> starts_slash (strip_trailing_commas r) = false.
Proof.
  unfold before_closer. destruct r as [| x r']; [discriminate |].
  cbn [Str.trimStart]. destruct (Str.is_space x) eqn:Ex.
  - intros _. destruct (space_not_slash_comma x Ex) as [Hs Hc].
    cbn [strip_trailing_commas]. rewrite Hc. cbn [andb starts_slash]. exact Hs.
  - intros H. apply orb_true_iff in H as [H | H];
      apply Ascii.eqb_eq in H; subst x; reflexivity.
Qed.

Lemma strip_trailing_commas_clean (s : string) :
  Str.includes s "//" = false ->
  Str.includes (strip_trailing_commas s) "//" = false /\
  (starts_slash (strip_trailing_commas s) = true -> starts_slash s = true).
Proof.
  induction s as [| c r IH]; intros Hs; [split; [reflexivity | trivial] |].
  rewrite includes_dslash_cons in Hs.
  apply orb_false_iff in Hs as [Hhead Hr].
  destruct (IH Hr) as [IHinc IHhead].
  cbn [strip_trailing_commas].
  destruct ((c =? Str.comma)%char && before_closer r) eqn:E.
  - apply andb_true_iff in E as [_ Hb].
    split; [exact IHinc |].
    rewrite (before_closer_head r Hb). discriminate.
  - split; [| intros H; exact H].
    rewrite includes_dslash_cons, IHinc.
    destruct (c =? Str.slash)%char; [| reflexivity].
    destruct (starts_slash (strip_trailing_commas r)) eqn:Eh; [| reflexivity].
    rewrite (IHhead eq_refl) in Hhead. discriminate Hhead.
Qed.

Lemma trimStart_clean (s : string) :
  Str.includes s "//" = false -> Str.includes (Str.trimStart s) "//" = false.
Proof.
  induction s as [| c r IH]; intros Hs; [reflexivity |].
  cbn [Str.trimStart]. destruct (Str.is_space c); [| exact Hs].
  apply IH. rewrite includes_dslash_cons in Hs.
  now apply orb_false_iff in Hs as [_ Hr].
Qed.

Lemma trimEnd_clean (s : string) :
  Str.includes s "//" = false ->
  Str.includes (Str.trimEnd s) "//" = false /\
  (starts_slash (Str.trimEnd s) = true -> starts_slash s = true).
Proof.
  induction s as [| c r IH]; intros Hs; [split; [reflexivity | trivial] |].
  rewrite includes_dslash_cons in Hs.
  apply orb_false_iff in Hs as [Hhead Hr].
  destruct (IH Hr) as [IHinc IHhead].
  cbn [Str.trimEnd].
  destruct (Str.is_empty (Str.trimEnd r) && Str.is_space c).
  - split; [reflexivity | discriminate].
  - split; [| intros H; exact H].
    rewrite includes_dslash_cons, IHinc.
    destruct (c =? Str.slash)%char; [| reflexivity].
    destruct (starts_slash (Str.trimEnd r)) eqn:Eh; [| reflexivity].
    rewrite (IHhead eq_refl) in Hhead. discriminate Hhead.
Qed.

(** The cleaned text never holds two slashes in a row: the removal of
    line comments does not look at string literals, so an answer with a
    link in one of its strings does not come through unchanged. *)
Theorem cleanJsonResponse_no_double_slash (response : string) :
  Str.includes (cleanJsonResponse response) "//" = false /\
  (Str.includes response "//" = true -> cleanJsonResponse response <> response).
Proof.
  assert (H : Str.includes (cleanJsonResponse response) "//" = false).
  { unfold cleanJsonResponse. cbn zeta. unfold Str.trim.
    apply trimStart_clean, trimEnd_clean, strip_trailing_commas_clean.
    apply strip_line_comments_clean. }
  split; [exact H |].
  intros Hr Heq. rewrite Heq in H. congruence.
Qed.

Lemma cleanJsonResponse_no_double_slash_witness :
  cleanJsonResponse linked_example <> linked_example /\
  cleanJsonResponse linked_example
    = "{" ++ quoted "source" ++ ": " ++ String Str.dquote "https:".
Proof.
  split.
  - apply (proj2 (cleanJsonResponse_no_double_slash linked_example)).
    reflexivity.
  - vm_compute. reflexivity.
Defined.

(** ** More on the caloric model *)

Lemma of_Z_inj (a b : Z) : Num.of_Z a = Num.of_Z b -> a = b.
Proof. unfold Num.of_Z, inject_Z. intros H. injection H. trivial. Qed.

Lemma round_of_Z (n : number) (z : Z) :
  Num.round n = Num.of_Z z -> exists q, n = Fin q /\ Num.round_Q q = z.
Proof.
  destruct n as [q | | s]; cbn [Num.round]; intros H; try discriminate H.
  exists q. split; [reflexivity | apply of_Z_inj, H].
Qed.

Lemma round_Q_le (x y : Q) : (x <= y)%Q -> Num.round_Q x <= Num.round_Q y.
Proof.
  intros Hxy. unfold Num.round_Q. apply Qfloor_resp_le.
  apply Qplus_le_compat; [exact Hxy | apply Qle_refl].
Qed.

(** The goals order the targets: for one basal rate and one activity
    level, the target for weight loss is never above the maintenance
    target and the one for muscle gain never below it; every goal other
    than these two gets the maintenance target. *)
Theorem calculateDailyCalories_goal_order (bmr : Q) (activityLevel : string)
    (loss z gain : Z) :
  calculateDailyCalories bmr activityLevel "weight_loss" = Num.of_Z loss ->
  calculateDailyCalories bmr activityLevel "maintenance" = Num.of_Z z ->
  calculateDailyCalories bmr activityLevel "muscle_gain" = Num.of_Z gain ->
  loss <= z <= gain /\
  (forall goal, goal <> "weight_loss" -> goal <> "muscle_gain" ->
     calculateDailyCalories bmr activityLevel goal = Num.of_Z z).
Proof.
  unfold calculateDailyCalories. cbn zeta.
  change (String.eqb "maintenance" "weight_loss") with false.
  change (String.eqb "maintenance" "muscle_gain") with false.
  change (String.eqb "weight_loss" "weight_loss") with true.
  change (String.eqb "muscle_gain" "weight_loss") with false.
  change (String.eqb "muscle_gain" "muscle_gain") with true.
  cbv iota.
  set (tdee := match activityMultiplier activityLevel with
               | Some (Own m) => Fin (bmr * m)
               | Some Inherited => NaN
               | None => Fin (bmr * (6 # 5))
               end).
  intros Hloss Hz Hgain.
  destruct (round_of_Z _ _ Hz) as (q & Hq & Hround). rewrite Hq in *.
  cbn [Num.sub Num.add Num.opp Num.of_Z Num.round] in Hloss, Hgain.
  apply of_Z_inj in Hloss, Hgain. subst loss gain z.
  split; [split |].
  - apply round_Q_le.
    rewrite <- (Qplus_0_r q) at 2.
    apply Qplus_le_compat; [apply Qle_refl | discriminate].
  - apply round_Q_le.
    rewrite <- (Qplus_0_r q) at 1.
    apply Qplus_le_compat; [apply Qle_refl | discriminate].
  - intros goal H1 H2.
    apply String.eqb_neq in H1, H2. rewrite H1, H2. reflexivity.
Qed.

Lemma calculateDailyCalories_goal_order_witness :
  calculateDailyCalories 1780 "sedentary" "weight_loss" = Num.of_Z 1636 /\
  calculateDailyCalories 1780 "sedentary" "maintenance" = Num.of_Z 2136 /\
  calculateDailyCalories 1780 "sedentary" "muscle_gain" = Num.of_Z 2436 /\
  1636 <= 2136 <= 2436.
Proof.
  split; [reflexivity |]. split; [reflexivity |]. split; [reflexivity |].
  exact (proj1 (calculateDailyCalories_goal_order 1780 "sedentary"
                  1636 2136 2436 eq_refl eq_refl eq_refl)).
Defined.

(** A higher basal rate never lowers the target: for one activity level
    and one goal, the target grows with the rate. *)
Theorem calculateDailyCalories_monotone (bmr bmr' : Q)
    (activityLevel goal : string) (z z' : Z) :
  (bmr <= bmr')%Q ->
  calculateDailyCalories bmr activityLevel goal = Num.of_Z z ->
  calculateDailyCalories bmr' activityLevel goal = Num.of_Z z' ->
  z <= z'.
Proof.
  intros Hle.
  unfold calculateDailyCalories. cbn zeta.
  assert (Hm : forall m : Q, (0 <= m)%Q -> (bmr * m <= bmr' * m)%Q).
  { intros m Hpos. apply Qmult_le_compat_r; assumption. }
  assert (Hround : forall x y : Q, (x <= y)%Q -> Num.round_Q x <= Num.round_Q y).
  { intros x y Hxy. unfold Num.round_Q. apply Qfloor_resp_le.
    apply Qplus_le_compat; [exact Hxy | apply Qle_refl]. }
  assert (Hpos : forall m, activityMultiplier activityLevel = Some (Own m) ->
                           (0 <= m)%Q).
  { intros m. unfold activityMultiplier, activityMultipliers. cbn [Js.lookup].
    repeat match goal with
           | |- context [String.eqb ?a ?b] => destruct (String.eqb a b)
           end;
    intros E;
    first [ injection E as <-; discriminate
          | destruct (existsb _ _); discriminate E ]. }
  destruct (activityMultiplier activityLevel) as [[m |] |] eqn:Em.
  - specialize (Hm m (Hpos m eq_refl)).
    destruct (String.eqb goal "weight_loss");
      [| destruct (String.eqb goal "muscle_gain")];
      cbn [Num.sub Num.add Num.opp Num.of_Z Num.round];
      intros H1 H2; apply of_Z_inj in H1, H2; subst z z'; apply Hround;
      try apply Qplus_le_compat; try apply Qle_refl; exact Hm.
  - destruct (String.eqb goal "weight_loss");
      [| destruct (String.eqb goal "muscle_gain")];
      cbn; intros H1; discriminate H1.
  - specialize (Hm (6 # 5) ltac:(discriminate)).
    destruct (String.eqb goal "weight_loss");
      [| destruct (String.eqb goal "muscle_gain")];
      cbn [Num.sub Num.add Num.opp Num.of_Z Num.round];
      intros H1 H2; apply of_Z_inj in H1, H2; subst z z'; apply Hround;
      try apply Qplus_le_compat; try apply Qle_refl; exact Hm.
Qed.

Lemma calculateDailyCalories_monotone_witness :
  calculateDailyCalories 1780 "sedentary" "maintenance" = Num.of_Z 2136 /\
  calculateDailyCalories 1830 "sedentary" "maintenance" = Num.of_Z 2196 /\
  2136 <= 2196.
Proof.
  split; [reflexivity |]. split; [reflexivity |].
  apply (calculateDailyCalories_monotone 1780 1830 "sedentary" "maintenance");
    [discriminate | reflexivity | reflexivity].
Defined.

(** ** More on the fallback generator *)

Lemma fallbackPlan_week (d : number) (p : Preferences) (u : UserProfile) :
  days (fallbackPlan d p u) =
    [fallbackDay d p "Monday" 0; fallbackDay d p "Tuesday" 1;
     fallbackDay d p "Wednesday" 2; fallbackDay d p "Thursday" 3;
     fallbackDay d p "Friday" 4; fallbackDay d p "Saturday" 5;
     fallbackDay d p "Sunday" 6].
Proof. reflexivity. Qed.

Lemma fallbackDay_meal (d : number) (p : Preferences) (dayName : string)
    (i : Z) (meal : GeneratedMeal) :
  In meal (meals (fallbackDay d p dayName i)) ->
  exists t,
    In t recognized /\
    meal = fallbackMeal
             (Num.round (Num.div d (Num.of_Z (mealsPerDay p)))) p i t.
Proof.
  cbn [meals fallbackDay]. intros H.
  apply in_map_iff in H as [t [<- Ht]].
  exists t. split; [now apply (mealTypes_recognized p) | reflexivity].
Qed.

Lemma fallbackPlan_valid_slice (d : number) (p : Preferences) (u : UserProfile) :
  slice0 (mealTypes p) (mealsPerDay p) <> [] ->
  validateDietPlanStructure (ToValue.plan (fallbackPlan d p u)) = true.
Proof.
  intros Hne.
  apply (validateDietPlanStructure_accepts _
           (map ToValue.day (days (fallbackPlan d p u))));
    [reflexivity | reflexivity |].
  intros dv Hdv. apply in_map_iff in Hdv as [day [<- Hday]].
  destruct (fallbackPlan_days _ _ _ _ Hday) as [dayName [dayIndex [Hi ->]]].
  apply (valid_day_accepts _
           (map ToValue.meal (meals (fallbackDay d p dayName dayIndex))));
    [reflexivity | |].
  - cbn [meals fallbackDay].
    destruct (slice0 (mealTypes p) (mealsPerDay p));
      [congruence | discriminate].
  - intros mv Hmv. apply in_map_iff in Hmv as [meal [<- Hmeal]].
    destruct (fallbackDay_meal _ _ _ _ _ Hmeal) as [t [Ht ->]].
    apply has_required_fields_valid, fallbackMeal_required; assumption.
Qed.

Lemma day_meals_day (day : DayPlan) :
  day_meals (ToValue.day day) = map ToValue.meal (meals day).
Proof. reflexivity. Qed.

Lemma fallbackPlan_invalid_slice (d : number) (p : Preferences) (u : UserProfile) :
  slice0 (mealTypes p) (mealsPerDay p) = [] ->
  validateDietPlanStructure (ToValue.plan (fallbackPlan d p u)) = false.
Proof.
  intros Hnil. apply not_true_is_false. intros Hv.
  apply validateDietPlanStructure_inv in Hv as [_ Hall].
  rewrite forallb_forall in Hall.
  specialize (Hall (ToValue.day (fallbackDay d p "Monday" 0))
                   (or_introl eq_refl)).
  apply valid_day_inv in Hall as [Hne _]. apply Hne.
  rewrite day_meals_day. cbn [meals fallbackDay]. rewrite Hnil. reflexivity.
Qed.

Lemma slice0_mealTypes_empty (p : Preferences) :
  slice0 (mealTypes p) (mealsPerDay p) = [] <->
  mealsPerDay p = 0 \/ mealsPerDay p <= -3.
Proof.
  unfold slice0, mealTypes.
  destruct (Z.ltb_spec 3 (mealsPerDay p)) as [H3 | H3];
  destruct (Z.ltb_spec 4 (mealsPerDay p)) as [H4 | H4];
  destruct (Z.ltb_spec (mealsPerDay p) 0) as [H0 | H0];
  cbn [app List.length]; try lia.
  - replace (Z.to_nat (Z.min (mealsPerDay p) (Z.of_nat 5))) with 5%nat by lia.
    split; [discriminate | lia].
  - replace (Z.to_nat (Z.min (mealsPerDay p) (Z.of_nat 4))) with 4%nat by lia.
    split; [discriminate | lia].
  - destruct (Z.to_nat (Z.max (Z.of_nat 3 + mealsPerDay p) 0)) eqn:E.
    + split; [lia | reflexivity].
    + split; [discriminate | lia].
  - destruct (Z.to_nat (Z.min (mealsPerDay p) (Z.of_nat 3))) eqn:E.
    + split; [lia | reflexivity].
    + split; [discriminate | lia].
Qed.

(** The fallback generator throws exactly when no meal or at most minus
    three meals a day are asked for; for every other number of meals it
    returns the plan it built, whatever the calorie target. *)
Theorem getComprehensiveFallbackDietPlan_domain (dailyCalories : number)
    (preferences : Preferences) (userProfile : UserProfile) :
  (mealsPerDay preferences = 0 \/ mealsPerDay preferences <= -3 ->
   getComprehensiveFallbackDietPlan dailyCalories preferences userProfile =
     Throw (Error "Fallback diet plan generation failed - this should never happen")) /\
  (mealsPerDay preferences <> 0 -> -3 < mealsPerDay preferences ->
   getComprehensiveFallbackDietPlan dailyCalories preferences userProfile =
     Ok (fallbackPlan dailyCalories preferences userProfile)).
Proof.
  unfold getComprehensiveFallbackDietPlan. cbn zeta. split.
  - intros H. apply slice0_mealTypes_empty in H.
    rewrite (fallbackPlan_invalid_slice _ _ _ H). reflexivity.
  - intros H0 H3.
    rewrite fallbackPlan_valid_slice; [reflexivity |].
    intros H. apply slice0_mealTypes_empty in H. lia.
Qed.

Lemma getComprehensiveFallbackDietPlan_domain_witness :
  getComprehensiveFallbackDietPlan NaN minus_three_meals example_profile =
    Throw (Error "Fallback diet plan generation failed - this should never happen") /\
  getComprehensiveFallbackDietPlan NaN minus_one_meal example_profile =
    Ok (fallbackPlan NaN minus_one_meal example_profile).
Proof.
  split.
  - apply (proj1 (getComprehensiveFallbackDietPlan_domain
                    NaN minus_three_meals example_profile)).
    right. cbn. lia.
  - apply (proj2 (getComprehensiveFallbackDietPlan_domain
                    NaN minus_one_meal example_profile)); cbn; lia.
Defined.

(** A breakfast, lunch or dinner recipe is served once a week: on two
    different days of the fallback plan, the meals of the same of these
    three types carry different names. *)
Theorem fallbackPlan_main_meals_vary (dailyCalories : number)
    (preferences : Preferences) (userProfile : UserProfile)
    (day1 day2 : DayPlan) (meal1 meal2 : GeneratedMeal) :
  In day1 (days (fallbackPlan dailyCalories preferences userProfile)) ->
  In day2 (days (fallbackPlan dailyCalories preferences userProfile)) ->
  In meal1 (meals day1) -> In meal2 (meals day2) ->
  mealType meal1 = mealType meal2 ->
  mealType meal1 <> "snack" ->
  day1 <> day2 ->
  name meal1 <> name meal2.
Proof.
  rewrite fallbackPlan_week. cbn [In].
  intros Hd1 Hd2 Hm1 Hm2 Htype Hmain Hdays Hname. apply Hdays. clear Hdays.
  assert (Hmeals : forall dayName i meal,
            In meal (meals (fallbackDay dailyCalories preferences dayName i)) ->
            exists t, (t = "breakfast" \/ t = "lunch" \/ t = "dinner" \/ t = "snack") /\
                      mealType meal = t /\
                      name meal =
                        name (fallbackMeal NaN preferences i t)).
  { intros dayName i meal H.
    destruct (fallbackDay_meal _ _ _ _ _ H) as [t [Ht ->]].
    exists t. split; [| split; reflexivity].
    cbn in Ht. intuition congruence. }
  assert (H1 : exists dayName i,
            day1 = fallbackDay dailyCalories preferences dayName i /\
            In (dayName, i) [("Monday", 0); ("Tuesday", 1); ("Wednesday", 2);
                             ("Thursday", 3); ("Friday", 4); ("Saturday", 5);
                             ("Sunday", 6)]).
  { cbn [In]. intuition (subst; eauto 12). }
  assert (H2 : exists dayName i,
            day2 = fallbackDay dailyCalories preferences dayName i /\
            In (dayName, i) [("Monday", 0); ("Tuesday", 1); ("Wednesday", 2);
                             ("Thursday", 3); ("Friday", 4); ("Saturday", 5);
                             ("Sunday", 6)]).
  { cbn [In]. intuition (subst; eauto 12). }
  clear Hd1 Hd2.
  destruct H1 as (n1 & i1 & -> & Hi1). destruct H2 as (n2 & i2 & -> & Hi2).
  destruct (Hmeals _ _ _ Hm1) as (t1 & Ht1 & Hty1 & Hn1).
  destruct (Hmeals _ _ _ Hm2) as (t2 & Ht2 & Hty2 & Hn2).
  rewrite Hn1, Hn2 in Hname. rewrite Hty1 in Htype, Hmain. rewrite Hty2 in Htype.
  subst t2. clear Hmeals Hm1 Hm2 Hn1 Hn2 Hty1 Hty2 Ht2.
  cbn [In] in Hi1, Hi2.
  destruct Ht1 as [-> | [-> | [-> | ->]]]; [| | | congruence];
    repeat match goal with
           | H : _ \/ _ |- _ => destruct H as [H | H]
           | H : (_, _) = (_, _) |- _ => injection H as <- <-
           | H : False |- _ => destruct H
           end;
    first [ reflexivity | vm_compute in Hname; discriminate Hname ].
Qed.

Lemma fallbackPlan_main_meals_vary_witness :
  name (fallbackMeal (Num.of_Z 712) three_meals 0 "lunch") <>
  name (fallbackMeal (Num.of_Z 712) three_meals 3 "lunch").
Proof.
  apply (fallbackPlan_main_meals_vary (Num.of_Z 2136) three_meals
           example_profile
           (fallbackDay (Num.of_Z 2136) three_meals "Monday" 0)
           (fallbackDay (Num.of_Z 2136) three_meals "Thursday" 3)).
  - rewrite fallbackPlan_week. cbn [In]. tauto.
  - rewrite fallbackPlan_week. cbn [In]. tauto.
  - right. left. reflexivity.
  - right. left. reflexivity.
  - reflexivity.
  - discriminate.
  - intros H. apply (f_equal dayNumber) in H. discriminate H.
Defined.

(** The snacks have five recipes for seven days: when a snack is asked
    for, the snack of Monday comes back on Saturday, the same recipe. *)
Theorem fallbackPlan_snacks_repeat (dailyCalories : number)
    (preferences : Preferences) (userProfile : UserProfile) :
  4 <= mealsPerDay preferences ->
  exists monday saturday snack1 snack2,
    nth_error (days (fallbackPlan dailyCalories preferences userProfile)) 0
      = Some monday /\
    nth_error (days (fallbackPlan dailyCalories preferences userProfile)) 5
      = Some saturday /\
    nth_error (meals monday) 3 = Some snack1 /\
    nth_error (meals saturday) 3 = Some snack2 /\
    mealType snack1 = "snack" /\
    recipe_of snack1 = recipe_of snack2.
Proof.
  intros Hn.
  exists (fallbackDay dailyCalories preferences "Monday" 0),
         (fallbackDay dailyCalories preferences "Saturday" 5).
  cbn [meals fallbackDay].
  rewrite mealTypes_slate by lia.
  assert (E : Z.to_nat (Z.min (mealsPerDay preferences) 5) = 4%nat \/
              Z.to_nat (Z.min (mealsPerDay preferences) 5) = 5%nat) by lia.
  destruct E as [-> | ->]; cbn [firstn slate map nth_error];
    do 2 eexists; repeat split; vm_compute; reflexivity.
Qed.

Lemma fallbackPlan_snacks_repeat_witness :
  exists monday saturday snack1 snack2,
    nth_error (days (fallbackPlan (Num.of_Z 2136) four_meals example_profile)) 0
      = Some monday /\
    nth_error (days (fallbackPlan (Num.of_Z 2136) four_meals example_profile)) 5
      = Some saturday /\
    nth_error (meals monday) 3 = Some snack1 /\
    nth_error (meals saturday) 3 = Some snack2 /\
    mealType snack1 = "snack" /\
    recipe_of snack1 = recipe_of snack2.
Proof.
  apply (fallbackPlan_snacks_repeat (Num.of_Z 2136) four_meals example_profile).
  cbn. lia.
Defined.



(** The recipes of the fallback plan depend on the number of meals a day
    and on nothing else: two users who ask for the same number get the
    same names, descriptions, ingredients and instructions, whatever
    their diet type, restrictions, allergies or calorie target. *)
Theorem fallbackPlan_recipes_fixed (dailyCalories dailyCalories' : number)
    (preferences preferences' : Preferences)
    (userProfile userProfile' : UserProfile) :
  mealsPerDay preferences = mealsPerDay preferences' ->
  map (fun day => map recipe_of (meals day))
      (days (fallbackPlan dailyCalories preferences userProfile)) =
  map (fun day => map recipe_of (meals day))
      (days (fallbackPlan dailyCalories' preferences' userProfile')).
Proof.
  intros Hn. rewrite !fallbackPlan_week.
  cbn [map meals fallbackDay]. rewrite !map_map.
  unfold mealTypes. rewrite Hn. reflexivity.
Qed.

Lemma fallbackPlan_recipes_fixed_witness :
  map (fun day => map recipe_of (meals day))
      (days (fallbackPlan (Num.of_Z 1500) vegan_three_meals example_profile)) =
  map (fun day => map recipe_of (meals day))
      (days (fallbackPlan (Num.of_Z 2136) three_meals example_profile)) /\
  In (mkIngredient "grilled chicken breast" "4" "oz")
     (ingredients (fallbackMeal (Num.of_Z 500) vegan_three_meals 1 "lunch")).
Proof.
  split.
  - apply fallbackPlan_recipes_fixed. reflexivity.
  - vm_compute. tauto.
Defined.

(** ** The numbers of the fallback plan *)

Lemma round_Q_frac (x : Q) (a : Z) (b : positive) :
  (x + (1 # 2) == a # b)%Q -> Num.round_Q x = a / Zpos b.
Proof.
  intros H. unfold Num.round_Q. rewrite (Qfloor_comp _ _ H). reflexivity.
Qed.


(** The macros of a fallback meal account for its calories: with 4 kcal
    for a gram of protein or carbohydrate and 9 for a gram of fat, they
    add up to the calories of the meal, 8 kcal more or less. *)
Theorem fallbackMeal_macros (z : Z) (preferences : Preferences)
    (dayIndex : Z) (mealType : string) :
  exists p c f : Z,
    protein (fallbackMeal (Num.of_Z z) preferences dayIndex mealType) = Num.of_Z p /\
    carbs (fallbackMeal (Num.of_Z z) preferences dayIndex mealType) = Num.of_Z c /\
    fat (fallbackMeal (Num.of_Z z) preferences dayIndex mealType) = Num.of_Z f /\
    z - 8 <= 4 * p + 4 * c + 9 * f <= z + 8.
Proof.
  exists ((z + 8) / 16), ((9 * z + 40) / 80), ((z + 15) / 30).
  assert (Hp : Num.round_Q (inject_Z z * (1 # 4) / inject_Z 4) = (z + 8) / 16).
  { apply (round_Q_frac _ (z + 8) 16).
    unfold Qeq, Qdiv, Qmult, Qplus, Qinv, inject_Z. cbn -[Z.mul Z.add]. lia. }
  assert (Hc : Num.round_Q (inject_Z z * (9 # 20) / inject_Z 4)
               = (9 * z + 40) / 80).
  { apply (round_Q_frac _ (9 * z + 40) 80).
    unfold Qeq, Qdiv, Qmult, Qplus, Qinv, inject_Z. cbn -[Z.mul Z.add]. lia. }
  assert (Hf : Num.round_Q (inject_Z z * (3 # 10) / inject_Z 9) = (z + 15) / 30).
  { apply (round_Q_frac _ (z + 15) 30).
    unfold Qeq, Qdiv, Qmult, Qplus, Qinv, inject_Z. cbn -[Z.mul Z.add]. lia. }
  repeat split.
  - change (protein (fallbackMeal (Num.of_Z z) preferences dayIndex mealType))
      with (Num.of_Z (Num.round_Q (inject_Z z * (1 # 4) / inject_Z 4))).
    now rewrite Hp.
  - change (carbs (fallbackMeal (Num.of_Z z) preferences dayIndex mealType))
      with (Num.of_Z (Num.round_Q (inject_Z z * (9 # 20) / inject_Z 4))).
    now rewrite Hc.
  - change (fat (fallbackMeal (Num.of_Z z) preferences dayIndex mealType))
      with (Num.of_Z (Num.round_Q (inject_Z z * (3 # 10) / inject_Z 9))).
    now rewrite Hf.
  - Z.div_mod_to_equations. lia.
  - Z.div_mod_to_equations. lia.
Qed.



(** ** Recipes *)

Lemma validateAndParseJson_parsed (s : string) (v : value) :
  JSON.parse s = Ok v -> v <> VNull -> validateAndParseJson s = Ok v.
Proof.
  intros Hparse Hv. unfold validateAndParseJson, parse_and_log.
  rewrite Hparse. cbn [bind].
  destruct v; try reflexivity. congruence.
Qed.

(** The two recipe generators have no fallback and hide the cause of a
    failure: whatever goes wrong, the missing key included, the caller
    gets the one generic error of the generator; without a key no
    request is sent. *)
Theorem generateRecipe_errors (w : World) :
  (forall e, returned (generateRecipe w) = Throw e ->
     e = Error "Failed to generate recipe") /\
  (forall e, returned (generateRecipeDetails w) = Throw e ->
     e = Error "Failed to generate recipe details") /\
  (key_missing w ->
     generateRecipe w =
       {| returned := Throw (Error "Failed to generate recipe"); fetches := 0 |} /\
     generateRecipeDetails w =
       {| returned := Throw (Error "Failed to generate recipe details");
          fetches := 0 |}).
Proof.
  split; [| split].
  - intros e. unfold generateRecipe. cbn [returned].
    destruct (bind _ _); cbn [try_catch]; intros H; [discriminate H |].
    now injection H as <-.
  - intros e. unfold generateRecipeDetails. cbn [returned].
    destruct (bind _ _); cbn [try_catch]; intros H; [discriminate H |].
    now injection H as <-.
  - intros Hkey.
    assert (Hreq : makeRequest w =
                   {| returned := Throw (Error "API_KEY_MISSING"); fetches := 0 |}).
    { unfold makeRequest, GEMINI_API_KEY.
      destruct Hkey as [-> | [-> | ->]]; reflexivity. }
    unfold generateRecipe, generateRecipeDetails. rewrite Hreq.
    split; reflexivity.
Qed.

Lemma generateRecipe_errors_witness :
  generateRecipe placeholder_world =
    {| returned := Throw (Error "Failed to generate recipe"); fetches := 0 |} /\
  generateRecipeDetails placeholder_world =
    {| returned := Throw (Error "Failed to generate recipe details");
       fetches := 0 |}.
Proof.
  apply (proj2 (proj2 (generateRecipe_errors placeholder_world))).
  right. right. reflexivity.
Defined.

(** The recipe generators do not look at what they parsed: any answer
    that cleans to the JSON text of a value other than null is returned
    as the recipe, be it a list or a number. *)
Theorem generateRecipe_unchecked (w : World) (text : string) (v : value) :
  returned (makeRequest w) = Ok text ->
  JSON.parse (cleanJsonResponse text) = Ok v ->
  v <> VNull ->
  returned (generateRecipe w) = Ok v /\
  returned (generateRecipeDetails w) = Ok v.
Proof.
  intros Hreq Hparse Hv.
  unfold generateRecipe, generateRecipeDetails. cbn [returned].
  rewrite Hreq. cbn [bind].
  rewrite (validateAndParseJson_parsed _ _ Hparse Hv). split; reflexivity.
Qed.

Lemma generateRecipe_unchecked_witness :
  returned (generateRecipe (answering "[1, 2]"))
    = Ok (VArr [VNum (Num.of_Z 1); VNum (Num.of_Z 2)]) /\
  returned (generateRecipeDetails (answering "[1, 2]"))
    = Ok (VArr [VNum (Num.of_Z 1); VNum (Num.of_Z 2)]).
Proof.
  apply (generateRecipe_unchecked (answering "[1, 2]")
           "[1, 2]").
  - vm_compute. reflexivity.
  - vm_compute. reflexivity.
  - discriminate.
Defined.

(** ** The page that asks for the plan *)

(** When [generateDietPlan] throws, the page shows its general message:
    the three messages it keeps for a missing key, an unreadable answer
    and an unavailable service are never shown for a failure of the
    generator, which has handled these cases itself. *)
Theorem userFriendlyMessage_of_generateDietPlan (w : World)
    (request : DietPlanRequest) (e : exn) :
  generateDietPlan w request = Throw e ->
  userFriendlyMessage (AnError e) =
    "Failed to generate your diet plan. Please try again or contact support if the issue persists.".
Proof.
  intros H.
  destruct (generateDietPlan_cases w request)
    as [(text & plan & _ & _ & _ & Hok) | Hfb].
  - rewrite Hok in H. discriminate H.
  - rewrite Hfb in H. apply useFallback_throws in H as [-> _].
    vm_compute. reflexivity.
Qed.

Lemma userFriendlyMessage_of_generateDietPlan_witness :
  generateDietPlan placeholder_world no_meals_request = Throw fallback_error /\
  userFriendlyMessage (AnError fallback_error) =
    "Failed to generate your diet plan. Please try again or contact support if the issue persists.".
Proof.
  assert (H : generateDietPlan placeholder_world no_meals_request
              = Throw fallback_error) by (vm_compute; reflexivity).
  split; [exact H |].
  exact (userFriendlyMessage_of_generateDietPlan _ _ _ H).
Defined.

Lemma saveMeal_step (db : Z -> Outcome) (p : Progress) (mealData : value) :
  createdMealsCount (saveMeal db p mealData) = createdMealsCount p + 1 /\
  (0 <= meal_rows p <= recipe_rows p ->
   recipe_rows p <= createdMealsCount p ->
   0 <= meal_rows (saveMeal db p mealData)
     <= recipe_rows (saveMeal db p mealData) /\
   recipe_rows (saveMeal db p mealData)
     <= createdMealsCount (saveMeal db p mealData)) /\
   ((forall n, db n = RecipeFails) ->
    recipe_rows (saveMeal db p mealData) = recipe_rows p /\
    meal_rows (saveMeal db p mealData) = meal_rows p).
Proof.
  unfold saveMeal. split; [| split].
  - destruct (db (createdMealsCount p)); reflexivity.
  - destruct (db (createdMealsCount p)); cbn; lia.
  - intros Hdb. rewrite Hdb. split; reflexivity.
Qed.

Lemma saveMeal_fold (db : Z -> Outcome) (mealList : list value) :
  forall p : Progress,
    createdMealsCount (fold_left (saveMeal db) mealList p)
      = createdMealsCount p + Z.of_nat (List.length mealList) /\
    (0 <= meal_rows p <= recipe_rows p ->
     recipe_rows p <= createdMealsCount p ->
     0 <= meal_rows (fold_left (saveMeal db) mealList p)
       <= recipe_rows (fold_left (saveMeal db) mealList p) /\
     recipe_rows (fold_left (saveMeal db) mealList p)
       <= createdMealsCount (fold_left (saveMeal db) mealList p)) /\
    ((forall n, db n = RecipeFails) ->
     recipe_rows (fold_left (saveMeal db) mealList p) = recipe_rows p /\
     meal_rows (fold_left (saveMeal db) mealList p) = meal_rows p).
Proof.
  induction mealList as [| m l IH]; intros p; cbn [fold_left List.length].
  - repeat split; lia.
  - destruct (saveMeal_step db p m) as (Hc & Hinv & Hfail).
    destruct (IH (saveMeal db p m)) as (Hc' & Hinv' & Hfail').
    split; [| split].
    + rewrite Hc', Hc. lia.
    + intros H1 H2. destruct (Hinv H1 H2) as [H3 H4]. apply Hinv'; assumption.
    + intros Hdb. destruct (Hfail Hdb) as [<- <-]. apply Hfail', Hdb.
Qed.

Lemma saveMeals_fold (db : Z -> Outcome) (dayList : list value) :
  forall (p : Progress) (total : Z),
    let p' :=
      fold_left
        (fun p dayPlan =>
           fold_left (saveMeal db) (Js.items (Js.get dayPlan "meals")) p)
        dayList p in
    let total' :=
      fold_left
        (fun total dayPlan =>
           total + Z.of_nat (List.length (Js.items (Js.get dayPlan "meals"))))
        dayList total in
    createdMealsCount p' - createdMealsCount p = total' - total /\
    (0 <= meal_rows p <= recipe_rows p ->
     recipe_rows p <= createdMealsCount p ->
     0 <= meal_rows p' <= recipe_rows p' /\
     recipe_rows p' <= createdMealsCount p') /\
    ((forall n, db n = RecipeFails) ->
     recipe_rows p' = recipe_rows p /\ meal_rows p' = meal_rows p) /\
    ((forall dayPlan, In dayPlan dayList ->
        Js.items (Js.get dayPlan "meals") <> []) ->
     total + Z.of_nat (List.length dayList) <= total').
Proof.
  induction dayList as [| d l IH]; intros p total; cbn [fold_left List.length].
  - cbn zeta. repeat split; lia.
  - cbn zeta.
    destruct (saveMeal_fold db (Js.items (Js.get d "meals")) p)
      as (Hc & Hinv & Hfail).
    specialize (IH (fold_left (saveMeal db) (Js.items (Js.get d "meals")) p)
                   (total + Z.of_nat (List.length (Js.items (Js.get d "meals"))))).
    cbn zeta in IH. destruct IH as (Hc' & Hinv' & Hfail' & Hlen').
    split; [| split; [| split]].
    + lia.
    + intros H1 H2. destruct (Hinv H1 H2) as [H3 H4]. apply Hinv'; assumption.
    + intros Hdb. destruct (Hfail Hdb) as [<- <-]. apply Hfail', Hdb.
    + intros Hne.
      assert (Hd : Js.items (Js.get d "meals") <> []) by (apply Hne; now left).
      assert (Hl : forall dayPlan, In dayPlan l ->
                     Js.items (Js.get dayPlan "meals") <> [])
        by (intros x Hx; apply Hne; now right).
      specialize (Hlen' Hl).
      destruct (Js.items (Js.get d "meals")); [congruence |].
      cbn [List.length] in *. lia.
Qed.

(** The page counts a meal as created whether or not it was stored: for a
    plan that came through the validator the counter ends at the number of
    meals of the plan, which is 7 or more, whatever the database did; the
    rows stored are never more than the counter says, and when every
    recipe fails nothing is stored at all. *)
Theorem saveMeals_counts_every_meal (db : Z -> Outcome) (generatedPlan : value) :
  validateDietPlanStructure generatedPlan = true ->
  createdMealsCount (saveMeals db generatedPlan)
    = totalMealsToCreate generatedPlan /\
  7 <= totalMealsToCreate generatedPlan /\
  0 <= meal_rows (saveMeals db generatedPlan)
    <= recipe_rows (saveMeals db generatedPlan) /\
  recipe_rows (saveMeals db generatedPlan)
    <= createdMealsCount (saveMeals db generatedPlan) /\
  ((forall n, db n = RecipeFails) ->
   recipe_rows (saveMeals db generatedPlan) = 0 /\
   meal_rows (saveMeals db generatedPlan) = 0).
Proof.
  intros Hvalid.
  destruct (saveMeals_fold db (Js.items (Js.get generatedPlan "meals"))
              {| createdMealsCount := 0; recipe_rows := 0; meal_rows := 0 |} 0)
    as (Hc & Hinv & Hfail & Hlen).
  fold (saveMeals db generatedPlan) in Hc, Hinv, Hfail.
  fold (totalMealsToCreate generatedPlan) in Hc, Hlen.
  cbn [createdMealsCount recipe_rows meal_rows] in Hc, Hinv, Hfail.
  destruct (validateDietPlanStructure_inv _ Hvalid) as [H7 Hdays].
  unfold plan_days in H7, Hdays. rewrite forallb_forall in Hdays.
  split; [lia |]. split; [| split; [| split]].
  - rewrite H7 in Hlen. apply Hlen.
    intros dayPlan Hin. apply Hdays, valid_day_inv in Hin as [Hne _].
    exact Hne.
  - apply Hinv; lia.
  - apply Hinv; lia.
  - exact Hfail.
Qed.

Lemma saveMeals_counts_every_meal_witness :
  createdMealsCount (saveMeals (fun _ => RecipeFails) bare_plan) = 7 /\
  meal_rows (saveMeals (fun _ => RecipeFails) bare_plan) = 0.
Proof.
  destruct (saveMeals_counts_every_meal (fun _ => RecipeFails) bare_plan
              ltac:(reflexivity)) as (Hc & _ & _ & _ & Hfail).
  split; [rewrite Hc; reflexivity |].
  apply Hfail. reflexivity.
Defined.

(** The page names the days by their number, week after week; a day
    number below 1 has no name, unless it is a Monday counted
    backwards. *)
Theorem getDayName_weeks (dayNumber : Z) :
  (1 <= dayNumber ->
   getDayName dayNumber <> None /\
   getDayName (dayNumber + 7) = getDayName dayNumber) /\
  (dayNumber <= 0 -> (dayNumber - 1) mod 7 <> 0 -> getDayName dayNumber = None).
Proof.
  unfold getDayName. cbn zeta. split.
  - intros Hn.
    rewrite !Z.rem_mod_nonneg by lia.
    replace (dayNumber + 7 - 1) with (dayNumber - 1 + 1 * 7) by lia.
    rewrite Z.mod_add by lia.
    pose proof (Z.mod_pos_bound (dayNumber - 1) 7 ltac:(lia)) as Hb.
    destruct (Z.ltb_spec ((dayNumber - 1) mod 7) 0) as [Hneg | _]; [lia |].
    split; [| reflexivity].
    apply nth_error_Some. cbn [List.length]. lia.
  - intros Hn Hmod.
    assert (Hrem : Z.rem (dayNumber - 1) 7 < 0).
    { pose proof (Z.rem_bound_neg_neg (dayNumber - 1) 7) as Hb.
      pose proof (Z.rem_mod_eq_0 (dayNumber - 1) 7 ltac:(lia)) as Hz.
      assert (Z.rem (dayNumber - 1) 7 <> 0) by tauto.
      pose proof (Z.rem_nonpos (dayNumber - 1) 7 ltac:(lia) ltac:(lia)). lia. }
    destruct (Z.ltb_spec (Z.rem (dayNumber - 1) 7) 0); [reflexivity | lia].
Qed.

Lemma getDayName_weeks_witness :
  getDayName 8 = Some "Monday" /\ getDayName 0 = None.
Proof.
  split.
  - change 8 with (1 + 7).
    rewrite (proj2 (proj1 (getDayName_weeks 1) ltac:(lia))). reflexivity.
  - apply (proj2 (getDayName_weeks 0)); [lia | discriminate].
Defined.

(** Every day of the fallback plan is shown under the name the generator
    gave it: the day numbers run from 1 to 7 and the page's name for the
    number is the plan's name of the day. *)
Theorem getDayName_fallbackPlan (dailyCalories : number)
    (preferences : Preferences) (userProfile : UserProfile) (day : DayPlan) :
  In day (days (fallbackPlan dailyCalories preferences userProfile)) ->
  1 <= dayNumber day <= 7 /\
  getDayName (dayNumber day) = Some (dayName day).
Proof.
  cbn [days fallbackPlan In]. unfold mapi. cbn [mapi_from dayNames In].
  intros H.
  repeat (destruct H as [<- | H]; [split; [cbn; lia | reflexivity] |]).
  destruct H.
Qed.

Lemma getDayName_fallbackPlan_witness :
  getDayName (dayNumber (fallbackDay (Num.of_Z 2136) three_meals "Sunday" 6))
    = Some "Sunday".
Proof.
  apply (getDayName_fallbackPlan (Num.of_Z 2136) three_meals example_profile).
  do 6 right. left. reflexivity.
Defined.

(** ** A target that is not a number *)

Lemma calculateDailyCalories_inherited (bmr : Q) (activityLevel goal : string) :
  inherited activityLevel = true ->
  calculateDailyCalories bmr activityLevel goal = NaN.
Proof.
  unfold inherited, Object_prototype. cbn [existsb]. intros H.
  assert (Hm : activityMultiplier activityLevel = Some Inherited).
  { repeat (apply orb_true_iff in H as [H | H];
            [apply String.eqb_eq in H; subst activityLevel; reflexivity |]).
    discriminate H. }
  unfold calculateDailyCalories. rewrite Hm. cbn zeta.
  destruct (String.eqb goal "weight_loss");
    [| destruct (String.eqb goal "muscle_gain")]; reflexivity.
Qed.

Lemma makeRequest_key_missing (w : World) :
  key_missing w ->
  returned (makeRequest w) = Throw (Error "API_KEY_MISSING").
Proof.
  intros Hkey. unfold makeRequest, GEMINI_API_KEY.
  destruct Hkey as [-> | [-> | ->]]; reflexivity.
Qed.

(** An activity level that names a member every object inherits makes the
    target NaN, and the pipeline carries it through: without a key the
    generator returns the fallback plan built for NaN, the validator
    accepts it, and the total of the plan and the calories, protein,
    carbs and fat of every meal are NaN. *)
Theorem generateDietPlan_inherited_level (w : World) (request : DietPlanRequest) :
  key_missing w ->
  inherited (activityLevel (userProfile request)) = true ->
  1 <= mealsPerDay (preferences request) ->
  let plan := fallbackPlan NaN (preferences request) (userProfile request) in
  generateDietPlan w request = Ok (ToValue.plan plan) /\
  validateDietPlanStructure (ToValue.plan plan) = true /\
  totalCalories plan = NaN /\
  (forall day meal, In day (days plan) -> In meal (meals day) ->
     calories meal = NaN /\ protein meal = NaN /\
     carbs meal = NaN /\ fat meal = NaN).
Proof.
  intros Hkey Hlevel Hn plan.
  assert (Htarget : dailyCalories_of request = NaN)
    by (apply calculateDailyCalories_inherited, Hlevel).
  split; [| split; [| split]].
  - destruct (generateDietPlan_cases w request)
      as [(text & p & Hreq & _) | Hfb].
    + rewrite (makeRequest_key_missing w Hkey) in Hreq. discriminate Hreq.
    + rewrite Hfb, Htarget. now apply useFallback_ok.
  - now apply fallbackPlan_valid.
  - reflexivity.
  - intros day meal Hday Hmeal.
    destruct (fallbackPlan_days _ _ _ _ Hday) as [dayName [dayIndex [_ ->]]].
    destruct (fallbackDay_meal _ _ _ _ _ Hmeal) as [t [_ ->]].
    repeat split; reflexivity.
Qed.

Lemma generateDietPlan_inherited_level_witness :
  Js.get (ToValue.plan
            (fallbackPlan NaN (preferences constructor_request)
               (userProfile constructor_request))) "totalCalories"
    = Some (VNum NaN) /\
  generateDietPlan placeholder_world constructor_request =
    Ok (ToValue.plan
          (fallbackPlan NaN (preferences constructor_request)
             (userProfile constructor_request))).
Proof.
  split; [reflexivity |].
  apply (generateDietPlan_inherited_level placeholder_world constructor_request).
  - right. right. reflexivity.
  - reflexivity.
  - cbn. lia.
Defined.
